(** * LED night light: a model of [led_night_light.ino] and its properties

    The sketch drives a strip of ten WS2812 pixels from an Arduino Nano.
    Two momentary buttons select a colour, a mode and a brightness level;
    the selection is kept in the EEPROM; the strip is animated by linear
    graduation of every pixel towards a per-mode target colour.

    The sketch is a set of global variables and of [void] functions that
    mutate them.  It is modelled here by explicit state passing: the
    record [State] holds the globals, the content of the EEPROM and the
    calls received by the pixel driver, and each function of the sketch is
    a function on [State].  Reads of the clock and of the input pins are
    arguments.  An array access outside of a table has no defined result in
    C++.  The brightness level that [loadState] takes from the EEPROM is
    not tested before it is used as an index, and the sketch goes on with
    the byte that the read finds: that byte is an argument of [loadState].
    Every other access outside of a table returns [None]. *)

From Stdlib Require Import ZArith QArith Bool List Lia.
From stdpp Require Import base option list gmap.

Local Open Scope Z_scope.

(** ** Machine arithmetic *)

(** Conversion to [byte] (an 8-bit unsigned integer). *)
Definition to_byte (z : Z) : Z := z mod 256.

(** Subtraction of two [unsigned long] (32-bit) values. *)
Definition sub32 (x y : Z) : Z := (x - y) mod 2 ^ 32.

(** The [constrain(amt, low, high)] macro of the Arduino core:
    [((amt)<(low)?(low):((amt)>(high)?(high):(amt)))]. *)
Definition constrain (amt low high : Z) : Z :=
  if amt <? low then low else if amt >? high then high else amt.

Definition is_byte (z : Z) : bool := (0 <=? z) && (z <=? 255).

(** Read of a C array at a signed index; [None] outside of the array. *)
Definition index {A : Type} (l : list A) (i : Z) : option A :=
  if i <? 0 then None else l !! Z.to_nat i.

(** ** Configuration *)

Definition DEBOUNCE_DELAY : Z := 50.
Definition NUM_LEDS : nat := 10.
Definition LED_UPDATE_DELAY : Q := 83333 # 10000.
Definition LED_COLOR_GRADUATION : Z := 1.
Definition PHASE_DURATION : Z := 1000.
Definition LED_BRIGHTNESS_1 : Z := 50.
Definition LED_BRIGHTNESS_2 : Z := 90.
Definition LED_BRIGHTNESS_3 : Z := 130.
Definition LED_BRIGHTNESS_4 : Z := 180.
Definition LED_BRIGHTNESS_5 : Z := 220.

Definition MODECOUNT : Z := 3.
Definition MODE_UNIFIED : Z := 0.
Definition MODE_COMPLEMENTARY : Z := 1.
Definition MODE_RAIN : Z := 2.

(** [struct RGB]: three bytes. *)
Record RGB : Type := mkRGB { r : Z; g : Z; b : Z }.

Definition black : RGB := mkRGB 0 0 0.

Definition rgb_eqb (x y : RGB) : bool :=
  (r x =? r y) && (g x =? g y) && (b x =? b y).

Definition rgb_ok (c : RGB) : bool :=
  is_byte (r c) && is_byte (g c) && is_byte (b c).

Definition modes : list Z := [MODE_UNIFIED; MODE_COMPLEMENTARY; MODE_RAIN].

Definition brightnessValues : list Z :=
  [LED_BRIGHTNESS_1; LED_BRIGHTNESS_2; LED_BRIGHTNESS_3; LED_BRIGHTNESS_4;
   LED_BRIGHTNESS_5].

Definition NUM_COLORS : Z := 8.

Definition colors : list RGB :=
  [ mkRGB 255 255 255   (* White *)
  ; mkRGB 255 127 0     (* Orange *)
  ; mkRGB 255 225 0     (* Yellow *)
  ; mkRGB 127 255 0     (* Lime Green *)
  ; mkRGB 0 255 255     (* Aqua *)
  ; mkRGB 127 0 255     (* Purple *)
  ; mkRGB 230 30 110    (* Pink *)
  ; mkRGB 255 60 40     (* Red *)
  ].

(** [colors[k]] for a literal [k] of the initialiser below. *)
Definition colors_at (k : nat) : RGB := nth k colors black.

Definition complementary_colors : list RGB :=
  [ colors_at 4   (* White: Aqua *)
  ; colors_at 2   (* Orange: Yellow *)
  ; colors_at 7   (* Yellow: Red *)
  ; colors_at 2   (* Lime Green: Yellow *)
  ; colors_at 0   (* Aqua: White *)
  ; colors_at 6   (* Purple: Pink *)
  ; colors_at 5   (* Pink: Purple *)
  ; colors_at 1   (* Red: Orange *)
  ].

Definition COMPLEMENTARY_FRONT : bool := false.
Definition COMPLEMENTARY_REAR : bool := true.

Definition complementary_LED_map : list bool :=
  [ COMPLEMENTARY_FRONT; COMPLEMENTARY_FRONT; COMPLEMENTARY_FRONT;
    COMPLEMENTARY_REAR; COMPLEMENTARY_REAR; COMPLEMENTARY_REAR;
    COMPLEMENTARY_REAR; COMPLEMENTARY_REAR; COMPLEMENTARY_REAR;
    COMPLEMENTARY_FRONT ].

Definition rain_phase_LED_map : list Z := [0; 2; 1; 1; 2; 0; 0; 2; 1; 0].

(** ** The collaborators: pixel driver, EEPROM, decoded actions *)

(** Calls received by the [Adafruit_NeoPixel] instance, oldest first. *)
Inductive StripCall : Type :=
  | Begin
  | SetPixelColor (n : nat) (c : Z)
  | SetBrightness (v : Z)
  | Show.

(** [strip.Color(r, g, b)]: the three bytes packed in a 32-bit word. *)
Definition strip_Color (cr cg cb : Z) : Z :=
  Z.lor (Z.lor (Z.shiftl cr 16) (Z.shiftl cg 8)) cb.

(** The three handlers a button release can call. The field [calls] of
    the state records every entry in one of them, oldest first. *)
Inductive Action : Type := CycleColor | CycleMode | IncreaseBrightness.


(** An erased EEPROM cell reads 255; a cell holds one byte. *)
Definition EEPROM_read (e : gmap Z Z) (addr : Z) : Z := default 255 (e !! addr).
Definition EEPROM_write (addr v : Z) (e : gmap Z Z) : gmap Z Z :=
  <[addr := to_byte v]> e.

(** ** The globals *)

(** An array of two elements, one per button. *)
Record Arr2 (A : Type) : Type := mkArr2 { at0 : A; at1 : A }.
Arguments mkArr2 {A} _ _.
Arguments at0 {A} _.
Arguments at1 {A} _.

Definition get2 {A : Type} (i : nat) (a : Arr2 A) : A :=
  match i with O => at0 a | _ => at1 a end.

Definition set2 {A : Type} (i : nat) (v : A) (a : Arr2 A) : Arr2 A :=
  match i with
  | O => mkArr2 v (at1 a)
  | _ => mkArr2 (at0 a) v
  end.

Record State : Type := mkState {
  btnState : Arr2 bool;
  lastBtnState : Arr2 bool;
  btnPressHandled : Arr2 bool;
  lastBtnDebounceTime : Arr2 Z;
  btnDownStart : Arr2 Z;
  lastLEDUpdate : Z;
  lastPhaseChange : Z;
  currentMode : Z;
  inputBrightnessLevel : Z;
  targetBrightness : Z;
  actualBrightness : Z;
  currentColorIndex : Z;
  targetColor : list RGB;
  actualColor : list RGB;
  currentRainPhase : Z;
  eeprom : gmap Z Z;
  strip : list StripCall;
  calls : list Action
}.

Definition set_btnState (v : Arr2 bool) (s : State) : State :=
  {| btnState := v; lastBtnState := lastBtnState s;
     btnPressHandled := btnPressHandled s;
     lastBtnDebounceTime := lastBtnDebounceTime s;
     btnDownStart := btnDownStart s; lastLEDUpdate := lastLEDUpdate s;
     lastPhaseChange := lastPhaseChange s; currentMode := currentMode s;
     inputBrightnessLevel := inputBrightnessLevel s;
     targetBrightness := targetBrightness s;
     actualBrightness := actualBrightness s;
     currentColorIndex := currentColorIndex s; targetColor := targetColor s;
     actualColor := actualColor s; currentRainPhase := currentRainPhase s;
     eeprom := eeprom s; strip := strip s; calls := calls s |}.

Definition set_lastBtnState (v : Arr2 bool) (s : State) : State :=
  {| btnState := btnState s; lastBtnState := v;
     btnPressHandled := btnPressHandled s;
     lastBtnDebounceTime := lastBtnDebounceTime s;
     btnDownStart := btnDownStart s; lastLEDUpdate := lastLEDUpdate s;
     lastPhaseChange := lastPhaseChange s; currentMode := currentMode s;
     inputBrightnessLevel := inputBrightnessLevel s;
     targetBrightness := targetBrightness s;
     actualBrightness := actualBrightness s;
     currentColorIndex := currentColorIndex s; targetColor := targetColor s;
     actualColor := actualColor s; currentRainPhase := currentRainPhase s;
     eeprom := eeprom s; strip := strip s; calls := calls s |}.

Definition set_btnPressHandled (v : Arr2 bool) (s : State) : State :=
  {| btnState := btnState s; lastBtnState := lastBtnState s;
     btnPressHandled := v; lastBtnDebounceTime := lastBtnDebounceTime s;
     btnDownStart := btnDownStart s; lastLEDUpdate := lastLEDUpdate s;
     lastPhaseChange := lastPhaseChange s; currentMode := currentMode s;
     inputBrightnessLevel := inputBrightnessLevel s;
     targetBrightness := targetBrightness s;
     actualBrightness := actualBrightness s;
     currentColorIndex := currentColorIndex s; targetColor := targetColor s;
     actualColor := actualColor s; currentRainPhase := currentRainPhase s;
     eeprom := eeprom s; strip := strip s; calls := calls s |}.

Definition set_lastBtnDebounceTime (v : Arr2 Z) (s : State) : State :=
  {| btnState := btnState s; lastBtnState := lastBtnState s;
     btnPressHandled := btnPressHandled s; lastBtnDebounceTime := v;
     btnDownStart := btnDownStart s; lastLEDUpdate := lastLEDUpdate s;
     lastPhaseChange := lastPhaseChange s; currentMode := currentMode s;
     inputBrightnessLevel := inputBrightnessLevel s;
     targetBrightness := targetBrightness s;
     actualBrightness := actualBrightness s;
     currentColorIndex := currentColorIndex s; targetColor := targetColor s;
     actualColor := actualColor s; currentRainPhase := currentRainPhase s;
     eeprom := eeprom s; strip := strip s; calls := calls s |}.

Definition set_btnDownStart (v : Arr2 Z) (s : State) : State :=
  {| btnState := btnState s; lastBtnState := lastBtnState s;
     btnPressHandled := btnPressHandled s;
     lastBtnDebounceTime := lastBtnDebounceTime s; btnDownStart := v;
     lastLEDUpdate := lastLEDUpdate s; lastPhaseChange := lastPhaseChange s;
     currentMode := currentMode s;
     inputBrightnessLevel := inputBrightnessLevel s;
     targetBrightness := targetBrightness s;
     actualBrightness := actualBrightness s;
     currentColorIndex := currentColorIndex s; targetColor := targetColor s;
     actualColor := actualColor s; currentRainPhase := currentRainPhase s;
     eeprom := eeprom s; strip := strip s; calls := calls s |}.

Definition set_lastLEDUpdate (v : Z) (s : State) : State :=
  {| btnState := btnState s; lastBtnState := lastBtnState s;
     btnPressHandled := btnPressHandled s;
     lastBtnDebounceTime := lastBtnDebounceTime s;
     btnDownStart := btnDownStart s; lastLEDUpdate := v;
     lastPhaseChange := lastPhaseChange s; currentMode := currentMode s;
     inputBrightnessLevel := inputBrightnessLevel s;
     targetBrightness := targetBrightness s;
     actualBrightness := actualBrightness s;
     currentColorIndex := currentColorIndex s; targetColor := targetColor s;
     actualColor := actualColor s; currentRainPhase := currentRainPhase s;
     eeprom := eeprom s; strip := strip s; calls := calls s |}.

Definition set_lastPhaseChange (v : Z) (s : State) : State :=
  {| btnState := btnState s; lastBtnState := lastBtnState s;
     btnPressHandled := btnPressHandled s;
     lastBtnDebounceTime := lastBtnDebounceTime s;
     btnDownStart := btnDownStart s; lastLEDUpdate := lastLEDUpdate s;
     lastPhaseChange := v; currentMode := currentMode s;
     inputBrightnessLevel := inputBrightnessLevel s;
     targetBrightness := targetBrightness s;
     actualBrightness := actualBrightness s;
     currentColorIndex := currentColorIndex s; targetColor := targetColor s;
     actualColor := actualColor s; currentRainPhase := currentRainPhase s;
     eeprom := eeprom s; strip := strip s; calls := calls s |}.

Definition set_currentMode (v : Z) (s : State) : State :=
  {| btnState := btnState s; lastBtnState := lastBtnState s;
     btnPressHandled := btnPressHandled s;
     lastBtnDebounceTime := lastBtnDebounceTime s;
     btnDownStart := btnDownStart s; lastLEDUpdate := lastLEDUpdate s;
     lastPhaseChange := lastPhaseChange s; currentMode := v;
     inputBrightnessLevel := inputBrightnessLevel s;
     targetBrightness := targetBrightness s;
     actualBrightness := actualBrightness s;
     currentColorIndex := currentColorIndex s; targetColor := targetColor s;
     actualColor := actualColor s; currentRainPhase := currentRainPhase s;
     eeprom := eeprom s; strip := strip s; calls := calls s |}.

Definition set_inputBrightnessLevel (v : Z) (s : State) : State :=
  {| btnState := btnState s; lastBtnState := lastBtnState s;
     btnPressHandled := btnPressHandled s;
     lastBtnDebounceTime := lastBtnDebounceTime s;
     btnDownStart := btnDownStart s; lastLEDUpdate := lastLEDUpdate s;
     lastPhaseChange := lastPhaseChange s; currentMode := currentMode s;
     inputBrightnessLevel := v; targetBrightness := targetBrightness s;
     actualBrightness := actualBrightness s;
     currentColorIndex := currentColorIndex s; targetColor := targetColor s;
     actualColor := actualColor s; currentRainPhase := currentRainPhase s;
     eeprom := eeprom s; strip := strip s; calls := calls s |}.

Definition set_targetBrightness (v : Z) (s : State) : State :=
  {| btnState := btnState s; lastBtnState := lastBtnState s;
     btnPressHandled := btnPressHandled s;
     lastBtnDebounceTime := lastBtnDebounceTime s;
     btnDownStart := btnDownStart s; lastLEDUpdate := lastLEDUpdate s;
     lastPhaseChange := lastPhaseChange s; currentMode := currentMode s;
     inputBrightnessLevel := inputBrightnessLevel s; targetBrightness := v;
     actualBrightness := actualBrightness s;
     currentColorIndex := currentColorIndex s; targetColor := targetColor s;
     actualColor := actualColor s; currentRainPhase := currentRainPhase s;
     eeprom := eeprom s; strip := strip s; calls := calls s |}.

Definition set_actualBrightness (v : Z) (s : State) : State :=
  {| btnState := btnState s; lastBtnState := lastBtnState s;
     btnPressHandled := btnPressHandled s;
     lastBtnDebounceTime := lastBtnDebounceTime s;
     btnDownStart := btnDownStart s; lastLEDUpdate := lastLEDUpdate s;
     lastPhaseChange := lastPhaseChange s; currentMode := currentMode s;
     inputBrightnessLevel := inputBrightnessLevel s;
     targetBrightness := targetBrightness s; actualBrightness := v;
     currentColorIndex := currentColorIndex s; targetColor := targetColor s;
     actualColor := actualColor s; currentRainPhase := currentRainPhase s;
     eeprom := eeprom s; strip := strip s; calls := calls s |}.

Definition set_currentColorIndex (v : Z) (s : State) : State :=
  {| btnState := btnState s; lastBtnState := lastBtnState s;
     btnPressHandled := btnPressHandled s;
     lastBtnDebounceTime := lastBtnDebounceTime s;
     btnDownStart := btnDownStart s; lastLEDUpdate := lastLEDUpdate s;
     lastPhaseChange := lastPhaseChange s; currentMode := currentMode s;
     inputBrightnessLevel := inputBrightnessLevel s;
     targetBrightness := targetBrightness s;
     actualBrightness := actualBrightness s; currentColorIndex := v;
     targetColor := targetColor s; actualColor := actualColor s;
     currentRainPhase := currentRainPhase s; eeprom := eeprom s;
     strip := strip s; calls := calls s |}.

Definition set_targetColor (v : list RGB) (s : State) : State :=
  {| btnState := btnState s; lastBtnState := lastBtnState s;
     btnPressHandled := btnPressHandled s;
     lastBtnDebounceTime := lastBtnDebounceTime s;
     btnDownStart := btnDownStart s; lastLEDUpdate := lastLEDUpdate s;
     lastPhaseChange := lastPhaseChange s; currentMode := currentMode s;
     inputBrightnessLevel := inputBrightnessLevel s;
     targetBrightness := targetBrightness s;
     actualBrightness := actualBrightness s;
     currentColorIndex := currentColorIndex s; targetColor := v;
     actualColor := actualColor s; currentRainPhase := currentRainPhase s;
     eeprom := eeprom s; strip := strip s; calls := calls s |}.

Definition set_actualColor (v : list RGB) (s : State) : State :=
  {| btnState := btnState s; lastBtnState := lastBtnState s;
     btnPressHandled := btnPressHandled s;
     lastBtnDebounceTime := lastBtnDebounceTime s;
     btnDownStart := btnDownStart s; lastLEDUpdate := lastLEDUpdate s;
     lastPhaseChange := lastPhaseChange s; currentMode := currentMode s;
     inputBrightnessLevel := inputBrightnessLevel s;
     targetBrightness := targetBrightness s;
     actualBrightness := actualBrightness s;
     currentColorIndex := currentColorIndex s; targetColor := targetColor s;
     actualColor := v; currentRainPhase := currentRainPhase s;
     eeprom := eeprom s; strip := strip s; calls := calls s |}.

Definition set_currentRainPhase (v : Z) (s : State) : State :=
  {| btnState := btnState s; lastBtnState := lastBtnState s;
     btnPressHandled := btnPressHandled s;
     lastBtnDebounceTime := lastBtnDebounceTime s;
     btnDownStart := btnDownStart s; lastLEDUpdate := lastLEDUpdate s;
     lastPhaseChange := lastPhaseChange s; currentMode := currentMode s;
     inputBrightnessLevel := inputBrightnessLevel s;
     targetBrightness := targetBrightness s;
     actualBrightness := actualBrightness s;
     currentColorIndex := currentColorIndex s; targetColor := targetColor s;
     actualColor := actualColor s; currentRainPhase := v;
     eeprom := eeprom s; strip := strip s; calls := calls s |}.

Definition set_eeprom (v : gmap Z Z) (s : State) : State :=
  {| btnState := btnState s; lastBtnState := lastBtnState s;
     btnPressHandled := btnPressHandled s;
     lastBtnDebounceTime := lastBtnDebounceTime s;
     btnDownStart := btnDownStart s; lastLEDUpdate := lastLEDUpdate s;
     lastPhaseChange := lastPhaseChange s; currentMode := currentMode s;
     inputBrightnessLevel := inputBrightnessLevel s;
     targetBrightness := targetBrightness s;
     actualBrightness := actualBrightness s;
     currentColorIndex := currentColorIndex s; targetColor := targetColor s;
     actualColor := actualColor s; currentRainPhase := currentRainPhase s;
     eeprom := v; strip := strip s; calls := calls s |}.

Definition set_strip (v : list StripCall) (s : State) : State :=
  {| btnState := btnState s; lastBtnState := lastBtnState s;
     btnPressHandled := btnPressHandled s;
     lastBtnDebounceTime := lastBtnDebounceTime s;
     btnDownStart := btnDownStart s; lastLEDUpdate := lastLEDUpdate s;
     lastPhaseChange := lastPhaseChange s; currentMode := currentMode s;
     inputBrightnessLevel := inputBrightnessLevel s;
     targetBrightness := targetBrightness s;
     actualBrightness := actualBrightness s;
     currentColorIndex := currentColorIndex s; targetColor := targetColor s;
     actualColor := actualColor s; currentRainPhase := currentRainPhase s;
     eeprom := eeprom s; strip := v; calls := calls s |}.

Definition set_calls (v : list Action) (s : State) : State :=
  {| btnState := btnState s; lastBtnState := lastBtnState s;
     btnPressHandled := btnPressHandled s;
     lastBtnDebounceTime := lastBtnDebounceTime s;
     btnDownStart := btnDownStart s; lastLEDUpdate := lastLEDUpdate s;
     lastPhaseChange := lastPhaseChange s; currentMode := currentMode s;
     inputBrightnessLevel := inputBrightnessLevel s;
     targetBrightness := targetBrightness s;
     actualBrightness := actualBrightness s;
     currentColorIndex := currentColorIndex s; targetColor := targetColor s;
     actualColor := actualColor s; currentRainPhase := currentRainPhase s;
     eeprom := eeprom s; strip := strip s; calls := v |}.

(** The globals as the sketch initialises them, over a given EEPROM.
    [targetColor] and [actualColor] have no initialiser: they are zeroed. *)
Definition boot (e : gmap Z Z) : State :=
  {| btnState := mkArr2 false false;
     lastBtnState := mkArr2 false false;
     btnPressHandled := mkArr2 false false;
     lastBtnDebounceTime := mkArr2 0 0;
     btnDownStart := mkArr2 0 0;
     lastLEDUpdate := 0;
     lastPhaseChange := 0;
     currentMode := MODE_UNIFIED;
     inputBrightnessLevel := 3;
     targetBrightness := LED_BRIGHTNESS_4;
     actualBrightness := LED_BRIGHTNESS_4;
     currentColorIndex := 0;
     targetColor := replicate NUM_LEDS black;
     actualColor := replicate NUM_LEDS black;
     currentRainPhase := 0;
     eeprom := e;
     strip := [];
     calls := [] |}.

(** Every variable holds a value of its C++ type, and the two pixel arrays
    have their declared size. *)
Definition well_typed (s : State) : bool :=
  is_byte (currentMode s) && is_byte (inputBrightnessLevel s)
  && is_byte (targetBrightness s) && is_byte (actualBrightness s)
  && is_byte (currentRainPhase s)
  && (length (targetColor s) =? NUM_LEDS)%nat
  && (length (actualColor s) =? NUM_LEDS)%nat
  && forallb rgb_ok (targetColor s) && forallb rgb_ok (actualColor s).

(** ** Loops *)

(** [for (i = 0; i < n; i++) body(i)] over a state of type [A]. *)
Fixpoint for_upto {A : Type} (n : nat) (body : nat -> A -> option A) (a : A)
  : option A :=
  match n with
  | O => Some a
  | S k => a' ← for_upto k body a; body k a'
  end.

(** ** Persistence *)

Definition saveState (s : State) : State :=
  let s := set_eeprom (EEPROM_write 0 (currentMode s) (eeprom s)) s in
  let s := set_eeprom (EEPROM_write 1 (inputBrightnessLevel s) (eeprom s)) s in
  set_eeprom (EEPROM_write 2 (currentColorIndex s) (eeprom s)) s.

(** [brightnessValues[i]] for a level [i] taken from the EEPROM.  The sketch
    makes no test of its range: for a level of the table the read gives
    its entry; for another one it goes on with the byte found at that
    place in memory, which the sketch does not fix and for which [beyond]
    stands. *)
Definition brightnessValues_at (beyond i : Z) : Z :=
  default (to_byte beyond) (index brightnessValues i).

Definition loadState (beyond : Z) (s : State) : option State :=
  let s := set_currentMode
             (if EEPROM_read (eeprom s) 0 =? 255 then currentMode s
              else EEPROM_read (eeprom s) 0) s in
  let s := set_inputBrightnessLevel
             (if EEPROM_read (eeprom s) 1 =? 255 then inputBrightnessLevel s
              else EEPROM_read (eeprom s) 1) s in
  let s := set_targetBrightness
             (brightnessValues_at beyond (inputBrightnessLevel s)) s in
  let s := set_actualBrightness 0 s in
  let s := set_currentColorIndex
             (if EEPROM_read (eeprom s) 2 =? 255 then currentColorIndex s
              else EEPROM_read (eeprom s) 2) s in
  for_upto NUM_LEDS
    (fun i s => Some (set_actualColor (<[i := mkRGB 0 0 0]> (actualColor s)) s))
    s.

(** ** The three handlers *)

Definition incBrightness (s : State) : option State :=
  let s := set_calls (calls s ++ [IncreaseBrightness]) s in
  let newBrightness := to_byte (inputBrightnessLevel s + 1) in
  let newBrightness := if newBrightness >? 4 then 0 else newBrightness in
  let s := set_inputBrightnessLevel newBrightness s in
  v ← index brightnessValues (inputBrightnessLevel s);
  let s := set_targetBrightness v s in
  Some (saveState s).

Definition cycleMode (s : State) : State :=
  let s := set_calls (calls s ++ [CycleMode]) s in
  let newMode := to_byte (currentMode s + 1) in
  let newMode := if newMode >=? MODECOUNT then 0 else newMode in
  let s := set_currentMode newMode s in
  saveState s.

Definition cycleColor (s : State) : State :=
  let s := set_calls (calls s ++ [CycleColor]) s in
  let newColorIndex := to_byte (currentColorIndex s + 1) in
  let newColorIndex := if newColorIndex >=? NUM_COLORS then 0 else newColorIndex in
  let s := set_currentColorIndex newColorIndex s in
  saveState s.

(** ** Buttons *)

(** What one pass of [checkButtons] reads: the clock, the two pins, and
    the clock again inside [btnStateChange] for each button. *)
Record ButtonsInput : Type := mkButtonsInput {
  millis_check : Z;
  digitalRead : Arr2 bool;
  millis_change : Arr2 Z
}.

Definition btnStateChange (currentMillis : Z) (btnNumber : nat)
    (newState : bool) (duration : Z) (s : State) : option State :=
  let s := set_btnState (set2 btnNumber newState (btnState s)) s in
  if newState then
    let s := set_btnDownStart (set2 btnNumber currentMillis (btnDownStart s)) s in
    Some (set_btnPressHandled (set2 btnNumber false (btnPressHandled s)) s)
  else
    let s := set_btnDownStart (set2 btnNumber 0 (btnDownStart s)) s in
    if (btnNumber =? 0)%nat && negb (get2 1 (btnState s))
       && negb (get2 0 (btnPressHandled s))
    then Some (cycleColor s)
    else if (btnNumber =? 1)%nat && negb (get2 0 (btnState s))
            && negb (get2 1 (btnPressHandled s))
    then Some (cycleMode s)
    else if (btnNumber =? 1)%nat && get2 0 (btnState s)
            && negb (get2 1 (btnPressHandled s))
    then
      let s := set_btnPressHandled (set2 0 true (btnPressHandled s)) s in
      incBrightness s
    else Some s.

(** The body of the loop of [checkButtons], for button [i]. *)
Definition checkButton (inp : ButtonsInput) (i : nat) (s : State)
  : option State :=
  let currentMillis := millis_check inp in
  let btnReading := get2 i (digitalRead inp) in
  let s :=
    if negb (eqb btnReading (get2 i (lastBtnState s)))
    then set_lastBtnDebounceTime
           (set2 i currentMillis (lastBtnDebounceTime s)) s
    else s in
  s ← (if DEBOUNCE_DELAY <? sub32 currentMillis (get2 i (lastBtnDebounceTime s))
       then
         if negb (eqb btnReading (get2 i (btnState s)))
         then btnStateChange (get2 i (millis_change inp)) i btnReading
                (if btnReading then 0
                 else sub32 currentMillis (get2 i (btnDownStart s))) s
         else Some s
       else Some s);
  Some (set_lastBtnState (set2 i btnReading (lastBtnState s)) s).

Definition checkButtons (inp : ButtonsInput) (s : State) : option State :=
  for_upto 2 (checkButton inp) s.

(** ** Phase of the rain *)

Definition updatePhase (currentMillis : Z) (s : State) : State :=
  if currentMode s =? MODE_RAIN then
    if PHASE_DURATION <? sub32 currentMillis (lastPhaseChange s) then
      let s := set_lastPhaseChange currentMillis s in
      let s := set_currentRainPhase (to_byte (currentRainPhase s + 1)) s in
      if currentRainPhase s >? 2 then set_currentRainPhase 0 s else s
    else s
  else s.

(** ** Colours of the frame *)

Definition halfwayChannel (x y : Z) : Z :=
  if x <? y then to_byte (x + (y - x) ÷ 2)
  else if x >? y then to_byte (y + (x - y) ÷ 2)
  else x.

Definition halfwayBetweenColors (A B : RGB) : RGB :=
  {| r := halfwayChannel (r A) (r B);
     g := halfwayChannel (g A) (g B);
     b := halfwayChannel (b A) (b B) |}.

(** [if (new < target) new = constrain(new + 1, 0, target);
     else if (new > target) new = constrain(new - 1, target, 255);]
    on the [int] copy of one channel. *)
Definition graduateChannel (actual target : Z) : Z :=
  let new := actual in
  if new <? target then constrain (new + LED_COLOR_GRADUATION) 0 target
  else if new >? target then constrain (new - LED_COLOR_GRADUATION) target 255
  else new.

(** Bodies of the three loops of the [switch] on the mode. *)
Definition unifiedTarget (i : nat) (s : State) : option State :=
  c ← index colors (currentColorIndex s);
  Some (set_targetColor (<[i := c]> (targetColor s)) s).

Definition complementaryTarget (i : nat) (s : State) : option State :=
  role ← complementary_LED_map !! i;
  if eqb role COMPLEMENTARY_FRONT then
    c ← index colors (currentColorIndex s);
    Some (set_targetColor (<[i := c]> (targetColor s)) s)
  else
    c ← index complementary_colors (currentColorIndex s);
    Some (set_targetColor (<[i := c]> (targetColor s)) s).

Definition rainTarget (primaryPhase secondaryPhase tertiaryPhase : Z)
    (i : nat) (s : State) : option State :=
  p ← rain_phase_LED_map !! i;
  if p =? primaryPhase then
    c ← index colors (currentColorIndex s);
    Some (set_targetColor (<[i := c]> (targetColor s)) s)
  else if p =? secondaryPhase then
    c ← index colors (currentColorIndex s);
    c' ← index complementary_colors (currentColorIndex s);
    Some (set_targetColor (<[i := halfwayBetweenColors c c']> (targetColor s)) s)
  else if p =? tertiaryPhase then
    c ← index complementary_colors (currentColorIndex s);
    Some (set_targetColor (<[i := c]> (targetColor s)) s)
  else Some s.

(** The [switch (currentMode)] of [updateLEDs]; it has no default case. *)
Definition updateLEDs_targets (s : State) : option State :=
  if currentMode s =? MODE_UNIFIED then
    for_upto NUM_LEDS unifiedTarget s
  else if currentMode s =? MODE_COMPLEMENTARY then
    for_upto NUM_LEDS complementaryTarget s
  else if currentMode s =? MODE_RAIN then
    let primaryPhase := currentRainPhase s in
    let secondaryPhase := to_byte (currentRainPhase s + 1) in
    let tertiaryPhase := to_byte (currentRainPhase s + 2) in
    let secondaryPhase :=
      if secondaryPhase >? 2 then to_byte (secondaryPhase - 3)
      else secondaryPhase in
    let tertiaryPhase :=
      if tertiaryPhase >? 2 then to_byte (tertiaryPhase - 3)
      else tertiaryPhase in
    for_upto NUM_LEDS (rainTarget primaryPhase secondaryPhase tertiaryPhase) s
  else Some s.

(** Body of the graduation loop; the first component is the local
    [somethingChanged]. *)
Definition graduateLED (i : nat) (st : bool * State) : option (bool * State) :=
  let '(somethingChanged, s) := st in
  a ← actualColor s !! i;
  t ← targetColor s !! i;
  if negb (r a =? r t) || negb (g a =? g t) || negb (b a =? b t) then
    let newR := graduateChannel (r a) (r t) in
    let newG := graduateChannel (g a) (g t) in
    let newB := graduateChannel (b a) (b t) in
    let c := {| r := to_byte newR; g := to_byte newG; b := to_byte newB |} in
    let s := set_actualColor (<[i := c]> (actualColor s)) s in
    let s := set_strip
               (strip s ++ [SetPixelColor i (strip_Color (r c) (g c) (b c))]) s in
    Some (true, s)
  else Some (somethingChanged, s).

Definition graduateBrightness (st : bool * State) : bool * State :=
  let '(somethingChanged, s) := st in
  if negb (targetBrightness s =? actualBrightness s) then
    let newBrightness := actualBrightness s in
    let newBrightness :=
      if newBrightness <? targetBrightness s
      then constrain (newBrightness + LED_COLOR_GRADUATION) 0 (targetBrightness s)
      else constrain (newBrightness - LED_COLOR_GRADUATION) (targetBrightness s) 255 in
    let s := set_actualBrightness (to_byte newBrightness) s in
    let s := set_strip (strip s ++ [SetBrightness (actualBrightness s)]) s in
    (true, s)
  else (somethingChanged, s).

(** The part of [updateLEDs] that is run on a frame, up to the test of
    [somethingChanged]: targets, graduation of the pixels, graduation of
    the brightness. *)
Definition updateLEDs_frame (s : State) : option (bool * State) :=
  s ← updateLEDs_targets s;
  st ← for_upto NUM_LEDS graduateLED (false, s);
  Some (graduateBrightness st).

(** [x > LED_UPDATE_DELAY] for an [unsigned long] [x]: the comparison is
    done on floating-point numbers; the conversion of [x] is monotone and
    exact on small values, so that the test is the one on rationals. *)
Definition exceeds_update_delay (x : Z) : bool :=
  negb (Qle_bool (inject_Z x) LED_UPDATE_DELAY).

Definition updateLEDs (currentMillis : Z) (s : State) : option State :=
  if exceeds_update_delay (sub32 currentMillis (lastLEDUpdate s)) then
    st ← updateLEDs_frame s;
    let '(somethingChanged, s) := (st : bool * State) in
    let s := if somethingChanged then set_strip (strip s ++ [Show]) s else s in
    Some (set_lastLEDUpdate currentMillis s)
  else Some s.

(** ** [setup] and [loop] *)

(** The two calls of [pinMode] write no global.  [beyond] is the argument
    of [loadState]. *)
Definition setup (beyond : Z) (s : State) : option State :=
  s ← loadState beyond s;
  Some (set_strip (strip s ++ [Begin]) s).

(** What one iteration of [loop] reads from the clock and the pins. *)
Record LoopInput : Type := mkLoopInput {
  buttons_input : ButtonsInput;
  millis_phase : Z;
  millis_leds : Z
}.

Definition loop (inp : LoopInput) (s : State) : option State :=
  s ← checkButtons (buttons_input inp) s;
  let s := updatePhase (millis_phase inp) s in
  updateLEDs (millis_leds inp) s.

(** The states of a run over the EEPROM [e]: after [setup], then after
    every iteration of [loop]. *)
Inductive reachable (beyond : Z) (e : gmap Z Z) : State -> Prop :=
  | reachable_setup s :
      setup beyond (boot e) = Some s -> reachable beyond e s
  | reachable_loop s inp s' :
      reachable beyond e s -> loop inp s = Some s' -> reachable beyond e s'.

(** Successive passes of [checkButtons], one per element of [inps]. *)
Fixpoint run_buttons (inps : list ButtonsInput) (s : State) : option State :=
  match inps with
  | [] => Some s
  | inp :: rest => s' ← checkButtons inp s; run_buttons rest s'
  end.

(** ** Sequences of button readings *)

(** The two pins read [rd] on the pass [inp]. *)
Definition reads (rd : Arr2 bool) (inp : ButtonsInput) : bool :=
  eqb (at0 (digitalRead inp)) (at0 rd) && eqb (at1 (digitalRead inp)) (at1 rd).

(** Passes of [checkButtons] during which the pins keep the readings [rd],
    long enough for a pass to come more than [DEBOUNCE_DELAY] after the
    first one. *)
Definition stable_segment (rd : Arr2 bool) (seg : list ButtonsInput) : bool :=
  match seg with
  | [] => false
  | first :: rest =>
      forallb (reads rd) seg
      && existsb (fun x => DEBOUNCE_DELAY
                           <? sub32 (millis_check x) (millis_check first)) rest
  end.



(** The handlers entered between the states [s] and [s']. *)
Definition emitted (s s' : State) : list Action :=
  drop (length (calls s)) (calls s').


(** ** Predicates of the statements *)

(** The three selections are in the range of their tables. *)
Definition selection_ok (s : State) : bool :=
  (0 <=? currentMode s) && (currentMode s <=? 2)
  && (0 <=? inputBrightnessLevel s) && (inputBrightnessLevel s <=? 4)
  && (0 <=? currentColorIndex s) && (currentColorIndex s <=? 7).

(** The persisted selection: mode, brightness level, colour index. *)
Definition selection (s : State) : Z * Z * Z :=
  (currentMode s, inputBrightnessLevel s, currentColorIndex s).

(** A stored byte is the sentinel or at most [hi]. *)
Definition stored_ok (e : gmap Z Z) (addr hi : Z) : bool :=
  (EEPROM_read e addr =? 255)
  || ((0 <=? EEPROM_read e addr) && (EEPROM_read e addr <=? hi)).

Definition store_ok (e : gmap Z Z) : bool :=
  stored_ok e 0 2 && stored_ok e 1 4 && stored_ok e 2 7.

(** [n] calls of a handler that can fail. *)
Fixpoint iterate (n : nat) (f : State -> option State) (s : State)
  : option State :=
  match n with
  | O => Some s
  | S k => s' ← f s; iterate k f s'
  end.

(** The halfway blend as the specification words it, with the floor. *)
Definition halfway_spec (x y : Z) : Z :=
  if x <? y then x + (y - x) / 2
  else if x >? y then y + (x - y) / 2
  else x.

(** ** A frame, position by position *)

(** What the loop of each mode writes at position [i], from the base and
    complementary colours of the current index and the value [old] there. *)
Definition unified_target (base : RGB) (i : nat) (old : RGB) : RGB := base.

Definition complementary_target (base comp : RGB) (i : nat) (old : RGB) : RGB :=
  match complementary_LED_map !! i with
  | Some role => if eqb role COMPLEMENTARY_FRONT then base else comp
  | None => old
  end.

Definition rain_target (primaryPhase secondaryPhase tertiaryPhase : Z)
    (base comp : RGB) (i : nat) (old : RGB) : RGB :=
  match rain_phase_LED_map !! i with
  | Some p =>
      if p =? primaryPhase then base
      else if p =? secondaryPhase then halfwayBetweenColors base comp
      else if p =? tertiaryPhase then comp
      else old
  | None => old
  end.

(** The secondary and tertiary phases as [updateLEDs] computes them. *)
Definition secondary_phase (phase : Z) : Z :=
  if to_byte (phase + 1) >? 2 then to_byte (to_byte (phase + 1) - 3)
  else to_byte (phase + 1).

Definition tertiary_phase (phase : Z) : Z :=
  if to_byte (phase + 2) >? 2 then to_byte (to_byte (phase + 2) - 3)
  else to_byte (phase + 2).

Definition mode_target (mode phase : Z) (base comp : RGB) (i : nat) (old : RGB)
  : RGB :=
  if mode =? MODE_UNIFIED then unified_target base i old
  else if mode =? MODE_COMPLEMENTARY then complementary_target base comp i old
  else if mode =? MODE_RAIN then
    rain_target phase (secondary_phase phase) (tertiary_phase phase)
      base comp i old
  else old.

(** What the graduation writes for a pixel [a] of target [t]. *)
Definition graduate_rgb (a t : RGB) : RGB :=
  if negb (r a =? r t) || negb (g a =? g t) || negb (b a =? b t) then
    {| r := to_byte (graduateChannel (r a) (r t));
       g := to_byte (graduateChannel (g a) (g t));
       b := to_byte (graduateChannel (b a) (b t)) |}
  else a.

Definition graduate_pixels (A T : list RGB) : list RGB :=
  imap (fun i a => match T !! i with Some t => graduate_rgb a t | None => a end) A.

(** What the graduation writes for the brightness. *)
Definition graduate_level (actual target : Z) : Z :=
  if negb (target =? actual) then
    to_byte (if actual <? target
             then constrain (actual + LED_COLOR_GRADUATION) 0 target
             else constrain (actual - LED_COLOR_GRADUATION) target 255)
  else actual.

(** One value after a step towards its target: equal values stay, others
    come closer by exactly one and stay on their side of the target. *)
Definition stepped (actual target actual' : Z) : Prop :=
  (actual = target -> actual' = actual)
  /\ (actual <> target ->
      Z.abs (actual' - target) = Z.abs (actual - target) - 1
      /\ Z.min actual target <= actual' <= Z.max actual target).

(** Every channel of every pixel of [A] is within [d] of its target. *)
Definition within (d : Z) (A T : list RGB) : Prop :=
  forall i a t, A !! i = Some a -> T !! i = Some t ->
    Z.abs (r a - r t) <= d /\ Z.abs (g a - g t) <= d /\ Z.abs (b a - b t) <= d.

(** Successive calls of [updateLEDs], one per clock value of [ts]. *)
Fixpoint run_frames (ts : list Z) (s : State) : option State :=
  match ts with
  | [] => Some s
  | t :: rest => s' ← updateLEDs t s; run_frames rest s'
  end.

(** Every call of [run_frames] passes the frame-rate test. *)
Fixpoint frames_eligible (last : Z) (ts : list Z) : bool :=
  match ts with
  | [] => true
  | t :: rest => exceeds_update_delay (sub32 t last) && frames_eligible t rest
  end.

(** ** Further predicates *)

(** Passes of [checkButtons] during which the pins keep the readings [rd]
    and none comes more than [DEBOUNCE_DELAY] after the first one. *)
Definition short_segment (rd : Arr2 bool) (seg : list ButtonsInput) : bool :=
  match seg with
  | [] => false
  | first :: rest =>
      forallb (reads rd) seg
      && forallb (fun x => negb (DEBOUNCE_DELAY
                                 <? sub32 (millis_check x) (millis_check first)))
           rest
  end.

(** Passes of [checkButtons] during which the pins keep the readings [rd]. *)
Definition steady_segment (rd : Arr2 bool) (seg : list ButtonsInput) : bool :=
  match seg with
  | [] => false
  | _ :: _ => forallb (reads rd) seg
  end.

(** [setup] over the EEPROM of [s] would give back the selection of [s]:
    no cell 0..2 holds a value that [loadState] would read otherwise. *)
Definition persisted (s : State) : Prop :=
  selection s
  = ( (if EEPROM_read (eeprom s) 0 =? 255 then currentMode (boot (eeprom s))
       else EEPROM_read (eeprom s) 0),
      (if EEPROM_read (eeprom s) 1 =? 255
       then inputBrightnessLevel (boot (eeprom s))
       else EEPROM_read (eeprom s) 1),
      (if EEPROM_read (eeprom s) 2 =? 255
       then currentColorIndex (boot (eeprom s))
       else EEPROM_read (eeprom s) 2) ).

(** The reads of an iteration of [loop] on which the clock gives [t] at
    every read and the pins read [a] and [b0]. *)
Definition tick (t : Z) (a b0 : bool) : LoopInput :=
  mkLoopInput (mkButtonsInput t (mkArr2 a b0) (mkArr2 t t)) t t.

(** Successive iterations of [loop], one per element of [inps]. *)
Fixpoint run_loop (inps : list LoopInput) (s : State) : option State :=
  match inps with
  | [] => Some s
  | inp :: rest => s' ← loop inp s; run_loop rest s'
  end.

(** [setup] over an erased EEPROM, then a press of button 0 at 100 ms and
    its release at 200 ms. *)
Definition after_tap_A : option State :=
  s ← setup 0 (boot ∅);
  run_loop [tick 100 true false; tick 160 true false;
            tick 200 false false; tick 260 false false] s.

(** ** The calls of the strip in a frame *)

Definition nonempty {A : Type} (l : list A) : bool :=
  match l with [] => false | _ :: _ => true end.

(** The call that the graduation makes for the pixel [i], if any. *)
Definition pixel_call (i : nat) (a t : RGB) : list StripCall :=
  if negb (r a =? r t) || negb (g a =? g t) || negb (b a =? b t) then
    [SetPixelColor i
       (strip_Color (r (graduate_rgb a t)) (g (graduate_rgb a t))
          (b (graduate_rgb a t)))]
  else [].

Definition pixel_calls (A T : list RGB) : list StripCall :=
  concat (imap (fun i a => match T !! i with
                           | Some t => pixel_call i a t
                           | None => []
                           end) A).

Definition brightness_calls (actual target : Z) : list StripCall :=
  if negb (target =? actual) then [SetBrightness (graduate_level actual target)]
  else [].

(** The calls of a frame: the pixels that differ from their target, in the
    order of the positions, then the brightness if it differs, then
    [show] if there was any call. *)
Definition frame_calls (A T : list RGB) (actual target : Z) : list StripCall :=
  let staged := pixel_calls A T ++ brightness_calls actual target in
  if nonempty staged then staged ++ [Show] else [].

(** Successive calls of [updatePhase], one per clock value of [ts]. *)
Fixpoint run_phases (ts : list Z) (s : State) : State :=
  match ts with
  | [] => s
  | t :: rest => run_phases rest (updatePhase t s)
  end.

(** Every call of [run_phases] comes more than [PHASE_DURATION] after the
    change of phase before. *)
Fixpoint phases_due (last : Z) (ts : list Z) : bool :=
  match ts with
  | [] => true
  | t :: rest => (PHASE_DURATION <? sub32 t last) && phases_due t rest
  end.

(** Two passes of [checkButtons], at [t] and 60 ms later, on which the
    pins read [a] and [b0]. *)
Definition passes (t : Z) (a b0 : bool) : list ButtonsInput :=
  [mkButtonsInput t (mkArr2 a b0) (mkArr2 t t);
   mkButtonsInput (t + 60) (mkArr2 a b0) (mkArr2 (t + 60) (t + 60))].

(** * Properties *)

(** ** Bytes and tables *)

Lemma is_byte_spec z : is_byte z = true <-> 0 <= z <= 255.
Proof. unfold is_byte. rewrite andb_true_iff, !Z.leb_le. tauto. Qed.

Lemma to_byte_id z : 0 <= z <= 255 -> to_byte z = z.
Proof. intros H. unfold to_byte. apply Z.mod_small. lia. Qed.

Lemma rgb_ok_spec c :
  rgb_ok c = true <->
  (0 <= r c <= 255) /\ (0 <= g c <= 255) /\ (0 <= b c <= 255).
Proof. unfold rgb_ok. rewrite !andb_true_iff, !is_byte_spec. tauto. Qed.

Lemma selection_ok_spec s :
  selection_ok s = true <->
  0 <= currentMode s <= 2 /\ 0 <= inputBrightnessLevel s <= 4
  /\ 0 <= currentColorIndex s <= 7.
Proof. unfold selection_ok. rewrite !andb_true_iff, !Z.leb_le. tauto. Qed.

Lemma index_lookup {A} (l : list A) (i : Z) :
  0 <= i -> index l i = l !! Z.to_nat i.
Proof. intros H. unfold index. destruct (Z.ltb_spec i 0); [lia | done]. Qed.

Lemma index_is_Some {A} (l : list A) (i : Z) :
  0 <= i < Z.of_nat (length l) -> is_Some (index l i).
Proof.
  intros H. rewrite index_lookup by lia. apply lookup_lt_is_Some. lia.
Qed.

Lemma brightnessValues_Some i :
  0 <= i <= 4 -> exists v, index brightnessValues i = Some v /\ 0 <= v <= 255.
Proof.
  intros H.
  assert (i = 0 \/ i = 1 \/ i = 2 \/ i = 3 \/ i = 4) as Hi by lia.
  destruct Hi as [-> | [-> | [-> | [-> | ->]]]];
    eexists; (split; [reflexivity | vm_compute; split; discriminate]).
Qed.

(** ** The halfway blend *)

Lemma halfwayChannel_spec x y :
  0 <= x <= 255 -> 0 <= y <= 255 -> halfwayChannel x y = halfway_spec x y.
Proof.
  intros Hx Hy. unfold halfwayChannel, halfway_spec.
  destruct (Z.ltb_spec x y) as [Hlt | Hge].
  - rewrite Z.quot_div_nonneg by lia.
    apply to_byte_id.
    assert (0 <= (y - x) / 2 <= y - x).
    { split; [apply Z.div_pos; lia | apply Z.div_le_upper_bound; lia]. }
    lia.
  - destruct (Z.gtb_spec x y) as [Hgt | Hle]; [| reflexivity].
    rewrite Z.quot_div_nonneg by lia.
    apply to_byte_id.
    assert (0 <= (x - y) / 2 <= x - y).
    { split; [apply Z.div_pos; lia | apply Z.div_le_upper_bound; lia]. }
    lia.
Qed.

(** C4. For all colours [A] and [B] (three bytes each), every channel of
    [halfwayBetweenColors A B] is computed from the same channel of [A] and
    [B] alone: [A + floor((B - A) / 2)] when [A < B],
    [B + floor((A - B) / 2)] when [A > B], and [A] when they are equal.
    The red channel of the blend of (255,0,0) and (0,0,0) is 127, not 128. *)
Theorem halfway_blend_channels :
  (forall A B : RGB,
      rgb_ok A = true -> rgb_ok B = true ->
      r (halfwayBetweenColors A B) = halfway_spec (r A) (r B)
      /\ g (halfwayBetweenColors A B) = halfway_spec (g A) (g B)
      /\ b (halfwayBetweenColors A B) = halfway_spec (b A) (b B))
  /\ r (halfwayBetweenColors (mkRGB 255 0 0) (mkRGB 0 0 0)) = 127
  /\ r (halfwayBetweenColors (mkRGB 255 0 0) (mkRGB 0 0 0)) <> 128.
Proof.
  split; [| split; [reflexivity | discriminate]].
  intros A B HA HB.
  apply rgb_ok_spec in HA as (? & ? & ?).
  apply rgb_ok_spec in HB as (? & ? & ?).
  simpl. rewrite !halfwayChannel_spec by assumption. auto.
Qed.

Lemma halfway_blend_channels_witness :
  r (halfwayBetweenColors (mkRGB 255 127 0) (mkRGB 255 225 0)) = 255
  /\ g (halfwayBetweenColors (mkRGB 255 127 0) (mkRGB 255 225 0)) = 176
  /\ b (halfwayBetweenColors (mkRGB 255 127 0) (mkRGB 255 225 0)) = 0.
Proof.
  exact (proj1 halfway_blend_channels (mkRGB 255 127 0) (mkRGB 255 225 0)
           eq_refl eq_refl).
Defined.

(** ** Loops *)

(** A loop whose body is defined under the invariant is defined, and the
    invariant holds at its exit. *)
Lemma for_upto_total {A : Type} (P : nat -> A -> Prop) n body (a : A) :
  P O a ->
  (forall k x, (k < n)%nat -> P k x -> exists y, body k x = Some y /\ P (S k) y) ->
  exists y, for_upto n body a = Some y /\ P n y.
Proof.
  intros H0 Hstep. induction n as [| n IH]; simpl.
  - eauto.
  - destruct IH as (x & -> & Hx).
    + intros k y Hk. apply Hstep. lia.
    + simpl. apply Hstep; [lia | assumption].
Qed.

(** A property kept by the body is kept by the loop. *)
Lemma for_upto_inv {A : Type} (P : A -> Prop) n body (a y : A) :
  P a ->
  (forall k x x', (k < n)%nat -> P x -> body k x = Some x' -> P x') ->
  for_upto n body a = Some y -> P y.
Proof.
  intros H0 Hstep. revert y. induction n as [| n IH]; simpl; intros y Hy.
  - congruence.
  - destruct (for_upto n body a) as [x |] eqn:Hx; simpl in Hy; [| discriminate].
    eapply Hstep; [| | exact Hy]; [lia |].
    apply IH; [| reflexivity]. intros k z z' Hk. apply Hstep. lia.
Qed.

(** An array rewritten in place, element [k] at iteration [k]: after [k]
    iterations the first [k] elements are the new ones. *)
Lemma imap_prefix_lookup {A} (f : nat -> A -> A) (l : list A) k :
  (take k (imap f l) ++ drop k l) !! k = l !! k.
Proof.
  destruct (decide (k < length l)%nat) as [Hk | Hk].
  - rewrite lookup_app_r by (rewrite length_take, length_imap; lia).
    rewrite length_take, length_imap, lookup_drop. f_equal. lia.
  - rewrite (lookup_ge_None_2 l) by lia.
    apply lookup_ge_None_2. rewrite length_app, length_take, length_drop, length_imap. lia.
Qed.

Lemma imap_prefix_step {A} (f : nat -> A -> A) (l : list A) k x :
  l !! k = Some x ->
  <[k := f k x]> (take k (imap f l) ++ drop k l)
  = take (S k) (imap f l) ++ drop (S k) l.
Proof.
  intros Hx. pose proof (lookup_lt_Some _ _ _ Hx) as Hk.
  rewrite insert_app_r_alt by (rewrite length_take, length_imap; lia).
  rewrite length_take, length_imap.
  replace (k - k `min` length l)%nat with O by lia.
  rewrite (drop_S l x k Hx). simpl.
  rewrite (take_S_r (imap f l) k (f k x)).
  - rewrite <- app_assoc. reflexivity.
  - rewrite list_lookup_imap, Hx. reflexivity.
Qed.

Lemma imap_prefix_all {A} (f : nat -> A -> A) (l : list A) :
  take (length l) (imap f l) ++ drop (length l) l = imap f l.
Proof.
  rewrite drop_all, app_nil_r. apply take_ge. rewrite length_imap. lia.
Qed.

Lemma imap_const {A} (x : A) (l : list A) :
  imap (fun _ _ => x) l = replicate (length l) x.
Proof.
  apply list_eq. intros i. rewrite list_lookup_imap.
  destruct (l !! i) eqn:E; simpl.
  - symmetry. apply lookup_replicate_2. eapply lookup_lt_Some; eauto.
  - symmetry. apply lookup_ge_None_2. rewrite length_replicate. apply lookup_ge_None_1; auto.
Qed.

(** ** The three handlers *)

Lemma cycleColor_index s :
  0 <= currentColorIndex s <= 7 ->
  currentColorIndex (cycleColor s)
  = if currentColorIndex s =? 7 then 0 else currentColorIndex s + 1.
Proof.
  intros H. simpl. rewrite to_byte_id by lia. unfold NUM_COLORS.
  destruct (Z.geb_spec (currentColorIndex s + 1) 8),
    (Z.eqb_spec (currentColorIndex s) 7); lia.
Qed.

Lemma cycleMode_mode s :
  0 <= currentMode s <= 2 ->
  currentMode (cycleMode s)
  = if currentMode s =? 2 then 0 else currentMode s + 1.
Proof.
  intros H. simpl. rewrite to_byte_id by lia. unfold MODECOUNT.
  destruct (Z.geb_spec (currentMode s + 1) 3),
    (Z.eqb_spec (currentMode s) 2); lia.
Qed.

Lemma cycleColor_others s :
  currentMode (cycleColor s) = currentMode s
  /\ inputBrightnessLevel (cycleColor s) = inputBrightnessLevel s.
Proof. split; reflexivity. Qed.

Lemma cycleMode_others s :
  currentColorIndex (cycleMode s) = currentColorIndex s
  /\ inputBrightnessLevel (cycleMode s) = inputBrightnessLevel s.
Proof. split; reflexivity. Qed.

(** [incBrightness] always reads inside of [brightnessValues]. *)
Lemma incBrightness_Some s :
  exists s', incBrightness s = Some s'
    /\ inputBrightnessLevel s'
       = (if to_byte (inputBrightnessLevel s + 1) >? 4 then 0
          else to_byte (inputBrightnessLevel s + 1))
    /\ index brightnessValues (inputBrightnessLevel s') = Some (targetBrightness s')
    /\ currentMode s' = currentMode s
    /\ currentColorIndex s' = currentColorIndex s
    /\ calls s' = calls s ++ [IncreaseBrightness]
    /\ btnState s' = btnState s /\ lastBtnState s' = lastBtnState s
    /\ btnPressHandled s' = btnPressHandled s
    /\ lastBtnDebounceTime s' = lastBtnDebounceTime s.
Proof.
  unfold incBrightness.
  cbn [inputBrightnessLevel set_calls set_inputBrightnessLevel].
  set (n := if to_byte (inputBrightnessLevel s + 1) >? 4 then 0
            else to_byte (inputBrightnessLevel s + 1)).
  assert (0 <= n <= 4) as Hn.
  { subst n. unfold to_byte.
    destruct (Z.gtb_spec ((inputBrightnessLevel s + 1) mod 256) 4); [lia |].
    pose proof (Z.mod_pos_bound (inputBrightnessLevel s + 1) 256). lia. }
  destruct (brightnessValues_Some n Hn) as (v & Hv & _).
  rewrite Hv. simpl. eexists. split; [reflexivity |]. simpl.
  repeat split; try reflexivity. exact Hv.
Qed.

Lemma incBrightness_level s :
  0 <= inputBrightnessLevel s <= 4 ->
  exists s', incBrightness s = Some s'
    /\ inputBrightnessLevel s'
       = (if inputBrightnessLevel s =? 4 then 0 else inputBrightnessLevel s + 1)
    /\ currentMode s' = currentMode s
    /\ currentColorIndex s' = currentColorIndex s.
Proof.
  intros H. destruct (incBrightness_Some s) as (s' & Hs' & Hl & _ & Hm & Hc & _).
  exists s'. repeat split; try assumption.
  rewrite Hl, to_byte_id by lia.
  destruct (Z.gtb_spec (inputBrightnessLevel s + 1) 4),
    (Z.eqb_spec (inputBrightnessLevel s) 4); lia.
Qed.

Lemma iter_cycleColor k s :
  0 <= currentColorIndex s <= 7 ->
  currentColorIndex (Nat.iter k cycleColor s)
  = (currentColorIndex s + Z.of_nat k) mod 8.
Proof.
  intros H. induction k as [| k IH].
  - simpl. rewrite Z.add_0_r, Z.mod_small; lia.
  - cbn [Nat.iter nat_rect].
    pose proof (Z.mod_pos_bound (currentColorIndex s + Z.of_nat k) 8).
    change (nat_rect _ s (fun _ => cycleColor) k) with (Nat.iter k cycleColor s).
    rewrite cycleColor_index by (rewrite IH; lia).
    rewrite IH.
    destruct (Z.eqb_spec ((currentColorIndex s + Z.of_nat k) mod 8) 7);
      Z.div_mod_to_equations; lia.
Qed.

Lemma iter_cycleMode k s :
  0 <= currentMode s <= 2 ->
  currentMode (Nat.iter k cycleMode s) = (currentMode s + Z.of_nat k) mod 3.
Proof.
  intros H. induction k as [| k IH].
  - simpl. rewrite Z.add_0_r, Z.mod_small; lia.
  - cbn [Nat.iter nat_rect].
    pose proof (Z.mod_pos_bound (currentMode s + Z.of_nat k) 3).
    change (nat_rect _ s (fun _ => cycleMode) k) with (Nat.iter k cycleMode s).
    rewrite cycleMode_mode by (rewrite IH; lia).
    rewrite IH.
    destruct (Z.eqb_spec ((currentMode s + Z.of_nat k) mod 3) 2);
      Z.div_mod_to_equations; lia.
Qed.

Lemma iterate_incBrightness k s :
  0 <= inputBrightnessLevel s <= 4 ->
  exists s', iterate k incBrightness s = Some s'
    /\ inputBrightnessLevel s' = (inputBrightnessLevel s + Z.of_nat k) mod 5.
Proof.
  revert s. induction k as [| k IH]; intros s H.
  - exists s. split; [reflexivity |]. rewrite Z.add_0_r, Z.mod_small; lia.
  - destruct (incBrightness_level s H) as (s1 & Hs1 & Hl & _).
    destruct (IH s1) as (s' & Hs' & Hl').
    { rewrite Hl. destruct (Z.eqb_spec (inputBrightnessLevel s) 4); lia. }
    exists s'. split.
    + simpl. rewrite Hs1. exact Hs'.
    + rewrite Hl', Hl.
      destruct (Z.eqb_spec (inputBrightnessLevel s) 4);
        Z.div_mod_to_equations; lia.
Qed.

(** C8. From any state whose selection is in range, eight calls of
    [cycleColor] restore [currentColorIndex], three calls of [cycleMode]
    restore [currentMode] and five calls of [incBrightness] are defined and
    restore [inputBrightnessLevel]; no smaller positive number of calls
    does, so that the orders are exactly 8, 3 and 5. *)
Theorem cycling_orders (s : State) :
  selection_ok s = true ->
  currentColorIndex (Nat.iter 8 cycleColor s) = currentColorIndex s
  /\ (forall k, (0 < k < 8)%nat ->
        currentColorIndex (Nat.iter k cycleColor s) <> currentColorIndex s)
  /\ currentMode (Nat.iter 3 cycleMode s) = currentMode s
  /\ (forall k, (0 < k < 3)%nat ->
        currentMode (Nat.iter k cycleMode s) <> currentMode s)
  /\ (exists s', iterate 5 incBrightness s = Some s'
        /\ inputBrightnessLevel s' = inputBrightnessLevel s)
  /\ (forall k, (0 < k < 5)%nat ->
        exists s', iterate k incBrightness s = Some s'
          /\ inputBrightnessLevel s' <> inputBrightnessLevel s).
Proof.
  intros H. apply selection_ok_spec in H as (Hm & Hl & Hc).
  repeat split.
  - rewrite iter_cycleColor by assumption. Z.div_mod_to_equations; lia.
  - intros k Hk. rewrite iter_cycleColor by assumption.
    Z.div_mod_to_equations; lia.
  - rewrite iter_cycleMode by assumption. Z.div_mod_to_equations; lia.
  - intros k Hk. rewrite iter_cycleMode by assumption.
    Z.div_mod_to_equations; lia.
  - destruct (iterate_incBrightness 5 s Hl) as (s' & Hs' & Hl').
    exists s'. split; [assumption |]. rewrite Hl'. Z.div_mod_to_equations; lia.
  - intros k Hk. destruct (iterate_incBrightness k s Hl) as (s' & Hs' & Hl').
    exists s'. split; [assumption |]. rewrite Hl'. Z.div_mod_to_equations; lia.
Qed.

Lemma cycling_orders_witness :
  currentColorIndex (Nat.iter 8 cycleColor (boot ∅)) = 0
  /\ currentMode (Nat.iter 3 cycleMode (boot ∅)) = 0
  /\ exists s', iterate 5 incBrightness (boot ∅) = Some s'
       /\ inputBrightnessLevel s' = 3.
Proof.
  destruct (cycling_orders (boot ∅) eq_refl) as (Hc & _ & Hm & _ & Hb & _).
  exact (conj Hc (conj Hm Hb)).
Defined.

(** ** Persistence *)

Lemma saveState_read s :
  EEPROM_read (eeprom (saveState s)) 0 = to_byte (currentMode s)
  /\ EEPROM_read (eeprom (saveState s)) 1 = to_byte (inputBrightnessLevel s)
  /\ EEPROM_read (eeprom (saveState s)) 2 = to_byte (currentColorIndex s).
Proof.
  unfold EEPROM_read, saveState, EEPROM_write. cbn -[to_byte].
  repeat split.
  - rewrite !lookup_insert_ne by discriminate. rewrite lookup_insert_eq. reflexivity.
  - rewrite lookup_insert_ne by discriminate. rewrite lookup_insert_eq. reflexivity.
  - rewrite lookup_insert_eq. reflexivity.
Qed.

Lemma blacken_loop s :
  length (actualColor s) = NUM_LEDS ->
  for_upto NUM_LEDS
    (fun i s => Some (set_actualColor (<[i := mkRGB 0 0 0]> (actualColor s)) s)) s
  = Some (set_actualColor (replicate NUM_LEDS black) s).
Proof.
  intros Hlen.
  set (f := fun (_ : nat) (_ : RGB) => mkRGB 0 0 0).
  destruct (for_upto_total
              (fun k t => t = set_actualColor
                                (take k (imap f (actualColor s))
                                 ++ drop k (actualColor s)) s)
              NUM_LEDS
              (fun i s => Some (set_actualColor
                                  (<[i := mkRGB 0 0 0]> (actualColor s)) s)) s)
    as (y & Hy & ->).
  - destruct s; reflexivity.
  - intros k x Hk ->. eexists. split; [reflexivity |].
    cbn [actualColor set_actualColor].
    destruct (lookup_lt_is_Some_2 (actualColor s) k) as [c Hc]; [lia |].
    rewrite <- (imap_prefix_step f _ k c Hc). reflexivity.
  - rewrite Hy. rewrite <- Hlen at 1 2. rewrite imap_prefix_all.
    unfold f. rewrite imap_const, Hlen. reflexivity.
Qed.

Lemma brightnessValues_at_Some beyond i v :
  index brightnessValues i = Some v -> brightnessValues_at beyond i = v.
Proof. unfold brightnessValues_at. intros ->. reflexivity. Qed.

Lemma brightnessValues_at_byte beyond i :
  0 <= brightnessValues_at beyond i <= 255.
Proof.
  unfold brightnessValues_at.
  destruct (index brightnessValues i) as [v |] eqn:Hv; cbn [default].
  - unfold index in Hv. destruct (i <? 0); [discriminate |].
    destruct (Z.to_nat i) as [| [| [| [| [| k]]]]];
      try discriminate; injection Hv as <-; vm_compute; split; discriminate.
  - unfold to_byte. pose proof (Z.mod_pos_bound beyond 256). lia.
Qed.

(** [loadState] is defined whatever the EEPROM holds. *)
Lemma loadState_total beyond s :
  length (actualColor s) = NUM_LEDS ->
  exists s', loadState beyond s = Some s'
    /\ currentMode s'
       = (if EEPROM_read (eeprom s) 0 =? 255 then currentMode s
          else EEPROM_read (eeprom s) 0)
    /\ inputBrightnessLevel s'
       = (if EEPROM_read (eeprom s) 1 =? 255 then inputBrightnessLevel s
          else EEPROM_read (eeprom s) 1)
    /\ currentColorIndex s'
       = (if EEPROM_read (eeprom s) 2 =? 255 then currentColorIndex s
          else EEPROM_read (eeprom s) 2)
    /\ targetBrightness s'
       = brightnessValues_at beyond (inputBrightnessLevel s')
    /\ actualBrightness s' = 0
    /\ actualColor s' = replicate NUM_LEDS black
    /\ targetColor s' = targetColor s.
Proof.
  intros Hlen. unfold loadState.
  cbn [eeprom set_currentMode set_inputBrightnessLevel inputBrightnessLevel
         set_targetBrightness set_actualBrightness set_currentColorIndex].
  rewrite blacken_loop by exact Hlen.
  eexists. split; [reflexivity |]. cbn. repeat split; reflexivity.
Qed.

Lemma loadState_spec beyond s v :
  length (actualColor s) = NUM_LEDS ->
  index brightnessValues
    (if EEPROM_read (eeprom s) 1 =? 255 then inputBrightnessLevel s
     else EEPROM_read (eeprom s) 1) = Some v ->
  exists s', loadState beyond s = Some s'
    /\ currentMode s'
       = (if EEPROM_read (eeprom s) 0 =? 255 then currentMode s
          else EEPROM_read (eeprom s) 0)
    /\ inputBrightnessLevel s'
       = (if EEPROM_read (eeprom s) 1 =? 255 then inputBrightnessLevel s
          else EEPROM_read (eeprom s) 1)
    /\ currentColorIndex s'
       = (if EEPROM_read (eeprom s) 2 =? 255 then currentColorIndex s
          else EEPROM_read (eeprom s) 2)
    /\ targetBrightness s' = v
    /\ actualBrightness s' = 0
    /\ actualColor s' = replicate NUM_LEDS black
    /\ targetColor s' = targetColor s.
Proof.
  intros Hlen Hv.
  destruct (loadState_total beyond s Hlen)
    as (s' & Hs' & Hm & Hl & Hc & Ht & Ha & HA & HT).
  exists s'. repeat split; try assumption.
  rewrite Ht, Hl. apply brightnessValues_at_Some. exact Hv.
Qed.



(** C10. For every selection in range, [saveState] followed by [loadState]
    over the written EEPROM (in any state whose pixel array has its
    declared size, such as the one of a later startup) is defined and gives
    back the same mode, brightness level and colour index. *)
Theorem save_then_load (beyond : Z) (s s0 : State) :
  selection_ok s = true ->
  length (actualColor s0) = NUM_LEDS ->
  exists s', loadState beyond (set_eeprom (eeprom (saveState s)) s0) = Some s'
    /\ currentMode s' = currentMode s
    /\ inputBrightnessLevel s' = inputBrightnessLevel s
    /\ currentColorIndex s' = currentColorIndex s.
Proof.
  intros Hsel Hlen. apply selection_ok_spec in Hsel as (Hm & Hl & Hc).
  destruct (saveState_read s) as (R0 & R1 & R2).
  rewrite to_byte_id in R0, R1, R2 by lia.
  destruct (brightnessValues_Some _ Hl) as (v & Hv & _).
  destruct (loadState_spec beyond (set_eeprom (eeprom (saveState s)) s0) v)
    as (s' & Hs' & Hm' & Hl' & Hc' & _).
  - exact Hlen.
  - cbn [eeprom set_eeprom]. rewrite R1.
    destruct (Z.eqb_spec (inputBrightnessLevel s) 255); [lia | exact Hv].
  - cbn [eeprom set_eeprom] in Hm', Hl', Hc'.
    rewrite R0 in Hm'. rewrite R1 in Hl'. rewrite R2 in Hc'.
    exists s'. split; [exact Hs' |].
    destruct (Z.eqb_spec (currentMode s) 255); [lia |].
    destruct (Z.eqb_spec (inputBrightnessLevel s) 255); [lia |].
    destruct (Z.eqb_spec (currentColorIndex s) 255); [lia |].
    auto.
Qed.

Lemma save_then_load_witness :
  exists s',
    loadState 0 (set_eeprom (eeprom (saveState (boot ∅))) (boot ∅)) = Some s'
    /\ currentMode s' = 0
    /\ inputBrightnessLevel s' = 3
    /\ currentColorIndex s' = 0.
Proof. exact (save_then_load 0 (boot ∅) (boot ∅) eq_refl eq_refl). Defined.

(** ** What a frame can change *)

Lemma selection_ok_ext s t :
  selection t = selection s -> selection_ok t = selection_ok s.
Proof.
  unfold selection, selection_ok. intros H. injection H as -> -> ->. reflexivity.
Qed.

Lemma set_targetColor_same s : set_targetColor (targetColor s) s = s.
Proof. destruct s; reflexivity. Qed.

(** The [switch] on the mode writes [targetColor] only. *)
Lemma targets_loop_shape n body s s' :
  (forall k x x', body k x = Some x' -> exists T, x' = set_targetColor T x) ->
  for_upto n body s = Some s' ->
  exists T, s' = set_targetColor T s.
Proof.
  intros Hbody.
  apply (for_upto_inv (fun t => exists T, t = set_targetColor T s)).
  - exists (targetColor s). symmetry. apply set_targetColor_same.
  - intros k x x' _ [T ->] Hb. destruct (Hbody _ _ _ Hb) as [T' ->].
    exists T'. reflexivity.
Qed.

Lemma unifiedTarget_shape k x x' :
  unifiedTarget k x = Some x' -> exists T, x' = set_targetColor T x.
Proof.
  unfold unifiedTarget. destruct (index colors _); [| discriminate].
  intros [= <-]. eauto.
Qed.

Lemma complementaryTarget_shape k x x' :
  complementaryTarget k x = Some x' -> exists T, x' = set_targetColor T x.
Proof.
  unfold complementaryTarget.
  destruct (complementary_LED_map !! k); [| discriminate]. cbn [mbind option_bind].
  destruct (eqb _ _).
  - destruct (index colors _); [| discriminate]. intros [= <-]. eauto.
  - destruct (index complementary_colors _); [| discriminate].
    intros [= <-]. eauto.
Qed.

Lemma rainTarget_shape p1 p2 p3 k x x' :
  rainTarget p1 p2 p3 k x = Some x' -> exists T, x' = set_targetColor T x.
Proof.
  unfold rainTarget.
  destruct (rain_phase_LED_map !! k); [| discriminate]. cbn [mbind option_bind].
  destruct (index colors _), (index complementary_colors _);
    repeat case_match; cbn [mbind option_bind]; intros [= <-]; eauto;
    exists (targetColor x); symmetry; apply set_targetColor_same.
Qed.

Lemma updateLEDs_targets_shape s s' :
  updateLEDs_targets s = Some s' -> exists T, s' = set_targetColor T s.
Proof.
  unfold updateLEDs_targets.
  destruct (currentMode s =? MODE_UNIFIED);
    [apply targets_loop_shape, unifiedTarget_shape |].
  destruct (currentMode s =? MODE_COMPLEMENTARY);
    [apply targets_loop_shape, complementaryTarget_shape |].
  destruct (currentMode s =? MODE_RAIN);
    [apply targets_loop_shape, rainTarget_shape |].
  intros [= <-]. exists (targetColor s). symmetry. apply set_targetColor_same.
Qed.

(** The graduation of the pixels writes [actualColor] and calls the strip. *)
Lemma graduateLED_shape n c s c' s' :
  for_upto n graduateLED (c, s) = Some (c', s') ->
  exists A log, s' = set_strip log (set_actualColor A s).
Proof.
  apply (for_upto_inv
           (fun st => exists A log, snd st = set_strip log (set_actualColor A s))
           n graduateLED (c, s) (c', s')).
  - exists (actualColor s), (strip s). destruct s; reflexivity.
  - intros k [d x] [d' x'] _ (A & log & Hx) Hb. simpl in Hx. subst x.
    unfold graduateLED in Hb. cbn [actualColor targetColor set_strip set_actualColor] in Hb.
    destruct (A !! k); [| discriminate]. cbn [mbind option_bind] in Hb.
    destruct (targetColor s !! k); [| discriminate]. cbn [mbind option_bind] in Hb.
    destruct (_ || _); injection Hb as <- <-; eexists _, _; reflexivity.
Qed.

Lemma graduateBrightness_shape c s c' s' :
  graduateBrightness (c, s) = (c', s') ->
  exists v log, s' = set_strip log (set_actualBrightness v s).
Proof.
  unfold graduateBrightness. case_match; intros [= <- <-].
  - eexists _, _. reflexivity.
  - exists (actualBrightness s), (strip s). destruct s; reflexivity.
Qed.

Lemma updateLEDs_frame_shape s c s' :
  updateLEDs_frame s = Some (c, s') ->
  exists T A v log,
    s' = set_strip log
           (set_actualBrightness v (set_actualColor A (set_targetColor T s))).
Proof.
  unfold updateLEDs_frame. intros H.
  destruct (updateLEDs_targets s) as [s1 |] eqn:H1; [| discriminate].
  apply updateLEDs_targets_shape in H1 as [T ->]. cbn [mbind option_bind] in H.
  destruct (for_upto NUM_LEDS graduateLED (false, set_targetColor T s))
    as [[c2 s2] |] eqn:H2; [| discriminate].
  cbn [mbind option_bind] in H.
  assert (graduateBrightness (c2, s2) = (c, s')) as Hg by congruence.
  apply graduateLED_shape in H2 as (A & log & ->).
  apply graduateBrightness_shape in Hg as (v & log' & ->).
  exists T, A, v, log'. reflexivity.
Qed.

Lemma updateLEDs_shape now s s' :
  updateLEDs now s = Some s' ->
  exists T A v log t,
    s' = set_lastLEDUpdate t
           (set_strip log
              (set_actualBrightness v (set_actualColor A (set_targetColor T s)))).
Proof.
  unfold updateLEDs. case_match.
  - destruct (updateLEDs_frame s) as [[c s1] |] eqn:H1; [| discriminate].
    apply updateLEDs_frame_shape in H1 as (T & A & v & log & ->).
    cbn [mbind option_bind]. intros [= <-].
    destruct c; eexists T, A, v, _, now; reflexivity.
  - intros [= <-].
    exists (targetColor s), (actualColor s), (actualBrightness s), (strip s),
      (lastLEDUpdate s).
    destruct s; reflexivity.
Qed.

Lemma updateLEDs_selection now s s' :
  updateLEDs now s = Some s' -> selection s' = selection s.
Proof.
  intros H. apply updateLEDs_shape in H as (T & A & v & log & t & ->).
  reflexivity.
Qed.

Lemma updatePhase_selection now s : selection (updatePhase now s) = selection s.
Proof. unfold updatePhase. repeat case_match; reflexivity. Qed.

(** ** The selection stays in range *)

Lemma cycleColor_selection s :
  selection_ok s = true -> selection_ok (cycleColor s) = true.
Proof.
  intros H. apply selection_ok_spec in H as (Hm & Hl & Hc).
  apply selection_ok_spec.
  destruct (cycleColor_others s) as [-> ->].
  rewrite cycleColor_index by assumption.
  destruct (Z.eqb_spec (currentColorIndex s) 7); lia.
Qed.

Lemma cycleMode_selection s :
  selection_ok s = true -> selection_ok (cycleMode s) = true.
Proof.
  intros H. apply selection_ok_spec in H as (Hm & Hl & Hc).
  apply selection_ok_spec.
  destruct (cycleMode_others s) as [-> ->].
  rewrite cycleMode_mode by assumption.
  destruct (Z.eqb_spec (currentMode s) 2); lia.
Qed.

Lemma incBrightness_selection s s' :
  selection_ok s = true -> incBrightness s = Some s' ->
  selection_ok s' = true.
Proof.
  intros H Hs'. apply selection_ok_spec in H as (Hm & Hl & Hc).
  destruct (incBrightness_level s Hl) as (s1 & Hs1 & Hl1 & Hm1 & Hc1).
  assert (s1 = s') as -> by congruence.
  apply selection_ok_spec. rewrite Hl1, Hm1, Hc1.
  destruct (Z.eqb_spec (inputBrightnessLevel s) 4); lia.
Qed.

Lemma btnStateChange_selection t i newState d s s' :
  selection_ok s = true ->
  btnStateChange t i newState d s = Some s' ->
  selection_ok s' = true.
Proof.
  intros Hok. unfold btnStateChange. destruct newState.
  - intros [= <-]. exact Hok.
  - repeat case_match.
    + intros [= <-]. apply cycleColor_selection. exact Hok.
    + intros [= <-]. apply cycleMode_selection. exact Hok.
    + apply incBrightness_selection. exact Hok.
    + intros [= <-]. exact Hok.
Qed.

Lemma checkButton_selection inp i s s' :
  selection_ok s = true ->
  checkButton inp i s = Some s' ->
  selection_ok s' = true.
Proof.
  intros Hok. unfold checkButton.
  set (s1 := if negb (eqb _ _) then _ else s).
  assert (selection_ok s1 = true) as Hok1.
  { subst s1. destruct (negb _); exact Hok. }
  clearbody s1.
  destruct (DEBOUNCE_DELAY <? _); [destruct (negb (eqb _ (get2 i (btnState s1)))) |].
  - destruct (btnStateChange _ _ _ _ _) as [s2 |] eqn:H2; [| discriminate].
    intros [= <-]. eapply btnStateChange_selection in H2; [| exact Hok1].
    exact H2.
  - intros [= <-]. exact Hok1.
  - intros [= <-]. exact Hok1.
Qed.

Lemma checkButtons_selection inp s s' :
  selection_ok s = true ->
  checkButtons inp s = Some s' ->
  selection_ok s' = true.
Proof.
  intros Hok. unfold checkButtons.
  apply (for_upto_inv (fun t => selection_ok t = true)); [exact Hok |].
  intros k x x' _. apply checkButton_selection.
Qed.

Lemma loop_selection inp s s' :
  selection_ok s = true -> loop inp s = Some s' -> selection_ok s' = true.
Proof.
  intros Hok. unfold loop.
  destruct (checkButtons _ s) as [s1 |] eqn:H1; [| discriminate].
  cbn [mbind option_bind]. intros H2.
  rewrite (selection_ok_ext _ _ (updateLEDs_selection _ _ _ H2)).
  rewrite (selection_ok_ext _ _ (updatePhase_selection _ _)).
  eapply checkButtons_selection; eassumption.
Qed.

Lemma stored_ok_spec e addr hi :
  0 <= hi < 255 ->
  stored_ok e addr hi = true ->
  forall d, 0 <= d <= hi ->
    0 <= (if EEPROM_read e addr =? 255 then d else EEPROM_read e addr) <= hi.
Proof.
  intros Hhi H d Hd. unfold stored_ok in H.
  destruct (Z.eqb_spec (EEPROM_read e addr) 255); [lia |].
  simpl in H. apply andb_true_iff in H as [H1 H2]. lia.
Qed.

Lemma setup_selection beyond e s :
  store_ok e = true -> setup beyond (boot e) = Some s -> selection_ok s = true.
Proof.
  intros He Hs. unfold store_ok in He.
  apply andb_true_iff in He as [He H2]. apply andb_true_iff in He as [H0 H1].
  pose proof (stored_ok_spec e 0 2 ltac:(lia) H0 0 ltac:(lia)) as Hm.
  pose proof (stored_ok_spec e 1 4 ltac:(lia) H1 3 ltac:(lia)) as Hl.
  pose proof (stored_ok_spec e 2 7 ltac:(lia) H2 0 ltac:(lia)) as Hc.
  destruct (brightnessValues_Some _ Hl) as (v & Hv & _).
  destruct (loadState_spec beyond (boot e) v eq_refl Hv)
    as (s1 & Hs1 & Hm1 & Hl1 & Hc1 & _).
  unfold setup in Hs. rewrite Hs1 in Hs. cbn [mbind option_bind] in Hs.
  injection Hs as <-. apply selection_ok_spec.
  cbn [currentMode inputBrightnessLevel currentColorIndex set_strip].
  rewrite Hm1, Hl1, Hc1. cbn [boot currentMode inputBrightnessLevel
                                currentColorIndex eeprom].
  unfold MODE_UNIFIED. auto.
Qed.

(** ** The targets of a frame *)

Lemma targets_loop_imap (f : nat -> RGB -> RGB) body s n :
  length (targetColor s) = n ->
  (forall k T c, (k < n)%nat -> T !! k = Some c ->
     body k (set_targetColor T s) = Some (set_targetColor (<[k := f k c]> T) s)) ->
  for_upto n body s = Some (set_targetColor (imap f (targetColor s)) s).
Proof.
  intros Hlen Hbody.
  destruct (for_upto_total
              (fun k t => t = set_targetColor
                                (take k (imap f (targetColor s))
                                 ++ drop k (targetColor s)) s)
              n body s) as (y & Hy & ->).
  - symmetry. apply set_targetColor_same.
  - intros k x Hk ->.
    destruct (lookup_lt_is_Some_2 (targetColor s) k) as [c Hc]; [lia |].
    eexists. split.
    + apply Hbody; [exact Hk |]. rewrite imap_prefix_lookup. exact Hc.
    + rewrite (imap_prefix_step f _ k c Hc). reflexivity.
  - rewrite Hy, <- Hlen, imap_prefix_all. reflexivity.
Qed.

Lemma map_lookup_10 {A} (l : list A) k :
  length l = NUM_LEDS -> (k < NUM_LEDS)%nat -> is_Some (l !! k).
Proof. intros Hl Hk. apply lookup_lt_is_Some_2. lia. Qed.

Lemma updateLEDs_targets_spec s base comp :
  length (targetColor s) = NUM_LEDS ->
  index colors (currentColorIndex s) = Some base ->
  index complementary_colors (currentColorIndex s) = Some comp ->
  updateLEDs_targets s
  = Some (set_targetColor
            (imap (mode_target (currentMode s) (currentRainPhase s) base comp)
               (targetColor s)) s).
Proof.
  intros Hlen Hbase Hcomp. unfold updateLEDs_targets, mode_target.
  destruct (currentMode s =? MODE_UNIFIED).
  { apply targets_loop_imap; [exact Hlen |]. intros k T c Hk Hc.
    unfold unifiedTarget, unified_target.
    cbn [currentColorIndex targetColor set_targetColor].
    rewrite Hbase. reflexivity. }
  destruct (currentMode s =? MODE_COMPLEMENTARY).
  { apply targets_loop_imap; [exact Hlen |]. intros k T c Hk Hc.
    unfold complementaryTarget, complementary_target.
    cbn [currentColorIndex targetColor set_targetColor].
    destruct (map_lookup_10 complementary_LED_map k eq_refl Hk) as [role ->].
    cbn [mbind option_bind]. rewrite Hbase, Hcomp.
    destruct (eqb role COMPLEMENTARY_FRONT); reflexivity. }
  destruct (currentMode s =? MODE_RAIN).
  { fold (secondary_phase (currentRainPhase s)).
    fold (tertiary_phase (currentRainPhase s)).
    apply targets_loop_imap; [exact Hlen |]. intros k T c Hk Hc.
    unfold rainTarget, rain_target.
    cbn [currentColorIndex targetColor set_targetColor].
    destruct (map_lookup_10 rain_phase_LED_map k eq_refl Hk) as [p ->].
    cbn [mbind option_bind]. rewrite Hbase, Hcomp. cbn [mbind option_bind].
    repeat case_match; try reflexivity.
    rewrite list_insert_id by exact Hc. reflexivity. }
  f_equal. rewrite <- (set_targetColor_same s) at 1. f_equal.
  apply list_eq. intros i. rewrite list_lookup_imap.
  destruct (targetColor s !! i); reflexivity.
Qed.

(** ** The graduation of a frame *)

Lemma graduate_loop s :
  length (actualColor s) = NUM_LEDS ->
  length (targetColor s) = NUM_LEDS ->
  exists c log,
    for_upto NUM_LEDS graduateLED (false, s)
    = Some (c, set_strip log
                 (set_actualColor
                    (graduate_pixels (actualColor s) (targetColor s)) s)).
Proof.
  intros HA HT.
  set (f := fun (i : nat) (a : RGB) =>
              match targetColor s !! i with
              | Some t => graduate_rgb a t
              | None => a
              end).
  destruct (for_upto_total
              (fun k (st : bool * State) =>
                 exists log,
                   snd st = set_strip log
                              (set_actualColor
                                 (take k (imap f (actualColor s))
                                  ++ drop k (actualColor s)) s))
              NUM_LEDS graduateLED (false, s)) as ([c y] & Hy & log & Hlog).
  - exists (strip s). destruct s; reflexivity.
  - intros k [d x] Hk [log Hx]. cbn [snd] in Hx. subst x.
    destruct (map_lookup_10 (actualColor s) k HA Hk) as [a Ha].
    destruct (map_lookup_10 (targetColor s) k HT Hk) as [t Ht].
    unfold graduateLED. cbn [actualColor targetColor set_strip set_actualColor].
    rewrite imap_prefix_lookup, Ha, Ht. cbn [mbind option_bind].
    pose proof (imap_prefix_step f _ k a Ha) as Hstep.
    assert (f k a = graduate_rgb a t) as Hf by (unfold f; rewrite Ht; reflexivity).
    rewrite Hf in Hstep. rewrite <- Hstep. clear Hstep Hf. unfold graduate_rgb.
    destruct (negb (r a =? r t) || negb (g a =? g t) || negb (b a =? b t)).
    + eexists. split; [reflexivity |]. eexists. reflexivity.
    + eexists. split; [reflexivity |]. exists log. cbn [snd].
      rewrite list_insert_id; [reflexivity |].
      rewrite imap_prefix_lookup. exact Ha.
  - cbn [snd] in Hlog. subst y. exists c, log. rewrite Hy.
    rewrite <- HA at 1 2. rewrite imap_prefix_all. reflexivity.
Qed.

Lemma graduateBrightness_spec c s :
  exists c' log,
    graduateBrightness (c, s)
    = (c', set_strip log
             (set_actualBrightness
                (graduate_level (actualBrightness s) (targetBrightness s)) s)).
Proof.
  unfold graduateBrightness, graduate_level.
  destruct (negb (targetBrightness s =? actualBrightness s)).
  - eexists _, _. reflexivity.
  - exists c, (strip s). destruct s; reflexivity.
Qed.

(** A frame that passes the rate test, up to the calls of the strip. *)
Lemma updateLEDs_eligible now s base comp :
  length (actualColor s) = NUM_LEDS ->
  length (targetColor s) = NUM_LEDS ->
  index colors (currentColorIndex s) = Some base ->
  index complementary_colors (currentColorIndex s) = Some comp ->
  exceeds_update_delay (sub32 now (lastLEDUpdate s)) = true ->
  exists log,
    updateLEDs now s
    = Some
        (set_lastLEDUpdate now
           (set_strip log
              (set_actualBrightness
                 (graduate_level (actualBrightness s) (targetBrightness s))
                 (set_actualColor
                    (graduate_pixels (actualColor s)
                       (imap (mode_target (currentMode s) (currentRainPhase s)
                                base comp) (targetColor s)))
                    (set_targetColor
                       (imap (mode_target (currentMode s) (currentRainPhase s)
                                base comp) (targetColor s)) s))))).
Proof.
  intros HA HT Hbase Hcomp Hel. unfold updateLEDs, updateLEDs_frame.
  rewrite Hel, (updateLEDs_targets_spec s base comp HT Hbase Hcomp).
  cbn [mbind option_bind].
  set (T' := imap _ (targetColor s)).
  destruct (graduate_loop (set_targetColor T' s)) as (c & log & ->).
  { exact HA. }
  { cbn [targetColor set_targetColor]. subst T'. rewrite length_imap. exact HT. }
  cbn [mbind option_bind actualColor targetColor set_targetColor].
  destruct (graduateBrightness_spec c
              (set_strip log
                 (set_actualColor (graduate_pixels (actualColor s) T')
                    (set_targetColor T' s)))) as (c' & log' & ->).
  destruct c'; eexists; reflexivity.
Qed.

Lemma updateLEDs_not_eligible now s :
  exceeds_update_delay (sub32 now (lastLEDUpdate s)) = false ->
  updateLEDs now s = Some s.
Proof. intros H. unfold updateLEDs. rewrite H. reflexivity. Qed.

Lemma exceeds_update_delay_spec x : exceeds_update_delay x = (8 <? x).
Proof.
  unfold exceeds_update_delay, Qle_bool, LED_UPDATE_DELAY. simpl.
  destruct (Z.leb_spec (x * 10000) 83333), (Z.ltb_spec 8 x); simpl; lia.
Qed.

Lemma colors_Some i :
  0 <= i <= 7 ->
  exists base comp,
    index colors i = Some base /\ index complementary_colors i = Some comp
    /\ rgb_ok base = true /\ rgb_ok comp = true.
Proof.
  intros H.
  assert (i = 0 \/ i = 1 \/ i = 2 \/ i = 3 \/ i = 4 \/ i = 5 \/ i = 6 \/ i = 7)
    as Hi by lia.
  destruct Hi as [-> | [-> | [-> | [-> | [-> | [-> | [-> | ->]]]]]]];
    eexists _, _; repeat split; reflexivity.
Qed.

(** C5. In the rain mode, for every phase in 0..2 and colour index in 0..7,
    the targets are recomputed so that a position of phase id [P] gets the
    base colour when [P] is the current phase, the halfway blend of the
    base and complementary colours when [P] is the current phase plus one
    modulo 3, and the complementary colour when [P] is the current phase
    plus two modulo 3; a frame that passes the rate test ends with these
    targets. *)
Theorem rain_targets (s : State) :
  currentMode s = MODE_RAIN ->
  0 <= currentRainPhase s <= 2 ->
  0 <= currentColorIndex s <= 7 ->
  length (targetColor s) = NUM_LEDS ->
  exists s1 base comp,
    updateLEDs_targets s = Some s1
    /\ index colors (currentColorIndex s) = Some base
    /\ index complementary_colors (currentColorIndex s) = Some comp
    /\ (forall i P, rain_phase_LED_map !! i = Some P ->
          (P = currentRainPhase s -> targetColor s1 !! i = Some base)
          /\ (P = (currentRainPhase s + 1) mod 3 ->
              targetColor s1 !! i = Some (halfwayBetweenColors base comp))
          /\ (P = (currentRainPhase s + 2) mod 3 ->
              targetColor s1 !! i = Some comp))
    /\ (forall now,
          length (actualColor s) = NUM_LEDS ->
          exceeds_update_delay (sub32 now (lastLEDUpdate s)) = true ->
          exists s', updateLEDs now s = Some s'
                     /\ targetColor s' = targetColor s1).
Proof.
  intros Hmode Hphase Hidx Hlen.
  destruct (colors_Some _ Hidx) as (base & comp & Hbase & Hcomp & _).
  eexists _, base, comp.
  split; [apply (updateLEDs_targets_spec s base comp Hlen Hbase Hcomp) |].
  split; [exact Hbase |]. split; [exact Hcomp |]. split.
  - intros i P HP. cbn [targetColor set_targetColor].
    rewrite list_lookup_imap.
    destruct (lookup_lt_is_Some_2 (targetColor s) i) as [old ->].
    { rewrite Hlen. apply lookup_lt_Some in HP. exact HP. }
    cbn [fmap option_fmap option_map]. rewrite Hmode.
    unfold mode_target, rain_target. cbn [Z.eqb MODE_RAIN MODE_UNIFIED
      MODE_COMPLEMENTARY Pos.eqb]. rewrite HP.
    assert (currentRainPhase s = 0 \/ currentRainPhase s = 1
            \/ currentRainPhase s = 2) as Hp by lia.
    destruct Hp as [-> | [-> | ->]];
      (repeat split; intros ->; reflexivity).
  - intros now HA Hel.
    destruct (updateLEDs_eligible now s base comp HA Hlen Hbase Hcomp Hel)
      as [log ->].
    eexists. split; reflexivity.
Qed.

Lemma rain_targets_witness :
  exists s1,
    updateLEDs_targets
      (set_currentMode MODE_RAIN (set_currentColorIndex 1 (boot ∅))) = Some s1
    /\ targetColor s1 !! 0%nat = Some (mkRGB 255 127 0)
    /\ targetColor s1 !! 2%nat = Some (mkRGB 255 176 0)
    /\ targetColor s1 !! 1%nat = Some (mkRGB 255 225 0).
Proof.
  destruct (rain_targets
              (set_currentMode MODE_RAIN (set_currentColorIndex 1 (boot ∅))))
    as (s1 & base & comp & Hs1 & Hb & Hc & Hi & _).
  - reflexivity.
  - cbn. lia.
  - cbn. lia.
  - reflexivity.
  - injection Hb as <-. injection Hc as <-. exists s1.
    split; [exact Hs1 |].
    split; [exact (proj1 (Hi 0%nat 0 eq_refl) eq_refl) |].
    split; [exact (proj1 (proj2 (Hi 2%nat 1 eq_refl)) eq_refl) |].
    exact (proj2 (proj2 (Hi 1%nat 2 eq_refl)) eq_refl).
Defined.

(** The targets that a call of [updateLEDs] which passes the frame-rate
    test leaves, in the unified and in the complementary mode. *)
Lemma updateLEDs_recomputes_targets (now : Z) (s : State) :
  length (actualColor s) = NUM_LEDS ->
  length (targetColor s) = NUM_LEDS ->
  0 <= currentColorIndex s <= 7 ->
  exceeds_update_delay (sub32 now (lastLEDUpdate s)) = true ->
  exists s' base comp,
    updateLEDs now s = Some s'
    /\ index colors (currentColorIndex s) = Some base
    /\ index complementary_colors (currentColorIndex s) = Some comp
    /\ (currentMode s = MODE_UNIFIED ->
        forall i, (i < NUM_LEDS)%nat -> targetColor s' !! i = Some base)
    /\ (currentMode s = MODE_COMPLEMENTARY ->
        forall i role, complementary_LED_map !! i = Some role ->
          targetColor s' !! i
          = Some (if eqb role COMPLEMENTARY_FRONT then base else comp)).
Proof.
  intros HA HT Hidx Hel.
  destruct (colors_Some _ Hidx) as (base & comp & Hbase & Hcomp & _).
  destruct (updateLEDs_eligible now s base comp HA HT Hbase Hcomp Hel)
    as [log ->].
  eexists _, base, comp. split; [reflexivity |].
  split; [exact Hbase |]. split; [exact Hcomp |].
  cbn [targetColor set_lastLEDUpdate set_strip set_actualBrightness
         set_actualColor set_targetColor].
  split.
  - intros Hmode i Hi. rewrite list_lookup_imap.
    destruct (map_lookup_10 (targetColor s) i HT Hi) as [old ->].
    rewrite Hmode. reflexivity.
  - intros Hmode i role Hrole. rewrite list_lookup_imap.
    destruct (lookup_lt_is_Some_2 (targetColor s) i) as [old ->].
    { rewrite HT. apply lookup_lt_Some in Hrole. exact Hrole. }
    rewrite Hmode. cbn [fmap option_fmap option_map].
    unfold mode_target, complementary_target.
    cbn [Z.eqb MODE_UNIFIED MODE_COMPLEMENTARY Pos.eqb]. rewrite Hrole.
    reflexivity.
Qed.

(** ** A converged frame *)

Lemma graduate_loop_converged c s :
  length (actualColor s) = NUM_LEDS ->
  actualColor s = targetColor s ->
  for_upto NUM_LEDS graduateLED (c, s) = Some (c, s).
Proof.
  intros HA Heq.
  destruct (for_upto_total (fun _ st => st = (c, s)) NUM_LEDS graduateLED (c, s))
    as (y & Hy & ->); [reflexivity | | exact Hy].
  intros k x Hk ->. eexists. split; [| reflexivity].
  unfold graduateLED. rewrite <- Heq.
  destruct (map_lookup_10 (actualColor s) k HA Hk) as [a ->].
  cbn [mbind option_bind]. rewrite !Z.eqb_refl. reflexivity.
Qed.

(** C9. On a call of [updateLEDs] that passes the frame-rate test and on
    which, once the targets are recomputed, every pixel equals its target
    on the three channels and the brightness equals its target,
    [somethingChanged] stays false, and the strip receives no call at all:
    no [show], no [setPixelColor], no [setBrightness]. Only [lastLEDUpdate]
    is written. *)
Theorem converged_frame_is_silent (now : Z) (s s1 : State) :
  exceeds_update_delay (sub32 now (lastLEDUpdate s)) = true ->
  updateLEDs_targets s = Some s1 ->
  length (actualColor s1) = NUM_LEDS ->
  actualColor s1 = targetColor s1 ->
  actualBrightness s1 = targetBrightness s1 ->
  updateLEDs_frame s = Some (false, s1)
  /\ updateLEDs now s = Some (set_lastLEDUpdate now s1)
  /\ strip (set_lastLEDUpdate now s1) = strip s.
Proof.
  intros Hel Ht HA Heq Hb.
  assert (updateLEDs_frame s = Some (false, s1)) as Hframe.
  { unfold updateLEDs_frame. rewrite Ht. cbn [mbind option_bind].
    rewrite (graduate_loop_converged false s1 HA Heq). cbn [mbind option_bind].
    unfold graduateBrightness. rewrite Hb, Z.eqb_refl. reflexivity. }
  split; [exact Hframe |]. split.
  - unfold updateLEDs. rewrite Hel, Hframe. reflexivity.
  - apply updateLEDs_targets_shape in Ht as [T ->]. reflexivity.
Qed.

Lemma converged_frame_is_silent_witness :
  updateLEDs 9
    (set_actualBrightness 180
       (set_actualColor (replicate NUM_LEDS (mkRGB 255 255 255)) (boot ∅)))
  = Some
      (set_lastLEDUpdate 9
         (set_targetColor (replicate NUM_LEDS (mkRGB 255 255 255))
            (set_actualBrightness 180
               (set_actualColor (replicate NUM_LEDS (mkRGB 255 255 255))
                  (boot ∅))))).
Proof.
  exact (proj1 (proj2 (converged_frame_is_silent 9
           (set_actualBrightness 180
              (set_actualColor (replicate NUM_LEDS (mkRGB 255 255 255)) (boot ∅)))
           (set_targetColor (replicate NUM_LEDS (mkRGB 255 255 255))
              (set_actualBrightness 180
                 (set_actualColor (replicate NUM_LEDS (mkRGB 255 255 255))
                    (boot ∅))))
           eq_refl eq_refl eq_refl eq_refl eq_refl))).
Defined.

(** ** One step of the graduation *)

Lemma forallb_lookup {A} (f : A -> bool) (l : list A) :
  forallb f l = true <-> (forall i x, l !! i = Some x -> f x = true).
Proof.
  induction l as [| y l IH]; simpl.
  - split; [intros _ i x Hx; discriminate | reflexivity].
  - rewrite andb_true_iff, IH. split.
    + intros [Hy Hl] [| i] x Hx; simpl in Hx; [congruence | eauto].
    + intros H. split; [apply (H O); reflexivity |].
      intros i x Hx. apply (H (S i)). exact Hx.
Qed.

Lemma well_typed_spec s :
  well_typed s = true <->
  (0 <= currentMode s <= 255 /\ 0 <= inputBrightnessLevel s <= 255
   /\ 0 <= targetBrightness s <= 255 /\ 0 <= actualBrightness s <= 255
   /\ 0 <= currentRainPhase s <= 255)
  /\ length (targetColor s) = NUM_LEDS
  /\ length (actualColor s) = NUM_LEDS
  /\ (forall i c, targetColor s !! i = Some c -> rgb_ok c = true)
  /\ (forall i c, actualColor s !! i = Some c -> rgb_ok c = true).
Proof.
  unfold well_typed.
  rewrite !andb_true_iff, !is_byte_spec, !Nat.eqb_eq, !forallb_lookup. tauto.
Qed.

Lemma graduateChannel_stepped a t :
  0 <= a <= 255 -> 0 <= t <= 255 ->
  stepped a t (to_byte (graduateChannel a t))
  /\ 0 <= to_byte (graduateChannel a t) <= 255.
Proof.
  intros Ha Ht.
  assert (0 <= graduateChannel a t <= 255
          /\ stepped a t (graduateChannel a t)) as [Hr Hs].
  { unfold graduateChannel, constrain, stepped, LED_COLOR_GRADUATION.
    destruct (Z.ltb_spec a t).
    - destruct (Z.ltb_spec (a + 1) 0); [lia |].
      destruct (Z.gtb_spec (a + 1) t); lia.
    - destruct (Z.gtb_spec a t); [| lia].
      destruct (Z.ltb_spec (a - 1) t); [lia |].
      destruct (Z.gtb_spec (a - 1) 255); lia. }
  rewrite to_byte_id by exact Hr. split; assumption.
Qed.

Lemma stepped_same a : stepped a a a.
Proof. unfold stepped. split; [reflexivity | intros H; contradiction]. Qed.

Lemma graduate_rgb_stepped a t :
  rgb_ok a = true -> rgb_ok t = true ->
  stepped (r a) (r t) (r (graduate_rgb a t))
  /\ stepped (g a) (g t) (g (graduate_rgb a t))
  /\ stepped (b a) (b t) (b (graduate_rgb a t))
  /\ rgb_ok (graduate_rgb a t) = true.
Proof.
  intros Ha Ht.
  apply rgb_ok_spec in Ha as (Har & Hag & Hab).
  apply rgb_ok_spec in Ht as (Htr & Htg & Htb).
  unfold graduate_rgb.
  destruct (graduateChannel_stepped (r a) (r t) Har Htr) as [Sr Br].
  destruct (graduateChannel_stepped (g a) (g t) Hag Htg) as [Sg Bg].
  destruct (graduateChannel_stepped (b a) (b t) Hab Htb) as [Sb Bb].
  destruct (negb (r a =? r t) || negb (g a =? g t) || negb (b a =? b t)) eqn:E.
  - cbn [r g b].
    split; [exact Sr |]. split; [exact Sg |]. split; [exact Sb |].
    apply rgb_ok_spec. cbn [r g b]. auto.
  - apply orb_false_iff in E as [E Eb]. apply orb_false_iff in E as [Er Eg].
    apply negb_false_iff, Z.eqb_eq in Er, Eg, Eb. rewrite <- Er, <- Eg, <- Eb.
    split; [apply stepped_same |]. split; [apply stepped_same |].
    split; [apply stepped_same |].
    apply rgb_ok_spec. auto.
Qed.

Lemma graduate_level_stepped a t :
  0 <= a <= 255 -> 0 <= t <= 255 ->
  stepped a t (graduate_level a t) /\ 0 <= graduate_level a t <= 255.
Proof.
  intros Ha Ht. unfold graduate_level.
  destruct (Z.eqb_spec t a) as [-> | Hne]; cbn [negb].
  - split; [apply stepped_same | exact Ha].
  - assert (forall x, 0 <= x <= 255 -> stepped a t x ->
                      stepped a t (to_byte x) /\ 0 <= to_byte x <= 255) as Hx.
    { intros x Hx Hs. rewrite to_byte_id by exact Hx. auto. }
    unfold constrain, LED_COLOR_GRADUATION.
    destruct (Z.ltb_spec a t).
    + destruct (Z.ltb_spec (a + 1) 0); [lia |].
      destruct (Z.gtb_spec (a + 1) t); apply Hx; unfold stepped; lia.
    + destruct (Z.ltb_spec (a - 1) t); [lia |].
      destruct (Z.gtb_spec (a - 1) 255); apply Hx; unfold stepped; lia.
Qed.

Lemma halfwayBetweenColors_ok x y :
  rgb_ok x = true -> rgb_ok y = true -> rgb_ok (halfwayBetweenColors x y) = true.
Proof.
  intros Hx Hy.
  apply rgb_ok_spec in Hx as (? & ? & ?). apply rgb_ok_spec in Hy as (? & ? & ?).
  assert (forall u v, 0 <= u <= 255 -> 0 <= v <= 255 ->
                      0 <= halfwayChannel u v <= 255) as Hc.
  { intros u v Hu Hv. rewrite halfwayChannel_spec by assumption.
    unfold halfway_spec.
    destruct (Z.ltb_spec u v); [| destruct (Z.gtb_spec u v)];
      Z.div_mod_to_equations; lia. }
  apply rgb_ok_spec. cbn [halfwayBetweenColors r g b]. auto.
Qed.

Lemma mode_target_ok m p base comp i old :
  rgb_ok base = true -> rgb_ok comp = true -> rgb_ok old = true ->
  rgb_ok (mode_target m p base comp i old) = true.
Proof.
  intros Hb Hc Ho. pose proof (halfwayBetweenColors_ok _ _ Hb Hc).
  unfold mode_target, unified_target, complementary_target, rain_target.
  repeat case_match; assumption.
Qed.

Lemma mode_target_idem m p base comp i old :
  mode_target m p base comp i (mode_target m p base comp i old)
  = mode_target m p base comp i old.
Proof.
  unfold mode_target, unified_target, complementary_target, rain_target.
  repeat case_match; reflexivity.
Qed.

Lemma imap_idem {A} (f : nat -> A -> A) (l : list A) :
  (forall i x, f i (f i x) = f i x) -> imap f (imap f l) = imap f l.
Proof.
  intros Hf. apply list_eq. intros i. rewrite !list_lookup_imap.
  destruct (l !! i); simpl; [rewrite Hf |]; reflexivity.
Qed.

(** A frame that passes the rate test, on a well-typed state. *)
Lemma frame_step now s :
  well_typed s = true ->
  0 <= currentColorIndex s <= 7 ->
  exceeds_update_delay (sub32 now (lastLEDUpdate s)) = true ->
  exists s' base comp,
    updateLEDs now s = Some s'
    /\ index colors (currentColorIndex s) = Some base
    /\ index complementary_colors (currentColorIndex s) = Some comp
    /\ well_typed s' = true
    /\ currentMode s' = currentMode s
    /\ currentColorIndex s' = currentColorIndex s
    /\ currentRainPhase s' = currentRainPhase s
    /\ targetBrightness s' = targetBrightness s
    /\ lastLEDUpdate s' = now
    /\ targetColor s'
       = imap (mode_target (currentMode s) (currentRainPhase s) base comp)
           (targetColor s)
    /\ actualColor s' = graduate_pixels (actualColor s) (targetColor s')
    /\ actualBrightness s'
       = graduate_level (actualBrightness s) (targetBrightness s).
Proof.
  intros Hwt Hidx Hel.
  apply well_typed_spec in Hwt as (Hbytes & HT & HA & HTok & HAok).
  destruct (colors_Some _ Hidx) as (base & comp & Hbase & Hcomp & Hbok & Hcok).
  destruct (updateLEDs_eligible now s base comp HA HT Hbase Hcomp Hel)
    as [log ->].
  eexists _, base, comp. split; [reflexivity |].
  split; [exact Hbase |]. split; [exact Hcomp |].
  split; [| repeat split; reflexivity].
  apply well_typed_spec.
  cbn [currentMode inputBrightnessLevel targetBrightness actualBrightness
         currentRainPhase targetColor actualColor set_lastLEDUpdate set_strip
         set_actualBrightness set_actualColor set_targetColor].
  set (T' := imap _ (targetColor s)).
  assert (forall i c, T' !! i = Some c -> rgb_ok c = true) as HT'ok.
  { intros i c Hc. subst T'. rewrite list_lookup_imap in Hc.
    destruct (targetColor s !! i) as [old |] eqn:Eo; [| discriminate].
    injection Hc as <-. apply mode_target_ok; eauto. }
  split; [| split; [| split; [| split]]].
  - destruct (graduate_level_stepped (actualBrightness s) (targetBrightness s))
      as [_ Hg]; lia.
  - subst T'. rewrite length_imap. exact HT.
  - unfold graduate_pixels. rewrite length_imap. exact HA.
  - exact HT'ok.
  - intros i c Hc. unfold graduate_pixels in Hc. rewrite list_lookup_imap in Hc.
    destruct (actualColor s !! i) as [a |] eqn:Ea; [| discriminate].
    cbn [fmap option_fmap option_map] in Hc. injection Hc as <-.
    destruct (T' !! i) as [t |] eqn:Et; [| eauto].
    apply graduate_rgb_stepped; eauto.
Qed.

Lemma stepped_bound a t a' d :
  stepped a t a' -> Z.abs (a - t) <= d -> Z.abs (a' - t) <= Z.max 0 (d - 1).
Proof.
  intros [Heq Hne] Hd. destruct (Z.eq_dec a t) as [E | E].
  - rewrite (Heq E). lia.
  - destruct (Hne E). lia.
Qed.

Lemma within_step d A T :
  (forall i c, A !! i = Some c -> rgb_ok c = true) ->
  (forall i c, T !! i = Some c -> rgb_ok c = true) ->
  within d A T -> within (Z.max 0 (d - 1)) (graduate_pixels A T) T.
Proof.
  intros HA HT Hw i a' t Ha' Ht.
  unfold graduate_pixels in Ha'. rewrite list_lookup_imap in Ha'.
  destruct (A !! i) as [a |] eqn:Ea; [| discriminate].
  cbn [fmap option_fmap option_map] in Ha'. rewrite Ht in Ha'.
  injection Ha' as <-.
  destruct (graduate_rgb_stepped a t (HA _ _ Ea) (HT _ _ Ht))
    as (Sr & Sg & Sb & _).
  destruct (Hw i a t Ea Ht) as (Dr & Dg & Db).
  split; [| split]; eapply stepped_bound; eassumption.
Qed.

Lemma within_bytes A T :
  (forall i c, A !! i = Some c -> rgb_ok c = true) ->
  (forall i c, T !! i = Some c -> rgb_ok c = true) ->
  within 255 A T.
Proof.
  intros HA HT i a t Ha Ht.
  apply HA, rgb_ok_spec in Ha. apply HT, rgb_ok_spec in Ht. lia.
Qed.

Lemma within_0_eq A T : length A = length T -> within 0 A T -> A = T.
Proof.
  intros Hlen Hw. apply list_eq. intros i.
  destruct (A !! i) as [a |] eqn:Ea.
  - destruct (lookup_lt_is_Some_2 T i) as [t Et].
    { rewrite <- Hlen. eapply lookup_lt_Some. exact Ea. }
    rewrite Et. destruct (Hw i a t Ea Et) as (Hr & Hg & Hb).
    destruct a, t. cbn [r g b] in *. f_equal. f_equal; lia.
  - symmetry. apply lookup_ge_None_2. rewrite <- Hlen.
    apply lookup_ge_None_1. exact Ea.
Qed.

(** With targets that the recomputation leaves as they are, [d] frames
    bring every value that is within [d] of its target onto it. *)
Lemma run_frames_converges ts : forall s d base comp,
  well_typed s = true ->
  0 <= currentColorIndex s <= 7 ->
  index colors (currentColorIndex s) = Some base ->
  index complementary_colors (currentColorIndex s) = Some comp ->
  imap (mode_target (currentMode s) (currentRainPhase s) base comp)
    (targetColor s) = targetColor s ->
  within d (actualColor s) (targetColor s) ->
  Z.abs (actualBrightness s - targetBrightness s) <= d ->
  0 <= d <= Z.of_nat (length ts) ->
  frames_eligible (lastLEDUpdate s) ts = true ->
  exists s', run_frames ts s = Some s'
    /\ actualColor s' = targetColor s'
    /\ actualBrightness s' = targetBrightness s'.
Proof.
  induction ts as [| t ts IH]; intros s d base comp Hwt Hidx Hb Hc Hfix Hw Hd Hlen Hel.
  - exists s. split; [reflexivity |]. simpl in Hlen.
    assert (d = 0) as -> by lia.
    apply well_typed_spec in Hwt as (_ & HT & HA & _).
    split; [apply within_0_eq; [congruence | exact Hw] | lia].
  - cbn [frames_eligible] in Hel. apply andb_true_iff in Hel as [Hel Hrest].
    destruct (frame_step t s Hwt Hidx Hel)
      as (s1 & base' & comp' & Hs1 & Hb' & Hc' & Hwt1 & Hm1 & Hi1 & Hp1 & Htb1
          & Hl1 & HT1 & HA1 & Hab1).
    assert (base' = base) as -> by congruence.
    assert (comp' = comp) as -> by congruence.
    rewrite Hfix in HT1. rewrite HT1 in HA1.
    pose proof Hwt as Hwt'.
    apply well_typed_spec in Hwt' as (Hbytes & HT & HA & HTok & HAok).
    destruct (IH s1 (Z.max 0 (d - 1)) base comp) as (s' & Hs' & Hfin).
    + exact Hwt1.
    + rewrite Hi1. exact Hidx.
    + rewrite Hi1. exact Hb.
    + rewrite Hi1. exact Hc.
    + rewrite Hm1, Hp1, HT1. exact Hfix.
    + rewrite HA1, HT1. apply within_step; assumption.
    + rewrite Hab1, Htb1.
      destruct (graduate_level_stepped (actualBrightness s) (targetBrightness s))
        as [Hs _]; [lia | lia |].
      eapply stepped_bound; eassumption.
    + cbn [length] in Hlen. lia.
    + rewrite Hl1. exact Hrest.
    + exists s'. split; [| exact Hfin].
      cbn [run_frames]. rewrite Hs1. exact Hs'.
Qed.



(** ** The decoder *)

Lemma get2_set2 {A} i (v : A) a : get2 i (set2 i v a) = v.
Proof. destruct i; reflexivity. Qed.

Lemma set2_get2 {A} i (a : Arr2 A) : set2 i (get2 i a) a = a.
Proof. destruct i, a; reflexivity. Qed.

Lemma set_lastBtnState_same s : set_lastBtnState (lastBtnState s) s = s.
Proof. destruct s; reflexivity. Qed.

Lemma sub32_same x : sub32 x x = 0.
Proof. unfold sub32. rewrite Z.sub_diag. reflexivity. Qed.

Lemma eqb_neq x y : x <> y -> eqb x y = false.
Proof. destruct x, y; intros H; try reflexivity; contradiction H; reflexivity. Qed.

Lemma reads_spec rd inp : reads rd inp = true <-> digitalRead inp = rd.
Proof.
  unfold reads. rewrite andb_true_iff, !eqb_true_iff.
  destruct (digitalRead inp), rd; simpl. split.
  - intros [-> ->]. reflexivity.
  - intros [= -> ->]. auto.
Qed.

(** The pin reads as on the pass before and as the accepted state. *)
Lemma checkButton_quiet inp i s :
  get2 i (digitalRead inp) = get2 i (lastBtnState s) ->
  get2 i (digitalRead inp) = get2 i (btnState s) ->
  checkButton inp i s = Some s.
Proof.
  intros Hl Hb. unfold checkButton.
  rewrite <- Hl, eqb_reflx. cbn [negb]. rewrite <- Hb, eqb_reflx. cbn [negb].
  assert (set_lastBtnState
            (set2 i (get2 i (digitalRead inp)) (lastBtnState s)) s = s) as E.
  { rewrite Hl, set2_get2. apply set_lastBtnState_same. }
  destruct (DEBOUNCE_DELAY <? _); cbn [mbind option_bind]; rewrite E; reflexivity.
Qed.

(** The pin reads as on the pass before, and the delay is not over. *)
Lemma checkButton_wait inp i s :
  get2 i (digitalRead inp) = get2 i (lastBtnState s) ->
  (DEBOUNCE_DELAY <? sub32 (millis_check inp) (get2 i (lastBtnDebounceTime s)))
  = false ->
  checkButton inp i s = Some s.
Proof.
  intros Hl Hd. unfold checkButton.
  rewrite <- Hl, eqb_reflx. cbn [negb]. rewrite Hd. cbn [mbind option_bind].
  rewrite Hl, set2_get2, set_lastBtnState_same. reflexivity.
Qed.

(** The pin does not read as on the pass before: the timer restarts. *)
Lemma checkButton_first inp i s :
  get2 i (digitalRead inp) <> get2 i (lastBtnState s) ->
  checkButton inp i s
  = Some (set_lastBtnState
            (set2 i (get2 i (digitalRead inp)) (lastBtnState s))
            (set_lastBtnDebounceTime
               (set2 i (millis_check inp) (lastBtnDebounceTime s)) s)).
Proof.
  intros Hl. unfold checkButton. rewrite (eqb_neq _ _ Hl). cbn [negb].
  cbn [lastBtnDebounceTime set_lastBtnDebounceTime].
  rewrite get2_set2, sub32_same. reflexivity.
Qed.

(** The pin reads as on the pass before, not as the accepted state, and
    the delay is over: the change is registered. *)
Lemma checkButton_fire inp i s :
  get2 i (digitalRead inp) = get2 i (lastBtnState s) ->
  get2 i (digitalRead inp) <> get2 i (btnState s) ->
  (DEBOUNCE_DELAY <? sub32 (millis_check inp) (get2 i (lastBtnDebounceTime s)))
  = true ->
  exists d,
    checkButton inp i s
    = (s' ← btnStateChange (get2 i (millis_change inp)) i
              (get2 i (digitalRead inp)) d s;
       Some (set_lastBtnState
               (set2 i (get2 i (digitalRead inp)) (lastBtnState s')) s')).
Proof.
  intros Hl Hb Hd. unfold checkButton.
  rewrite <- Hl, eqb_reflx. cbn [negb]. rewrite Hd, (eqb_neq _ _ Hb).
  cbn [negb]. eexists. reflexivity.
Qed.

(** [btnStateChange] is defined; it writes the accepted state of its
    button and leaves the last readings and the timers. *)
Lemma btnStateChange_buttons t i newState d s :
  exists s', btnStateChange t i newState d s = Some s'
    /\ btnState s' = set2 i newState (btnState s)
    /\ lastBtnState s' = lastBtnState s
    /\ lastBtnDebounceTime s' = lastBtnDebounceTime s.
Proof.
  unfold btnStateChange. destruct newState.
  - eexists. split; [reflexivity |]. repeat split; reflexivity.
  - repeat case_match.
    + eexists. split; [reflexivity |]. repeat split; reflexivity.
    + eexists. split; [reflexivity |]. repeat split; reflexivity.
    + match goal with |- context [incBrightness ?x] =>
        destruct (incBrightness_Some x)
          as (s' & -> & _ & _ & _ & _ & _ & Hb & Hl & _ & Hd)
      end.
      exists s'. split; [reflexivity |]. rewrite Hb, Hl, Hd.
      repeat split; reflexivity.
    + eexists. split; [reflexivity |]. repeat split; reflexivity.
Qed.

Lemma set2_set2 {A} i (v w : A) a : set2 i v (set2 i w a) = set2 i v a.
Proof. destruct i; reflexivity. Qed.

Lemma checkButtons_unfold inp s :
  checkButtons inp s = (s0 ← checkButton inp 0 s; checkButton inp 1 s0).
Proof. reflexivity. Qed.

Lemma checkButtons_quiet inp s rd :
  digitalRead inp = rd -> lastBtnState s = rd -> btnState s = rd ->
  checkButtons inp s = Some s.
Proof.
  intros Hr Hl Hb. rewrite checkButtons_unfold.
  rewrite (checkButton_quiet inp 0 s) by congruence.
  apply checkButton_quiet; congruence.
Qed.

Lemma run_buttons_quiet seg s rd :
  lastBtnState s = rd -> btnState s = rd ->
  forallb (reads rd) seg = true ->
  run_buttons seg s = Some s.
Proof.
  intros Hl Hb. induction seg as [| x seg IH]; [reflexivity |].
  cbn [forallb run_buttons]. rewrite andb_true_iff, reads_spec.
  intros [Hx Hseg]. rewrite (checkButtons_quiet x s rd Hx Hl Hb).
  exact (IH Hseg).
Qed.

Lemma run_buttons_app l1 l2 s :
  run_buttons (l1 ++ l2) s = (s' ← run_buttons l1 s; run_buttons l2 s').
Proof.
  revert s. induction l1 as [| x l1 IH]; intros s; [reflexivity |].
  cbn [app run_buttons]. destruct (checkButtons x s); [apply IH | reflexivity].
Qed.

(** Properties of the passes on which one button, [i], changes while the
    other one is quiet. *)
Section OneButton.

Variable i : nat.
Hypothesis Hi : (i = 0 \/ i = 1)%nat.

Lemma get2_set2_other {A} (v : A) a :
  get2 (1 - i) (set2 i v a) = get2 (1 - i) a.
Proof. destruct Hi as [-> | ->]; reflexivity. Qed.

(** A pass on which the other button is quiet is the pass of button [i]. *)
Lemma checkButtons_only inp s s' :
  checkButton inp i s = Some s' ->
  get2 (1 - i) (digitalRead inp) = get2 (1 - i) (lastBtnState s) ->
  get2 (1 - i) (digitalRead inp) = get2 (1 - i) (btnState s) ->
  get2 (1 - i) (digitalRead inp) = get2 (1 - i) (lastBtnState s') ->
  get2 (1 - i) (digitalRead inp) = get2 (1 - i) (btnState s') ->
  checkButtons inp s = Some s'.
Proof.
  intros Hc Hl Hb Hl' Hb'. rewrite checkButtons_unfold.
  destruct Hi as [-> | ->].
  - rewrite Hc. cbn [mbind option_bind]. apply checkButton_quiet; assumption.
  - rewrite (checkButton_quiet inp 0 s) by assumption. exact Hc.
Qed.

(** Button [i] reads [get2 i rd] since the clock value [t0], the accepted
    state is still the other one: the change is registered by the first
    pass that comes more than [DEBOUNCE_DELAY] after [t0]. *)
Lemma segment_wait rd t0 rest :
  forall s,
    lastBtnState s = rd ->
    btnState s = set2 i (negb (get2 i rd)) rd ->
    get2 i (lastBtnDebounceTime s) = t0 ->
    forallb (reads rd) rest = true ->
    existsb (fun x => DEBOUNCE_DELAY <? sub32 (millis_check x) t0) rest = true ->
    exists tm d s',
      btnStateChange tm i (get2 i rd) d s = Some s'
      /\ run_buttons rest s = Some s'.
Proof.
  induction rest as [| x rest IH]; intros s Hl Hb Ht Hall Hex;
    [discriminate |].
  cbn [forallb existsb] in Hall, Hex.
  apply andb_true_iff in Hall as [Hx Hall]. apply reads_spec in Hx.
  assert (get2 (1 - i) (btnState s) = get2 (1 - i) rd) as Hother.
  { rewrite Hb. apply get2_set2_other. }
  destruct (DEBOUNCE_DELAY <? sub32 (millis_check x) t0) eqn:Hd.
  - clear IH Hex.
    destruct (checkButton_fire x i s) as [d Hfire].
    { rewrite Hx, Hl. reflexivity. }
    { rewrite Hx, Hb, get2_set2. destruct (get2 i rd); discriminate. }
    { rewrite Ht. exact Hd. }
    destruct (btnStateChange_buttons (get2 i (millis_change x)) i
                (get2 i (digitalRead x)) d s) as (s' & Hs' & Hb' & Hl' & _).
    rewrite Hs' in Hfire. cbn [mbind option_bind] in Hfire.
    rewrite Hl', Hl, Hx, set2_get2, <- Hl, <- Hl', set_lastBtnState_same in Hfire.
    rewrite Hx in Hs', Hb'. rewrite Hb, set2_set2, set2_get2 in Hb'.
    exists (get2 i (millis_change x)), d, s'. split; [exact Hs' |].
    assert (checkButtons x s = Some s') as Hpass.
    { apply checkButtons_only; congruence. }
    cbn [run_buttons]. rewrite Hpass.
    cbn [mbind option_bind]. apply (run_buttons_quiet rest s' rd); congruence.
  - cbn [orb] in Hex.
    destruct (IH s Hl Hb Ht Hall Hex) as (tm & d & s' & Hs' & Hrun).
    exists tm, d, s'. split; [exact Hs' |].
    assert (checkButtons x s = Some s) as Hpass.
    { apply checkButtons_only; try congruence.
      apply checkButton_wait; [congruence | rewrite Ht; exact Hd]. }
    cbn [run_buttons]. rewrite Hpass. exact Hrun.
Qed.

(** From a settled state, a stable segment on which button [i] reads the
    other value ends in the state that [btnStateChange] gives for it. *)
Lemma segment_change rd0 rd seg s :
  btnState s = rd0 -> lastBtnState s = rd0 ->
  rd = set2 i (negb (get2 i rd0)) rd0 ->
  stable_segment rd seg = true ->
  exists tm d t0 s',
    btnStateChange tm i (get2 i rd) d
      (set_lastBtnState rd
         (set_lastBtnDebounceTime (set2 i t0 (lastBtnDebounceTime s)) s))
    = Some s'
    /\ run_buttons seg s = Some s'.
Proof.
  intros Hb Hl Hrd Hseg. destruct seg as [| first rest]; [discriminate |].
  cbn [stable_segment forallb] in Hseg.
  apply andb_true_iff in Hseg as [Hall Hex].
  apply andb_true_iff in Hall as [Hx Hall]. apply reads_spec in Hx.
  set (s1 := set_lastBtnState rd
               (set_lastBtnDebounceTime
                  (set2 i (millis_check first) (lastBtnDebounceTime s)) s)).
  assert (get2 i rd = negb (get2 i rd0)) as Hi_rd.
  { rewrite Hrd. apply get2_set2. }
  assert (get2 (1 - i) rd = get2 (1 - i) rd0) as Hother.
  { rewrite Hrd. apply get2_set2_other. }
  assert (checkButtons first s = Some s1) as Hfirst.
  { apply checkButtons_only.
    - rewrite checkButton_first.
      + subst s1. rewrite Hx, Hl, Hi_rd, <- Hrd. reflexivity.
      + rewrite Hx, Hl, Hi_rd. destruct (get2 i rd0); discriminate.
    - rewrite Hx, Hl. exact Hother.
    - rewrite Hx, Hb. exact Hother.
    - rewrite Hx. reflexivity.
    - rewrite Hx. cbn [s1 btnState set_lastBtnState set_lastBtnDebounceTime].
      rewrite Hb. exact Hother. }
  destruct (segment_wait rd (millis_check first) rest s1)
    as (tm & d & s' & Hs' & Hrun); try assumption.
  - reflexivity.
  - cbn [s1 btnState set_lastBtnState set_lastBtnDebounceTime].
    rewrite Hb, Hi_rd, negb_involutive, Hrd, set2_set2, set2_get2. reflexivity.
  - cbn [s1 lastBtnDebounceTime set_lastBtnState set_lastBtnDebounceTime].
    apply get2_set2.
  - exists tm, d, (millis_check first), s'. split; [exact Hs' |].
    cbn [run_buttons]. rewrite Hfirst. exact Hrun.
Qed.

End OneButton.

Lemma btnStateChange_press t i d s s' :
  btnStateChange t i true d s = Some s' ->
  btnState s' = set2 i true (btnState s)
  /\ lastBtnState s' = lastBtnState s
  /\ btnPressHandled s' = set2 i false (btnPressHandled s)
  /\ calls s' = calls s.
Proof. unfold btnStateChange. intros [= <-]. repeat split; reflexivity. Qed.

(** Button 1 released while button 0 is held: [incBrightness], and the
    press of button 0 is marked as handled. *)
Lemma btnStateChange_release_1_held t d s s' :
  get2 0 (btnState s) = true ->
  get2 1 (btnPressHandled s) = false ->
  btnStateChange t 1 false d s = Some s' ->
  btnState s' = set2 1 false (btnState s)
  /\ lastBtnState s' = lastBtnState s
  /\ btnPressHandled s' = set2 0 true (btnPressHandled s)
  /\ calls s' = calls s ++ [IncreaseBrightness].
Proof.
  intros Hb Hh. unfold btnStateChange.
  cbn [btnState btnPressHandled set_btnState set_btnDownStart Nat.eqb andb].
  assert (get2 0 (set2 1 false (btnState s)) = true) as -> by exact Hb.
  rewrite Hh. cbn [negb andb].
  match goal with |- context [incBrightness ?x] =>
    destruct (incBrightness_Some x)
      as (s1 & -> & _ & _ & _ & _ & Hc & Hb1 & Hl1 & Hh1 & _)
  end.
  intros [= <-]. rewrite Hc, Hb1, Hl1, Hh1. repeat split; reflexivity.
Qed.


Lemma emitted_app s s' l : calls s' = calls s ++ l -> emitted s s' = l.
Proof. intros H. unfold emitted. rewrite H. apply drop_app_length. Qed.




(** Button 0 released while button 1 is up, its press not handled:
    [cycleColor]. *)
Lemma btnStateChange_release_0_alone t d s s' :
  get2 1 (btnState s) = false ->
  get2 0 (btnPressHandled s) = false ->
  btnStateChange t 0 false d s = Some s' ->
  btnState s' = set2 0 false (btnState s)
  /\ lastBtnState s' = lastBtnState s
  /\ calls s' = calls s ++ [CycleColor].
Proof.
  intros Hb Hh. unfold btnStateChange.
  cbn [btnState btnPressHandled set_btnState set_btnDownStart Nat.eqb andb].
  assert (get2 1 (set2 0 false (btnState s)) = false) as -> by exact Hb.
  rewrite Hh. cbn [negb andb].
  intros [= <-]. repeat split; reflexivity.
Qed.

(** A press and a release of button 0 alone, each stable, enter
    [cycleColor] once and nothing else. *)
Lemma tap_A_alone (s : State) (seg1 seg2 : list ButtonsInput) :
  btnState s = mkArr2 false false ->
  lastBtnState s = mkArr2 false false ->
  stable_segment (mkArr2 true false) seg1 = true ->
  stable_segment (mkArr2 false false) seg2 = true ->
  exists s', run_buttons (seg1 ++ seg2) s = Some s'
             /\ emitted s s' = [CycleColor].
Proof.
  intros Hb Hl H1 H2.
  destruct (segment_change 0 (or_introl eq_refl) _ _ seg1 s Hb Hl eq_refl H1)
    as (tm1 & d1 & t1 & s1 & Hc1 & Hr1).
  apply btnStateChange_press in Hc1 as (Hb1 & Hl1 & Hh1 & Hk1).
  cbn [btnState lastBtnState btnPressHandled calls set_lastBtnState
         set_lastBtnDebounceTime] in Hb1, Hl1, Hh1, Hk1.
  rewrite Hb in Hb1. cbn [set2 get2 at0 at1] in Hb1.
  destruct (segment_change 0 (or_introl eq_refl) _ _ seg2 s1 Hb1 Hl1 eq_refl H2)
    as (tm2 & d2 & t2 & s2 & Hc2 & Hr2).
  apply btnStateChange_release_0_alone in Hc2 as (_ & _ & Hk2);
    [| cbn [btnState set_lastBtnState set_lastBtnDebounceTime];
       rewrite Hb1; reflexivity
     | cbn [btnPressHandled set_lastBtnState set_lastBtnDebounceTime];
       rewrite Hh1; reflexivity].
  cbn [calls set_lastBtnState set_lastBtnDebounceTime] in Hk2.
  exists s2. split.
  - rewrite run_buttons_app, Hr1. exact Hr2.
  - apply emitted_app. rewrite Hk2, Hk1. reflexivity.
Qed.

(** ** The run *)

Lemma incBrightness_pixels s s' :
  incBrightness s = Some s' ->
  targetColor s' = targetColor s /\ actualColor s' = actualColor s
  /\ lastLEDUpdate s' = lastLEDUpdate s.
Proof.
  unfold incBrightness. destruct (index brightnessValues _); [| discriminate].
  intros [= <-]. repeat split; reflexivity.
Qed.

Lemma btnStateChange_pixels t i newState d s s' :
  btnStateChange t i newState d s = Some s' ->
  targetColor s' = targetColor s /\ actualColor s' = actualColor s
  /\ lastLEDUpdate s' = lastLEDUpdate s.
Proof.
  unfold btnStateChange. destruct newState.
  - intros [= <-]. repeat split; reflexivity.
  - repeat case_match; try (intros [= <-]; repeat split; reflexivity).
    intros Hinc. apply incBrightness_pixels in Hinc. exact Hinc.
Qed.

(** A pass of [checkButton] is defined and leaves the pixels. *)
Lemma checkButton_defined inp i s :
  exists s', checkButton inp i s = Some s'
    /\ targetColor s' = targetColor s /\ actualColor s' = actualColor s
    /\ lastLEDUpdate s' = lastLEDUpdate s.
Proof.
  unfold checkButton.
  set (s1 := if negb (eqb _ _) then _ else s).
  assert (targetColor s1 = targetColor s /\ actualColor s1 = actualColor s
          /\ lastLEDUpdate s1 = lastLEDUpdate s)
    as (<- & <- & <-) by (subst s1; destruct (negb _); repeat split; reflexivity).
  clearbody s1.
  destruct (DEBOUNCE_DELAY <? _);
    [destruct (negb (eqb _ (get2 i (btnState s1)))) |];
    try (eexists; split; [reflexivity | repeat split; reflexivity]).
  match goal with |- context [btnStateChange ?t ?i ?n ?d ?x] =>
    destruct (btnStateChange_buttons t i n d x) as (s2 & Hs2 & _)
  end.
  rewrite Hs2. apply btnStateChange_pixels in Hs2 as (<- & <- & <-).
  eexists. split; [reflexivity | repeat split; reflexivity].
Qed.

Lemma checkButtons_defined inp s :
  exists s', checkButtons inp s = Some s'
    /\ targetColor s' = targetColor s /\ actualColor s' = actualColor s
    /\ lastLEDUpdate s' = lastLEDUpdate s.
Proof.
  apply (for_upto_total
           (fun _ t => targetColor t = targetColor s
                       /\ actualColor t = actualColor s
                       /\ lastLEDUpdate t = lastLEDUpdate s)).
  - repeat split; reflexivity.
  - intros k x _ (HT & HA & HL).
    destruct (checkButton_defined inp k x) as (y & Hy & HT' & HA' & HL').
    exists y. split; [exact Hy |]. repeat split; congruence.
Qed.

Lemma updatePhase_pixels now s :
  targetColor (updatePhase now s) = targetColor s
  /\ actualColor (updatePhase now s) = actualColor s
  /\ lastLEDUpdate (updatePhase now s) = lastLEDUpdate s.
Proof. unfold updatePhase. repeat case_match; repeat split; reflexivity. Qed.

(** With a selection in range and pixel arrays of the declared size, an
    iteration of [loop] is defined and keeps both. *)
Lemma loop_defined inp s :
  selection_ok s = true ->
  length (targetColor s) = NUM_LEDS ->
  length (actualColor s) = NUM_LEDS ->
  exists s', loop inp s = Some s'
    /\ selection_ok s' = true
    /\ length (targetColor s') = NUM_LEDS
    /\ length (actualColor s') = NUM_LEDS.
Proof.
  intros Hok HT HA.
  destruct (checkButtons_defined (buttons_input inp) s)
    as (s1 & Hs1 & HT1 & HA1 & _).
  pose proof (checkButtons_selection _ _ _ Hok Hs1) as Hok1.
  destruct (updatePhase_pixels (millis_phase inp) s1) as (HT2 & HA2 & _).
  assert (selection_ok (updatePhase (millis_phase inp) s1) = true) as Hok2.
  { rewrite (selection_ok_ext _ _ (updatePhase_selection _ _)). exact Hok1. }
  set (s2 := updatePhase (millis_phase inp) s1) in *.
  assert (exists s', updateLEDs (millis_leds inp) s2 = Some s'
                     /\ length (targetColor s') = NUM_LEDS
                     /\ length (actualColor s') = NUM_LEDS) as (s' & Hs' & HT' & HA').
  { destruct (exceeds_update_delay
                (sub32 (millis_leds inp) (lastLEDUpdate s2))) eqn:Hel.
    - apply selection_ok_spec in Hok2 as (_ & _ & Hidx).
      destruct (colors_Some _ Hidx) as (base & comp & Hbase & Hcomp & _).
      destruct (updateLEDs_eligible (millis_leds inp) s2 base comp)
        as [log ->]; try assumption; try congruence.
      eexists. split; [reflexivity |].
      cbn [targetColor actualColor set_lastLEDUpdate set_strip
             set_actualBrightness set_actualColor set_targetColor].
      unfold graduate_pixels. rewrite !length_imap. split; congruence.
    - rewrite (updateLEDs_not_eligible _ _ Hel).
      exists s2. split; [reflexivity |]. split; congruence. }
  assert (loop inp s = Some s') as Hloop.
  { unfold loop. rewrite Hs1. exact Hs'. }
  exists s'. split; [exact Hloop |].
  split; [exact (loop_selection _ _ _ Hok Hloop) |]. split; assumption.
Qed.

Lemma setup_defined beyond e :
  store_ok e = true ->
  exists s, setup beyond (boot e) = Some s
    /\ length (targetColor s) = NUM_LEDS
    /\ length (actualColor s) = NUM_LEDS.
Proof.
  intros He. unfold store_ok in He.
  apply andb_true_iff in He as [He _]. apply andb_true_iff in He as [_ H1].
  pose proof (stored_ok_spec e 1 4 ltac:(lia) H1 3 ltac:(lia)) as Hl.
  destruct (brightnessValues_Some _ Hl) as (v & Hv & _).
  destruct (loadState_spec beyond (boot e) v eq_refl Hv)
    as (s1 & Hs1 & _ & _ & _ & _ & _ & HA & HT).
  unfold setup. rewrite Hs1. eexists. split; [reflexivity |].
  cbn [targetColor actualColor set_strip]. rewrite HT, HA. split; reflexivity.
Qed.

Lemma reachable_invariant beyond e s :
  store_ok e = true -> reachable beyond e s ->
  selection_ok s = true
  /\ length (targetColor s) = NUM_LEDS
  /\ length (actualColor s) = NUM_LEDS.
Proof.
  intros He Hr. induction Hr as [s Hs | s inp s' _ IH Hloop].
  - destruct (setup_defined beyond e He) as (s0 & Hs0 & HT & HA).
    assert (s0 = s) as -> by congruence.
    split; [eapply setup_selection; eassumption | split; assumption].
  - destruct IH as (Hok & HT & HA).
    destruct (loop_defined inp s Hok HT HA) as (s0 & Hs0 & Hinv).
    assert (s0 = s') as -> by congruence. exact Hinv.
Qed.

(** C7, as the code has it. On every iteration of [loop] whose call of
    [updateLEDs] passes the frame-rate test (from a selection in range and
    pixel arrays of the declared size), the iteration is defined and the
    targets of all the positions are those of the mode and colour index
    current at its end: the base colour everywhere in the unified mode;
    the base colour at the front positions and the complementary colour at
    the rear positions in the complementary mode. *)
Theorem targets_recomputed_on_frames (inp : LoopInput) (s : State) :
  selection_ok s = true ->
  length (targetColor s) = NUM_LEDS ->
  length (actualColor s) = NUM_LEDS ->
  exceeds_update_delay (sub32 (millis_leds inp) (lastLEDUpdate s)) = true ->
  exists s' base comp,
    loop inp s = Some s'
    /\ index colors (currentColorIndex s') = Some base
    /\ index complementary_colors (currentColorIndex s') = Some comp
    /\ (currentMode s' = MODE_UNIFIED ->
        forall i, (i < NUM_LEDS)%nat -> targetColor s' !! i = Some base)
    /\ (currentMode s' = MODE_COMPLEMENTARY ->
        forall i role, complementary_LED_map !! i = Some role ->
          targetColor s' !! i
          = Some (if eqb role COMPLEMENTARY_FRONT then base else comp)).
Proof.
  intros Hok HT HA Hel.
  destruct (checkButtons_defined (buttons_input inp) s)
    as (s1 & Hs1 & HT1 & HA1 & HL1).
  pose proof (checkButtons_selection _ _ _ Hok Hs1) as Hok1.
  destruct (updatePhase_pixels (millis_phase inp) s1) as (HT2 & HA2 & HL2).
  assert (selection_ok (updatePhase (millis_phase inp) s1) = true) as Hok2.
  { rewrite (selection_ok_ext _ _ (updatePhase_selection _ _)). exact Hok1. }
  set (s2 := updatePhase (millis_phase inp) s1) in *.
  apply selection_ok_spec in Hok2 as (_ & _ & Hidx).
  destruct (updateLEDs_recomputes_targets (millis_leds inp) s2)
    as (s' & base & comp & Hs' & Hbase & Hcomp & Hu & Hc);
    try congruence.
  pose proof (updateLEDs_selection _ _ _ Hs') as Hsel.
  unfold selection in Hsel. injection Hsel as Hm _ Hi.
  exists s', base, comp. rewrite Hm, Hi.
  split; [unfold loop; rewrite Hs1; exact Hs' |]. auto.
Qed.

Lemma targets_recomputed_on_frames_witness :
  exists s',
    loop (mkLoopInput (mkButtonsInput 9 (mkArr2 false false) (mkArr2 9 9)) 9 9)
      (set_currentMode MODE_COMPLEMENTARY (boot ∅)) = Some s'
    /\ targetColor s' !! 0%nat = Some (mkRGB 255 255 255)
    /\ targetColor s' !! 3%nat = Some (mkRGB 0 255 255).
Proof.
  destruct (targets_recomputed_on_frames
              (mkLoopInput (mkButtonsInput 9 (mkArr2 false false) (mkArr2 9 9))
                 9 9)
              (set_currentMode MODE_COMPLEMENTARY (boot ∅))
              eq_refl eq_refl eq_refl eq_refl)
    as (s' & base & comp & Hs' & Hb & Hc & _ & Hi).
  assert (currentMode s' = MODE_COMPLEMENTARY
          /\ currentColorIndex s' = 0) as [Hm Hx].
  { revert Hs'. vm_compute. intros [= <-]. split; reflexivity. }
  rewrite Hx in Hb, Hc. injection Hb as <-. injection Hc as <-.
  exists s'. split; [exact Hs' |].
  split; [exact (Hi Hm 0%nat false eq_refl) |].
  exact (Hi Hm 3%nat true eq_refl).
Defined.

(** C7 as stated fails: the targets are recomputed inside of the
    frame-rate test. After [setup] over an erased EEPROM the mode is
    unified and the colour index is 0 (white), the targets are black, and
    an iteration of [loop] at 5 ms leaves them black. *)
Lemma targets_recomputed_counterexample :
  exists s s',
    setup 0 (boot ∅) = Some s
    /\ loop (mkLoopInput (mkButtonsInput 5 (mkArr2 false false) (mkArr2 5 5)) 5 5) s
       = Some s'
    /\ currentMode s' = MODE_UNIFIED
    /\ index colors (currentColorIndex s') = Some (mkRGB 255 255 255)
    /\ targetColor s' !! 0%nat = Some (mkRGB 0 0 0).
Proof.
  eexists _, _. split; [vm_compute; reflexivity |].
  split; [vm_compute; reflexivity |].
  repeat split; reflexivity.
Qed.

(** C2, as the code has it. Over an EEPROM whose cells 0, 1 and 2 each
    hold 255 or a value in the range of their field, [setup] is defined,
    and in every state reached after it [currentMode] is in 0..2,
    [inputBrightnessLevel] in 0..4 and [currentColorIndex] in 0..7, and
    the next iteration of [loop] is defined; [cycleColor], [cycleMode] and
    [incBrightness] keep a selection in range and go back to 0 exactly
    from 7, 2 and 4. *)
Theorem selection_in_range :
  (forall beyond e, store_ok e = true ->
     exists s, setup beyond (boot e) = Some s)
  /\ (forall beyond e s, store_ok e = true -> reachable beyond e s ->
        selection_ok s = true
        /\ forall inp, exists s', loop inp s = Some s')
  /\ (forall s, selection_ok s = true ->
        selection_ok (cycleColor s) = true
        /\ currentColorIndex (cycleColor s)
           = (if currentColorIndex s =? 7 then 0 else currentColorIndex s + 1)
        /\ selection_ok (cycleMode s) = true
        /\ currentMode (cycleMode s)
           = (if currentMode s =? 2 then 0 else currentMode s + 1)
        /\ exists s', incBrightness s = Some s'
             /\ selection_ok s' = true
             /\ inputBrightnessLevel s'
                = (if inputBrightnessLevel s =? 4 then 0
                   else inputBrightnessLevel s + 1)).
Proof.
  split; [| split].
  - intros beyond e He.
    destruct (setup_defined beyond e He) as (s & Hs & _). eauto.
  - intros beyond e s He Hr.
    destruct (reachable_invariant beyond e s He Hr) as (Hok & HT & HA).
    split; [exact Hok |]. intros inp.
    destruct (loop_defined inp s Hok HT HA) as (s' & Hs' & _). eauto.
  - intros s Hok. pose proof Hok as Hok'.
    apply selection_ok_spec in Hok' as (Hm & Hl & Hc).
    split; [apply cycleColor_selection; exact Hok |].
    split; [apply cycleColor_index; exact Hc |].
    split; [apply cycleMode_selection; exact Hok |].
    split; [apply cycleMode_mode; exact Hm |].
    destruct (incBrightness_level s Hl) as (s' & Hs' & Hl' & _).
    exists s'. split; [exact Hs' |]. split; [| exact Hl'].
    eapply incBrightness_selection; eassumption.
Qed.

Lemma selection_in_range_witness :
  (exists s, setup 0 (boot {[ 0 := 2; 1 := 4; 2 := 7 ]}) = Some s
             /\ selection_ok s = true)
  /\ selection_ok (cycleColor (boot ∅)) = true
  /\ currentColorIndex (cycleColor (boot ∅)) = 1.
Proof.
  assert (store_ok {[ 0 := 2; 1 := 4; 2 := 7 ]} = true) as He
    by (vm_compute; reflexivity).
  split.
  - destruct (proj1 selection_in_range 0 {[ 0 := 2; 1 := 4; 2 := 7 ]} He)
      as [s Hs].
    exists s. split; [exact Hs |].
    apply (proj1 (proj2 selection_in_range) 0 {[ 0 := 2; 1 := 4; 2 := 7 ]} s He).
    apply reachable_setup. exact Hs.
  - destruct (proj2 (proj2 selection_in_range) (boot ∅) eq_refl) as (H1 & H2 & _).
    exact (conj H1 H2).
Defined.

(** C2 as stated fails: a cell 0 that holds 200 is taken as the mode by
    [loadState], and the state after [setup] is out of range. *)
Lemma selection_in_range_counterexample :
  exists s, reachable 0 {[ 0 := 200 ]} s /\ currentMode s = 200
            /\ selection_ok s = false.
Proof.
  eexists. split; [apply reachable_setup; vm_compute; reflexivity |].
  split; reflexivity.
Qed.

(** * Further properties *)

(** ** More of the decoder *)

(** Button 1 released while button 0 is up, its press not handled:
    [cycleMode]. *)
Lemma btnStateChange_release_1_alone t d s s' :
  get2 0 (btnState s) = false ->
  get2 1 (btnPressHandled s) = false ->
  btnStateChange t 1 false d s = Some s' ->
  btnState s' = set2 1 false (btnState s)
  /\ lastBtnState s' = lastBtnState s
  /\ btnPressHandled s' = btnPressHandled s
  /\ calls s' = calls s ++ [CycleMode].
Proof.
  intros Hb Hh. unfold btnStateChange.
  cbn [btnState btnPressHandled set_btnState set_btnDownStart Nat.eqb andb].
  assert (get2 0 (set2 1 false (btnState s)) = false) as -> by exact Hb.
  rewrite Hh. cbn [negb andb].
  intros [= <-]. repeat split; reflexivity.
Qed.

(** Button 0 released while button 1 is held: no handler, whatever the
    flags. *)
Lemma btnStateChange_release_0_other_held t d s s' :
  get2 1 (btnState s) = true ->
  btnStateChange t 0 false d s = Some s' ->
  btnState s' = set2 0 false (btnState s)
  /\ lastBtnState s' = lastBtnState s
  /\ btnPressHandled s' = btnPressHandled s
  /\ calls s' = calls s.
Proof.
  intros Hb. unfold btnStateChange.
  cbn [btnState btnPressHandled set_btnState set_btnDownStart Nat.eqb andb].
  assert (get2 1 (set2 0 false (btnState s)) = true) as -> by exact Hb.
  cbn [negb andb].
  intros [= <-]. repeat split; reflexivity.
Qed.

(** X5. Button 1 held, button 0 pressed and released, button 1 released: the
    release of button 0 enters no handler, and the release of button 1
    enters [cycleMode]. *)
Theorem hold_B_tap_A (s : State) (seg1 seg2 seg3 seg4 : list ButtonsInput) :
  btnState s = mkArr2 false false ->
  lastBtnState s = mkArr2 false false ->
  stable_segment (mkArr2 false true) seg1 = true ->
  stable_segment (mkArr2 true true) seg2 = true ->
  stable_segment (mkArr2 false true) seg3 = true ->
  stable_segment (mkArr2 false false) seg4 = true ->
  exists s3 s4,
    run_buttons (seg1 ++ seg2 ++ seg3) s = Some s3
    /\ emitted s s3 = []
    /\ run_buttons seg4 s3 = Some s4
    /\ emitted s s4 = [CycleMode]
    /\ run_buttons (seg1 ++ seg2 ++ seg3 ++ seg4) s = Some s4.
Proof.
  intros Hb Hl H1 H2 H3 H4.
  destruct (segment_change 1 (or_intror eq_refl) _ _ seg1 s Hb Hl eq_refl H1)
    as (tm1 & d1 & t1 & s1 & Hc1 & Hr1).
  apply btnStateChange_press in Hc1 as (Hb1 & Hl1 & Hh1 & Hk1).
  cbn [btnState lastBtnState btnPressHandled calls set_lastBtnState
         set_lastBtnDebounceTime] in Hb1, Hl1, Hh1, Hk1.
  rewrite Hb in Hb1. cbn [set2 get2 at0 at1] in Hb1.
  destruct (segment_change 0 (or_introl eq_refl) _ _ seg2 s1 Hb1 Hl1 eq_refl H2)
    as (tm2 & d2 & t2 & s2 & Hc2 & Hr2).
  apply btnStateChange_press in Hc2 as (Hb2 & Hl2 & Hh2 & Hk2).
  cbn [btnState lastBtnState btnPressHandled calls set_lastBtnState
         set_lastBtnDebounceTime] in Hb2, Hl2, Hh2, Hk2.
  rewrite Hb1 in Hb2. cbn [set2 get2 at0 at1] in Hb2.
  destruct (segment_change 0 (or_introl eq_refl) _ _ seg3 s2 Hb2 Hl2 eq_refl H3)
    as (tm3 & d3 & t3 & s3 & Hc3 & Hr3).
  apply btnStateChange_release_0_other_held in Hc3 as (Hb3 & Hl3 & Hh3 & Hk3);
    [| cbn [btnState set_lastBtnState set_lastBtnDebounceTime];
       rewrite Hb2; reflexivity].
  cbn [btnState lastBtnState btnPressHandled calls set_lastBtnState
         set_lastBtnDebounceTime] in Hb3, Hl3, Hh3, Hk3.
  rewrite Hb2 in Hb3. cbn [set2 get2 at0 at1] in Hb3.
  destruct (segment_change 1 (or_intror eq_refl) _ _ seg4 s3 Hb3 Hl3 eq_refl H4)
    as (tm4 & d4 & t4 & s4 & Hc4 & Hr4).
  apply btnStateChange_release_1_alone in Hc4 as (_ & _ & _ & Hk4);
    [| cbn [btnState set_lastBtnState set_lastBtnDebounceTime];
       rewrite Hb3; reflexivity
     | cbn [btnPressHandled set_lastBtnState set_lastBtnDebounceTime];
       rewrite Hh3, Hh2, Hh1; reflexivity].
  cbn [calls set_lastBtnState set_lastBtnDebounceTime] in Hk4.
  assert (run_buttons (seg1 ++ seg2 ++ seg3) s = Some s3) as Hr123.
  { rewrite run_buttons_app, Hr1. cbn [mbind option_bind].
    rewrite run_buttons_app, Hr2. exact Hr3. }
  assert (calls s3 = calls s) as Hk by (rewrite Hk3, Hk2, Hk1; reflexivity).
  exists s3, s4.
  split; [exact Hr123 |].
  split; [apply emitted_app; rewrite Hk, app_nil_r; reflexivity |].
  split; [exact Hr4 |].
  split; [apply emitted_app; rewrite Hk4, Hk; reflexivity |].
  replace (seg1 ++ seg2 ++ seg3 ++ seg4) with ((seg1 ++ seg2 ++ seg3) ++ seg4)
    by (rewrite <- !app_assoc; reflexivity).
  rewrite run_buttons_app, Hr123. exact Hr4.
Qed.


(** ** Glitches *)

Section Glitch.

Variable i : nat.
Hypothesis Hi : (i = 0 \/ i = 1)%nat.

(** The first pass on which button [i] reads another value than on the
    pass before, the other button being quiet: the timer of button [i]
    restarts and nothing else changes but the last readings. *)
Lemma first_pass rd0 rd x s :
  lastBtnState s = rd0 ->
  get2 (1 - i) (btnState s) = get2 (1 - i) rd0 ->
  digitalRead x = rd ->
  rd = set2 i (negb (get2 i rd0)) rd0 ->
  checkButtons x s
  = Some (set_lastBtnState rd
            (set_lastBtnDebounceTime
               (set2 i (millis_check x) (lastBtnDebounceTime s)) s)).
Proof.
  intros Hl Hb Hx Hrd.
  assert (get2 i rd = negb (get2 i rd0)) as Hi_rd.
  { rewrite Hrd. apply get2_set2. }
  assert (get2 (1 - i) rd = get2 (1 - i) rd0) as Hother.
  { rewrite Hrd. apply get2_set2_other. exact Hi. }
  apply (checkButtons_only i Hi).
  - rewrite checkButton_first.
    + rewrite Hx, Hl, Hi_rd, <- Hrd. reflexivity.
    + rewrite Hx, Hl, Hi_rd. destruct (get2 i rd0); discriminate.
  - rewrite Hx, Hl. exact Hother.
  - rewrite Hx, Hb. exact Hother.
  - rewrite Hx. reflexivity.
  - rewrite Hx. cbn [btnState set_lastBtnState set_lastBtnDebounceTime].
    rewrite Hb. exact Hother.
Qed.

(** While the delay of button [i] is not over, the passes change nothing. *)
Lemma short_wait rd t0 rest :
  forall s,
    lastBtnState s = rd ->
    get2 (1 - i) (btnState s) = get2 (1 - i) rd ->
    get2 i (lastBtnDebounceTime s) = t0 ->
    forallb (reads rd) rest = true ->
    forallb (fun x => negb (DEBOUNCE_DELAY <? sub32 (millis_check x) t0)) rest
    = true ->
    run_buttons rest s = Some s.
Proof.
  induction rest as [| x rest IH]; intros s Hl Hb Ht Hall Hshort;
    [reflexivity |].
  cbn [forallb] in Hall, Hshort.
  apply andb_true_iff in Hall as [Hx Hall]. apply reads_spec in Hx.
  apply andb_true_iff in Hshort as [Hd Hshort]. apply negb_true_iff in Hd.
  assert (checkButtons x s = Some s) as Hpass.
  { apply (checkButtons_only i Hi); try congruence.
    apply checkButton_wait; [congruence | rewrite Ht; exact Hd]. }
  cbn [run_buttons]. rewrite Hpass. exact (IH s Hl Hb Ht Hall Hshort).
Qed.

(** X7. A change of the reading of button [i] that does not last longer than
    [DEBOUNCE_DELAY] is not registered: when the reading is back, the
    state is the one before the change, but for the timer of button [i]. *)
Theorem glitch_rejected rd0 rd seg first' rest' s :
  btnState s = rd0 -> lastBtnState s = rd0 ->
  rd = set2 i (negb (get2 i rd0)) rd0 ->
  short_segment rd seg = true ->
  steady_segment rd0 (first' :: rest') = true ->
  run_buttons (seg ++ first' :: rest') s
  = Some (set_lastBtnDebounceTime
            (set2 i (millis_check first') (lastBtnDebounceTime s)) s).
Proof.
  intros Hb Hl Hrd Hseg Hsteady.
  destruct seg as [| first rest]; [discriminate |].
  cbn [short_segment forallb] in Hseg.
  apply andb_true_iff in Hseg as [Hall Hshort].
  apply andb_true_iff in Hall as [Hx Hall]. apply reads_spec in Hx.
  cbn [steady_segment forallb] in Hsteady.
  apply andb_true_iff in Hsteady as [Hx' Hall']. apply reads_spec in Hx'.
  set (s1 := set_lastBtnState rd
               (set_lastBtnDebounceTime
                  (set2 i (millis_check first) (lastBtnDebounceTime s)) s)).
  assert (rd0 = set2 i (negb (get2 i rd)) rd) as Hrd0.
  { rewrite Hrd, get2_set2, negb_involutive, set2_set2, set2_get2. reflexivity. }
  assert (get2 (1 - i) rd = get2 (1 - i) rd0) as Hother.
  { rewrite Hrd. apply get2_set2_other. exact Hi. }
  assert (checkButtons first s = Some s1) as Hfirst.
  { apply (first_pass rd0 rd); congruence. }
  assert (run_buttons rest s1 = Some s1) as Hrest.
  { apply (short_wait rd (millis_check first)); try assumption.
    - reflexivity.
    - cbn [s1 btnState set_lastBtnState set_lastBtnDebounceTime].
      rewrite Hb. symmetry. exact Hother.
    - cbn [s1 lastBtnDebounceTime set_lastBtnState set_lastBtnDebounceTime].
      apply get2_set2. }
  set (s2 := set_lastBtnDebounceTime
               (set2 i (millis_check first') (lastBtnDebounceTime s)) s).
  assert (checkButtons first' s1 = Some s2) as Hback.
  { rewrite (first_pass rd rd0 first' s1); try assumption.
    - subst s1 s2.
      cbn [lastBtnDebounceTime set_lastBtnState set_lastBtnDebounceTime].
      rewrite set2_set2, <- Hl. destruct s; reflexivity.
    - reflexivity.
    - cbn [s1 btnState set_lastBtnState set_lastBtnDebounceTime].
      rewrite Hb. symmetry. exact Hother. }
  assert (run_buttons rest' s2 = Some s2) as Hquiet.
  { apply (run_buttons_quiet rest' s2 rd0); [exact Hl | exact Hb | exact Hall']. }
  change (first :: rest) with ([first] ++ rest).
  rewrite <- app_assoc. cbn [app run_buttons]. rewrite Hfirst.
  cbn [mbind option_bind]. rewrite run_buttons_app, Hrest.
  cbn [mbind option_bind run_buttons]. rewrite Hback. exact Hquiet.
Qed.

End Glitch.

Lemma glitch_rejected_witness :
  run_buttons
    ([mkButtonsInput 100 (mkArr2 true false) (mkArr2 100 100);
      mkButtonsInput 120 (mkArr2 true false) (mkArr2 120 120)]
     ++ [mkButtonsInput 130 (mkArr2 false false) (mkArr2 130 130);
         mkButtonsInput 400 (mkArr2 false false) (mkArr2 400 400)])
    (boot ∅)
  = Some (set_lastBtnDebounceTime (mkArr2 130 0) (boot ∅)).
Proof.
  exact (glitch_rejected 0 (or_introl eq_refl) (mkArr2 false false)
           (mkArr2 true false)
           [mkButtonsInput 100 (mkArr2 true false) (mkArr2 100 100);
            mkButtonsInput 120 (mkArr2 true false) (mkArr2 120 120)]
           (mkButtonsInput 130 (mkArr2 false false) (mkArr2 130 130))
           [mkButtonsInput 400 (mkArr2 false false) (mkArr2 400 400)]
           (boot ∅) eq_refl eq_refl eq_refl eq_refl eq_refl).
Defined.

(** ** Both buttons at once *)

(** Both buttons read the other value since the clock value [t0]: both
    changes are registered by the same pass, button 0 first. *)
Lemma segment_wait_both rd t0 rest :
  forall s,
    lastBtnState s = rd ->
    btnState s = mkArr2 (negb (at0 rd)) (negb (at1 rd)) ->
    lastBtnDebounceTime s = mkArr2 t0 t0 ->
    forallb (reads rd) rest = true ->
    existsb (fun x => DEBOUNCE_DELAY <? sub32 (millis_check x) t0) rest = true ->
    exists tm0 d0 tm1 d1 s2 s3,
      btnStateChange tm0 0 (at0 rd) d0 s = Some s2
      /\ btnStateChange tm1 1 (at1 rd) d1 s2 = Some s3
      /\ run_buttons rest s = Some s3.
Proof.
  induction rest as [| x rest IH]; intros s Hl Hb Ht Hall Hex; [discriminate |].
  cbn [forallb existsb] in Hall, Hex.
  apply andb_true_iff in Hall as [Hx Hall]. apply reads_spec in Hx.
  destruct (DEBOUNCE_DELAY <? sub32 (millis_check x) t0) eqn:Hd.
  - clear IH Hex.
    destruct (checkButton_fire x 0 s) as [d0 Hfire0].
    { rewrite Hx, Hl. reflexivity. }
    { rewrite Hx, Hb. cbn. destruct (at0 rd); discriminate. }
    { rewrite Ht. exact Hd. }
    destruct (btnStateChange_buttons (get2 0 (millis_change x)) 0
                (get2 0 (digitalRead x)) d0 s) as (s2 & Hs2 & Hb2 & Hl2 & Ht2).
    rewrite Hs2 in Hfire0. cbn [mbind option_bind] in Hfire0.
    rewrite Hl2, Hl, Hx, set2_get2, <- Hl, <- Hl2, set_lastBtnState_same
      in Hfire0.
    rewrite Hx in Hs2, Hb2.
    destruct (checkButton_fire x 1 s2) as [d1 Hfire1].
    { rewrite Hx, Hl2, Hl. reflexivity. }
    { rewrite Hx, Hb2, Hb. cbn. destruct (at1 rd); discriminate. }
    { rewrite Ht2, Ht. exact Hd. }
    destruct (btnStateChange_buttons (get2 1 (millis_change x)) 1
                (get2 1 (digitalRead x)) d1 s2) as (s3 & Hs3 & Hb3 & Hl3 & _).
    rewrite Hs3 in Hfire1. cbn [mbind option_bind] in Hfire1.
    rewrite Hl3, Hl2, Hl, Hx, set2_get2, <- Hl, <- Hl2, <- Hl3,
      set_lastBtnState_same in Hfire1.
    rewrite Hx in Hs3, Hb3.
    exists (get2 0 (millis_change x)), d0, (get2 1 (millis_change x)), d1, s2, s3.
    split; [exact Hs2 |]. split; [exact Hs3 |].
    cbn [run_buttons]. rewrite checkButtons_unfold, Hfire0.
    cbn [mbind option_bind]. rewrite Hfire1. cbn [mbind option_bind].
    apply (run_buttons_quiet rest s3 rd); [congruence | | exact Hall].
    rewrite Hb3, Hb2, Hb. destruct rd; reflexivity.
  - cbn [orb] in Hex.
    destruct (IH s Hl Hb Ht Hall Hex)
      as (tm0 & d0 & tm1 & d1 & s2 & s3 & H2 & H3 & Hrun).
    exists tm0, d0, tm1, d1, s2, s3. split; [exact H2 |]. split; [exact H3 |].
    cbn [run_buttons]. rewrite checkButtons_unfold.
    rewrite (checkButton_wait x 0 s);
      [| rewrite Hx, Hl; reflexivity | rewrite Ht; exact Hd].
    cbn [mbind option_bind].
    rewrite (checkButton_wait x 1 s);
      [| rewrite Hx, Hl; reflexivity | rewrite Ht; exact Hd].
    exact Hrun.
Qed.

Lemma segment_change_both rd0 rd seg s :
  btnState s = rd0 -> lastBtnState s = rd0 ->
  rd = mkArr2 (negb (at0 rd0)) (negb (at1 rd0)) ->
  stable_segment rd seg = true ->
  exists tm0 d0 tm1 d1 t0 s2 s3,
    btnStateChange tm0 0 (at0 rd) d0
      (set_lastBtnState rd (set_lastBtnDebounceTime (mkArr2 t0 t0) s))
    = Some s2
    /\ btnStateChange tm1 1 (at1 rd) d1 s2 = Some s3
    /\ run_buttons seg s = Some s3.
Proof.
  intros Hb Hl Hrd Hseg. destruct seg as [| first rest]; [discriminate |].
  cbn [stable_segment forallb] in Hseg.
  apply andb_true_iff in Hseg as [Hall Hex].
  apply andb_true_iff in Hall as [Hx Hall]. apply reads_spec in Hx.
  set (s1 := set_lastBtnState rd
               (set_lastBtnDebounceTime
                  (mkArr2 (millis_check first) (millis_check first)) s)).
  assert (checkButtons first s = Some s1) as Hfirst.
  { rewrite checkButtons_unfold, checkButton_first.
    2:{ rewrite Hx, Hl, Hrd. cbn. destruct (at0 rd0); discriminate. }
    cbn [mbind option_bind]. rewrite checkButton_first.
    2:{ cbn [lastBtnState set_lastBtnState set_lastBtnDebounceTime].
        rewrite Hx, Hl, Hrd. cbn. destruct (at1 rd0); discriminate. }
    subst s1.
    cbn [lastBtnState lastBtnDebounceTime set_lastBtnState
           set_lastBtnDebounceTime].
    rewrite Hx. destruct rd. reflexivity. }
  destruct (segment_wait_both rd (millis_check first) rest s1)
    as (tm0 & d0 & tm1 & d1 & s2 & s3 & H2 & H3 & Hrun); try assumption.
  - reflexivity.
  - cbn [s1 btnState set_lastBtnState set_lastBtnDebounceTime].
    rewrite Hb, Hrd. cbn. rewrite !negb_involutive. destruct rd0; reflexivity.
  - reflexivity.
  - exists tm0, d0, tm1, d1, (millis_check first), s2, s3.
    split; [exact H2 |]. split; [exact H3 |].
    cbn [run_buttons]. rewrite Hfirst. exact Hrun.
Qed.

(** X6. Both buttons pressed on the same pass and released on the same pass:
    button 0 is released while button 1 is still accepted as down, so that
    its release enters no handler, and the release of button 1 enters
    [cycleMode]. *)
Theorem both_buttons_together (s : State) (seg1 seg2 : list ButtonsInput) :
  btnState s = mkArr2 false false ->
  lastBtnState s = mkArr2 false false ->
  stable_segment (mkArr2 true true) seg1 = true ->
  stable_segment (mkArr2 false false) seg2 = true ->
  exists s',
    run_buttons (seg1 ++ seg2) s = Some s'
    /\ emitted s s' = [CycleMode].
Proof.
  intros Hb Hl H1 H2.
  destruct (segment_change_both _ _ seg1 s Hb Hl eq_refl H1)
    as (tm0 & d0 & tm1 & d1 & t0 & s2 & s3 & Hc2 & Hc3 & Hr1).
  cbn [at0 at1 negb] in Hc2, Hc3.
  apply btnStateChange_press in Hc2 as (Hb2 & Hl2 & Hh2 & Hk2).
  cbn [btnState lastBtnState btnPressHandled calls set_lastBtnState
         set_lastBtnDebounceTime] in Hb2, Hl2, Hh2, Hk2.
  rewrite Hb in Hb2. cbn [set2 get2 at0 at1] in Hb2.
  apply btnStateChange_press in Hc3 as (Hb3 & Hl3 & Hh3 & Hk3).
  rewrite Hb2 in Hb3. cbn [set2 get2 at0 at1] in Hb3. rewrite Hl2 in Hl3.
  destruct (segment_change_both _ _ seg2 s3 Hb3 Hl3 eq_refl H2)
    as (tm4 & d4 & tm5 & d5 & t4 & s4 & s5 & Hc4 & Hc5 & Hr2).
  cbn [at0 at1 negb] in Hc4, Hc5.
  apply btnStateChange_release_0_other_held in Hc4 as (Hb4 & Hl4 & Hh4 & Hk4);
    [| cbn [btnState set_lastBtnState set_lastBtnDebounceTime];
       rewrite Hb3; reflexivity].
  cbn [btnState lastBtnState btnPressHandled calls set_lastBtnState
         set_lastBtnDebounceTime] in Hb4, Hl4, Hh4, Hk4.
  rewrite Hb3 in Hb4. cbn [set2 get2 at0 at1] in Hb4.
  apply btnStateChange_release_1_alone in Hc5 as (_ & _ & _ & Hk5);
    [| rewrite Hb4; reflexivity
     | rewrite Hh4, Hh3; reflexivity].
  exists s5. split.
  - rewrite run_buttons_app, Hr1. exact Hr2.
  - apply emitted_app. rewrite Hk5, Hk4, Hk3, Hk2. reflexivity.
Qed.

(** ** Handlers on any state *)

(** X8. Whatever the values before (also out of range), a handler leaves its
    field in range, and [incBrightness] reads inside of its table. *)
Theorem handlers_land_in_range (s : State) :
  0 <= currentColorIndex (cycleColor s) <= 7
  /\ 0 <= currentMode (cycleMode s) <= 2
  /\ exists s', incBrightness s = Some s'
       /\ 0 <= inputBrightnessLevel s' <= 4
       /\ index brightnessValues (inputBrightnessLevel s')
          = Some (targetBrightness s').
Proof.
  split; [| split].
  - cbn [cycleColor currentColorIndex saveState set_eeprom set_currentColorIndex
           set_calls]. unfold NUM_COLORS, to_byte.
    destruct (Z.geb_spec ((currentColorIndex s + 1) mod 256) 8); [lia |].
    pose proof (Z.mod_pos_bound (currentColorIndex s + 1) 256). lia.
  - cbn [cycleMode currentMode saveState set_eeprom set_currentMode set_calls].
    unfold MODECOUNT, to_byte.
    destruct (Z.geb_spec ((currentMode s + 1) mod 256) 3); [lia |].
    pose proof (Z.mod_pos_bound (currentMode s + 1) 256). lia.
  - destruct (incBrightness_Some s) as (s' & Hs' & Hl & Ht & _).
    exists s'. split; [exact Hs' |]. split; [| exact Ht].
    rewrite Hl. unfold to_byte.
    destruct (Z.gtb_spec ((inputBrightnessLevel s + 1) mod 256) 4); [lia |].
    pose proof (Z.mod_pos_bound (inputBrightnessLevel s + 1) 256). lia.
Qed.

(** ** Properties kept by the buttons *)

Section ButtonsInvariant.

Variable P : State -> Prop.
Hypothesis P_btnState : forall v s, P s -> P (set_btnState v s).
Hypothesis P_lastBtnState : forall v s, P s -> P (set_lastBtnState v s).
Hypothesis P_btnPressHandled : forall v s, P s -> P (set_btnPressHandled v s).
Hypothesis P_lastBtnDebounceTime :
  forall v s, P s -> P (set_lastBtnDebounceTime v s).
Hypothesis P_btnDownStart : forall v s, P s -> P (set_btnDownStart v s).
Hypothesis P_cycleColor : forall s, P s -> P (cycleColor s).
Hypothesis P_cycleMode : forall s, P s -> P (cycleMode s).
Hypothesis P_incBrightness :
  forall s s', P s -> incBrightness s = Some s' -> P s'.

Lemma btnStateChange_keeps t i newState d s s' :
  P s -> btnStateChange t i newState d s = Some s' -> P s'.
Proof.
  intros HP. unfold btnStateChange. destruct newState.
  - intros [= <-]. auto.
  - destruct (_ && _); [intros [= <-]; auto |].
    destruct (_ && _); [intros [= <-]; auto |].
    destruct (_ && _); [| intros [= <-]; auto].
    apply P_incBrightness. auto.
Qed.

Lemma checkButton_keeps inp i s s' :
  P s -> checkButton inp i s = Some s' -> P s'.
Proof.
  intros HP. unfold checkButton.
  set (s1 := if negb (eqb _ _) then _ else s).
  assert (P s1) as HP1 by (subst s1; destruct (negb _); auto).
  clearbody s1.
  destruct (DEBOUNCE_DELAY <? _);
    [destruct (negb (eqb _ (get2 i (btnState s1)))) |];
    try (intros [= <-]; auto).
  destruct (btnStateChange _ _ _ _ _) as [s2 |] eqn:H2; [| discriminate].
  intros [= <-]. apply P_lastBtnState.
  eapply btnStateChange_keeps; eassumption.
Qed.

Lemma checkButtons_keeps inp s s' :
  P s -> checkButtons inp s = Some s' -> P s'.
Proof.
  intros HP. unfold checkButtons.
  apply (for_upto_inv P); [exact HP |].
  intros k x x' _. apply checkButton_keeps.
Qed.

End ButtonsInvariant.

(** ** Forms of the results *)

Lemma incBrightness_form s s' :
  incBrightness s = Some s' ->
  exists n v,
    s' = saveState
           (set_targetBrightness v
              (set_inputBrightnessLevel n
                 (set_calls (calls s ++ [IncreaseBrightness]) s)))
    /\ 0 <= n <= 4 /\ index brightnessValues n = Some v.
Proof.
  intros H. destruct (incBrightness_Some s) as (s1 & Hs1 & Hl & Ht & _).
  assert (s1 = s') as -> by congruence. clear Hs1.
  unfold incBrightness in H.
  cbn [inputBrightnessLevel set_calls set_inputBrightnessLevel] in H.
  set (n := if to_byte (inputBrightnessLevel s + 1) >? 4 then 0
            else to_byte (inputBrightnessLevel s + 1)) in *.
  assert (0 <= n <= 4) as Hn.
  { subst n. unfold to_byte.
    destruct (Z.gtb_spec ((inputBrightnessLevel s + 1) mod 256) 4); [lia |].
    pose proof (Z.mod_pos_bound (inputBrightnessLevel s + 1) 256). lia. }
  destruct (index brightnessValues n) as [v |] eqn:Hv; [| discriminate].
  cbn [mbind option_bind] in H. injection H as <-.
  exists n, v. auto.
Qed.

Lemma loadState_form beyond s s' :
  length (actualColor s) = NUM_LEDS ->
  loadState beyond s = Some s' ->
  s' = set_actualColor (replicate NUM_LEDS black)
         (set_currentColorIndex
            (if EEPROM_read (eeprom s) 2 =? 255 then currentColorIndex s
             else EEPROM_read (eeprom s) 2)
            (set_actualBrightness 0
               (set_targetBrightness
                  (brightnessValues_at beyond
                     (if EEPROM_read (eeprom s) 1 =? 255
                      then inputBrightnessLevel s
                      else EEPROM_read (eeprom s) 1))
                  (set_inputBrightnessLevel
                     (if EEPROM_read (eeprom s) 1 =? 255
                      then inputBrightnessLevel s
                      else EEPROM_read (eeprom s) 1)
                     (set_currentMode
                        (if EEPROM_read (eeprom s) 0 =? 255
                         then currentMode s
                         else EEPROM_read (eeprom s) 0) s))))).
Proof.
  intros Hlen. unfold loadState.
  cbn [eeprom set_currentMode set_inputBrightnessLevel inputBrightnessLevel
         set_targetBrightness set_actualBrightness set_currentColorIndex].
  rewrite blacken_loop by exact Hlen.
  intros [= <-]. reflexivity.
Qed.

Lemma setup_form beyond e s :
  setup beyond (boot e) = Some s ->
  s = set_strip [Begin]
        (set_actualColor (replicate NUM_LEDS black)
           (set_currentColorIndex
              (if EEPROM_read e 2 =? 255 then 0 else EEPROM_read e 2)
              (set_actualBrightness 0
                 (set_targetBrightness
                    (brightnessValues_at beyond
                       (if EEPROM_read e 1 =? 255 then 3 else EEPROM_read e 1))
                    (set_inputBrightnessLevel
                       (if EEPROM_read e 1 =? 255 then 3
                        else EEPROM_read e 1)
                       (set_currentMode
                          (if EEPROM_read e 0 =? 255 then 0
                           else EEPROM_read e 0) (boot e))))))).
Proof.
  unfold setup.
  destruct (loadState beyond (boot e)) as [s1 |] eqn:H1; [| discriminate].
  cbn [mbind option_bind]. intros [= <-].
  apply loadState_form in H1 as ->; reflexivity.
Qed.

Lemma brightnessValues_range n v :
  index brightnessValues n = Some v -> 0 <= n <= 4 /\ 50 <= v <= 220.
Proof.
  unfold index. destruct (Z.ltb_spec n 0) as [Hneg | Hpos]; [discriminate |].
  intros Hv. assert (Z.to_nat n < 5)%nat as Hn.
  { apply lookup_lt_Some in Hv. exact Hv. }
  split; [lia |].
  destruct (Z.to_nat n) as [| [| [| [| [| k]]]]]; try lia;
    injection Hv as <-; vm_compute; split; discriminate.
Qed.

(** What [updateLEDs] does to the brightness. *)
Lemma updateLEDs_brightness now s s' :
  updateLEDs now s = Some s' ->
  inputBrightnessLevel s' = inputBrightnessLevel s
  /\ targetBrightness s' = targetBrightness s
  /\ (actualBrightness s' = actualBrightness s
      \/ actualBrightness s'
         = graduate_level (actualBrightness s) (targetBrightness s)).
Proof.
  unfold updateLEDs. destruct (exceeds_update_delay _).
  - unfold updateLEDs_frame.
    destruct (updateLEDs_targets s) as [s1 |] eqn:H1; [| discriminate].
    apply updateLEDs_targets_shape in H1 as [T ->]. cbn [mbind option_bind].
    destruct (for_upto NUM_LEDS graduateLED (false, set_targetColor T s))
      as [[c2 s2] |] eqn:H2; [| discriminate].
    apply graduateLED_shape in H2 as (A & log & ->). cbn [mbind option_bind].
    match goal with |- context [graduateBrightness (?c, ?x)] =>
      destruct (graduateBrightness_spec c x) as (c' & log' & ->)
    end.
    intros [= <-]. destruct c'; cbn; auto.
  - intros [= <-]. auto.
Qed.

(** ** What a tap does to the selection *)

Lemma btnStateChange_press_selection t i d s s' :
  btnStateChange t i true d s = Some s' ->
  selection s' = selection s /\ eeprom s' = eeprom s.
Proof. unfold btnStateChange. intros [= <-]. split; reflexivity. Qed.

Lemma btnStateChange_release_0_alone_form t d s s' :
  get2 1 (btnState s) = false ->
  get2 0 (btnPressHandled s) = false ->
  btnStateChange t 0 false d s = Some s' ->
  s' = cycleColor
         (set_btnDownStart (set2 0 0 (btnDownStart s))
            (set_btnState (set2 0 false (btnState s)) s)).
Proof.
  intros Hb Hh. unfold btnStateChange.
  cbn [btnState btnPressHandled set_btnState set_btnDownStart Nat.eqb andb].
  assert (get2 1 (set2 0 false (btnState s)) = false) as -> by exact Hb.
  rewrite Hh. cbn [negb andb]. intros [= <-]. reflexivity.
Qed.

Lemma btnStateChange_release_1_alone_form t d s s' :
  get2 0 (btnState s) = false ->
  get2 1 (btnPressHandled s) = false ->
  btnStateChange t 1 false d s = Some s' ->
  s' = cycleMode
         (set_btnDownStart (set2 1 0 (btnDownStart s))
            (set_btnState (set2 1 false (btnState s)) s)).
Proof.
  intros Hb Hh. unfold btnStateChange.
  cbn [btnState btnPressHandled set_btnState set_btnDownStart Nat.eqb andb].
  assert (get2 0 (set2 1 false (btnState s)) = false) as -> by exact Hb.
  rewrite Hh. cbn [negb andb]. intros [= <-]. reflexivity.
Qed.

(** After [saveState] with a selection in range the three cells hold the
    selection. *)
Lemma saveState_cells s :
  selection_ok s = true ->
  (EEPROM_read (eeprom (saveState s)) 0, EEPROM_read (eeprom (saveState s)) 1,
   EEPROM_read (eeprom (saveState s)) 2) = selection (saveState s).
Proof.
  intros Hok. apply selection_ok_spec in Hok as (Hm & Hl & Hc).
  destruct (saveState_read s) as (-> & -> & ->).
  rewrite !to_byte_id by lia. reflexivity.
Qed.

Lemma cycleColor_effect s :
  selection_ok s = true ->
  selection (cycleColor s)
  = (currentMode s, inputBrightnessLevel s, (currentColorIndex s + 1) mod 8)
  /\ (EEPROM_read (eeprom (cycleColor s)) 0,
      EEPROM_read (eeprom (cycleColor s)) 1,
      EEPROM_read (eeprom (cycleColor s)) 2) = selection (cycleColor s).
Proof.
  intros Hok. split.
  - apply selection_ok_spec in Hok as (Hm & Hl & Hc). unfold selection.
    destruct (cycleColor_others s) as [-> ->].
    rewrite cycleColor_index by exact Hc. f_equal.
    destruct (Z.eqb_spec (currentColorIndex s) 7); Z.div_mod_to_equations; lia.
  - pose proof (cycleColor_selection s Hok) as Hok'.
    unfold cycleColor in *. cbn zeta in *. apply saveState_cells. exact Hok'.
Qed.

Lemma cycleMode_effect s :
  selection_ok s = true ->
  selection (cycleMode s)
  = ((currentMode s + 1) mod 3, inputBrightnessLevel s, currentColorIndex s)
  /\ (EEPROM_read (eeprom (cycleMode s)) 0,
      EEPROM_read (eeprom (cycleMode s)) 1,
      EEPROM_read (eeprom (cycleMode s)) 2) = selection (cycleMode s).
Proof.
  intros Hok. split.
  - apply selection_ok_spec in Hok as (Hm & Hl & Hc). unfold selection.
    destruct (cycleMode_others s) as [-> ->].
    rewrite cycleMode_mode by exact Hm. f_equal. f_equal.
    destruct (Z.eqb_spec (currentMode s) 2); Z.div_mod_to_equations; lia.
  - pose proof (cycleMode_selection s Hok) as Hok'.
    unfold cycleMode in *. cbn zeta in *. apply saveState_cells. exact Hok'.
Qed.

(** X1. A tap of button 0 alone, from a selection in range: [cycleColor] is
    entered once, the colour index goes to the next of the 8 colours (to 0
    after 7), the mode and the level stay, and the three cells of the
    EEPROM hold the new selection. *)
Theorem tap_A_next_color (s : State) (seg1 seg2 : list ButtonsInput) :
  selection_ok s = true ->
  btnState s = mkArr2 false false ->
  lastBtnState s = mkArr2 false false ->
  stable_segment (mkArr2 true false) seg1 = true ->
  stable_segment (mkArr2 false false) seg2 = true ->
  exists s',
    run_buttons (seg1 ++ seg2) s = Some s'
    /\ emitted s s' = [CycleColor]
    /\ selection s'
       = (currentMode s, inputBrightnessLevel s,
          (currentColorIndex s + 1) mod 8)
    /\ (EEPROM_read (eeprom s') 0, EEPROM_read (eeprom s') 1,
        EEPROM_read (eeprom s') 2) = selection s'.
Proof.
  intros Hok Hb Hl H1 H2.
  destruct (segment_change 0 (or_introl eq_refl) _ _ seg1 s Hb Hl eq_refl H1)
    as (tm1 & d1 & t1 & s1 & Hc1 & Hr1).
  pose proof (btnStateChange_press_selection _ _ _ _ _ Hc1) as [Hsel1 _].
  apply btnStateChange_press in Hc1 as (Hb1 & Hl1 & Hh1 & Hk1).
  cbn [btnState lastBtnState btnPressHandled calls set_lastBtnState
         set_lastBtnDebounceTime] in Hb1, Hl1, Hh1, Hk1.
  rewrite Hb in Hb1. cbn [set2 get2 at0 at1] in Hb1.
  change (selection s1 = selection s) in Hsel1.
  destruct (segment_change 0 (or_introl eq_refl) _ _ seg2 s1 Hb1 Hl1 eq_refl H2)
    as (tm2 & d2 & t2 & s2 & Hc2 & Hr2).
  pose proof Hc2 as Hk2.
  apply btnStateChange_release_0_alone in Hk2 as (_ & _ & Hk2);
    [| cbn [btnState set_lastBtnState set_lastBtnDebounceTime];
       rewrite Hb1; reflexivity
     | cbn [btnPressHandled set_lastBtnState set_lastBtnDebounceTime];
       rewrite Hh1; reflexivity].
  cbn [calls set_lastBtnState set_lastBtnDebounceTime] in Hk2.
  apply btnStateChange_release_0_alone_form in Hc2;
    [| cbn [btnState set_lastBtnState set_lastBtnDebounceTime];
       rewrite Hb1; reflexivity
     | cbn [btnPressHandled set_lastBtnState set_lastBtnDebounceTime];
       rewrite Hh1; reflexivity].
  match type of Hc2 with _ = cycleColor ?x =>
    assert (selection x = selection s) as Hx by exact Hsel1;
    destruct (cycleColor_effect x) as [E1 E2];
      [rewrite (selection_ok_ext _ _ Hx); exact Hok |]
  end.
  rewrite <- Hc2 in E1, E2. unfold selection in Hsel1.
  injection Hsel1 as Xm Xl Xc.
  cbn [currentMode inputBrightnessLevel currentColorIndex set_btnDownStart
         set_btnState set_lastBtnState set_lastBtnDebounceTime] in E1.
  rewrite Xm, Xl, Xc in E1.
  exists s2. split; [rewrite run_buttons_app, Hr1; exact Hr2 |].
  split; [apply emitted_app; rewrite Hk2, Hk1; reflexivity |].
  split; [exact E1 | exact E2].
Qed.

(** X2. A tap of button 1 alone, from a selection in range: [cycleMode] is
    entered once, the mode goes to the next of the 3 modes (to 0 after 2),
    the level and the colour index stay, and the three cells of the EEPROM
    hold the new selection. *)
Theorem tap_B_next_mode (s : State) (seg1 seg2 : list ButtonsInput) :
  selection_ok s = true ->
  btnState s = mkArr2 false false ->
  lastBtnState s = mkArr2 false false ->
  stable_segment (mkArr2 false true) seg1 = true ->
  stable_segment (mkArr2 false false) seg2 = true ->
  exists s',
    run_buttons (seg1 ++ seg2) s = Some s'
    /\ emitted s s' = [CycleMode]
    /\ selection s'
       = ((currentMode s + 1) mod 3, inputBrightnessLevel s,
          currentColorIndex s)
    /\ (EEPROM_read (eeprom s') 0, EEPROM_read (eeprom s') 1,
        EEPROM_read (eeprom s') 2) = selection s'.
Proof.
  intros Hok Hb Hl H1 H2.
  destruct (segment_change 1 (or_intror eq_refl) _ _ seg1 s Hb Hl eq_refl H1)
    as (tm1 & d1 & t1 & s1 & Hc1 & Hr1).
  pose proof (btnStateChange_press_selection _ _ _ _ _ Hc1) as [Hsel1 _].
  apply btnStateChange_press in Hc1 as (Hb1 & Hl1 & Hh1 & Hk1).
  cbn [btnState lastBtnState btnPressHandled calls set_lastBtnState
         set_lastBtnDebounceTime] in Hb1, Hl1, Hh1, Hk1.
  rewrite Hb in Hb1. cbn [set2 get2 at0 at1] in Hb1.
  change (selection s1 = selection s) in Hsel1.
  destruct (segment_change 1 (or_intror eq_refl) _ _ seg2 s1 Hb1 Hl1 eq_refl H2)
    as (tm2 & d2 & t2 & s2 & Hc2 & Hr2).
  pose proof Hc2 as Hk2.
  apply btnStateChange_release_1_alone in Hk2 as (_ & _ & _ & Hk2);
    [| cbn [btnState set_lastBtnState set_lastBtnDebounceTime];
       rewrite Hb1; reflexivity
     | cbn [btnPressHandled set_lastBtnState set_lastBtnDebounceTime];
       rewrite Hh1; reflexivity].
  cbn [calls set_lastBtnState set_lastBtnDebounceTime] in Hk2.
  apply btnStateChange_release_1_alone_form in Hc2;
    [| cbn [btnState set_lastBtnState set_lastBtnDebounceTime];
       rewrite Hb1; reflexivity
     | cbn [btnPressHandled set_lastBtnState set_lastBtnDebounceTime];
       rewrite Hh1; reflexivity].
  match type of Hc2 with _ = cycleMode ?x =>
    assert (selection x = selection s) as Hx by exact Hsel1;
    destruct (cycleMode_effect x) as [E1 E2];
      [rewrite (selection_ok_ext _ _ Hx); exact Hok |]
  end.
  rewrite <- Hc2 in E1, E2. unfold selection in Hsel1.
  injection Hsel1 as Xm Xl Xc.
  cbn [currentMode inputBrightnessLevel currentColorIndex set_btnDownStart
         set_btnState set_lastBtnState set_lastBtnDebounceTime] in E1.
  rewrite Xm, Xl, Xc in E1.
  exists s2. split; [rewrite run_buttons_app, Hr1; exact Hr2 |].
  split; [apply emitted_app; rewrite Hk2, Hk1; reflexivity |].
  split; [exact E1 | exact E2].
Qed.

Lemma incBrightness_effect s :
  selection_ok s = true ->
  exists s',
    incBrightness s = Some s'
    /\ selection s'
       = (currentMode s, (inputBrightnessLevel s + 1) mod 5, currentColorIndex s)
    /\ index brightnessValues (inputBrightnessLevel s')
       = Some (targetBrightness s')
    /\ (EEPROM_read (eeprom s') 0, EEPROM_read (eeprom s') 1,
        EEPROM_read (eeprom s') 2) = selection s'.
Proof.
  intros Hok. pose proof Hok as Hr.
  apply selection_ok_spec in Hr as (Hm & Hl & Hc).
  destruct (incBrightness_Some s) as (s' & Hs' & _ & Ht & _).
  destruct (incBrightness_level s Hl) as (s1 & Hs1 & Hl1 & Hm1 & Hc1).
  assert (s1 = s') as -> by congruence.
  pose proof (incBrightness_selection s s' Hok Hs') as Hok'.
  exists s'. split; [exact Hs' |]. split; [| split; [exact Ht |]].
  - unfold selection. rewrite Hm1, Hl1, Hc1. f_equal. f_equal.
    destruct (Z.eqb_spec (inputBrightnessLevel s) 4);
      Z.div_mod_to_equations; lia.
  - apply incBrightness_form in Hs' as (n & v & -> & _).
    apply saveState_cells. exact Hok'.
Qed.

Lemma btnStateChange_release_1_held_form t d s :
  get2 0 (btnState s) = true ->
  get2 1 (btnPressHandled s) = false ->
  btnStateChange t 1 false d s
  = incBrightness
      (set_btnPressHandled (set2 0 true (btnPressHandled s))
         (set_btnDownStart (set2 1 0 (btnDownStart s))
            (set_btnState (set2 1 false (btnState s)) s))).
Proof.
  intros Hb Hh. unfold btnStateChange.
  cbn [btnState btnPressHandled set_btnState set_btnDownStart Nat.eqb andb].
  assert (get2 0 (set2 1 false (btnState s)) = true) as -> by exact Hb.
  rewrite Hh. reflexivity.
Qed.

Lemma btnStateChange_release_0_handled_form t d s s' :
  get2 0 (btnPressHandled s) = true ->
  btnStateChange t 0 false d s = Some s' ->
  s' = set_btnDownStart (set2 0 0 (btnDownStart s))
         (set_btnState (set2 0 false (btnState s)) s).
Proof.
  intros Hh. unfold btnStateChange.
  cbn [btnState btnPressHandled set_btnState set_btnDownStart Nat.eqb andb].
  rewrite Hh. cbn [negb andb]. rewrite andb_false_r.
  intros [= <-]. reflexivity.
Qed.

(** X3. Button 0 held, button 1 pressed and released, button 0 released, in
    four segments (button 0 down; both down; button 0 down; both up)
    during each of which the readings of both pins stay as they are until
    a pass comes more than [DEBOUNCE_DELAY] after the first one of the
    segment, from a selection in range: the brightness level goes to the
    next of the 5 levels (to 0 after 4), the target brightness is the
    entry of the new level, the mode and the colour index stay, and the
    three cells of the EEPROM hold the new selection. *)
Theorem hold_A_tap_B_next_level (s : State)
    (seg1 seg2 seg3 seg4 : list ButtonsInput) :
  selection_ok s = true ->
  btnState s = mkArr2 false false ->
  lastBtnState s = mkArr2 false false ->
  stable_segment (mkArr2 true false) seg1 = true ->
  stable_segment (mkArr2 true true) seg2 = true ->
  stable_segment (mkArr2 true false) seg3 = true ->
  stable_segment (mkArr2 false false) seg4 = true ->
  exists s',
    run_buttons (seg1 ++ seg2 ++ seg3 ++ seg4) s = Some s'
    /\ selection s'
       = (currentMode s, (inputBrightnessLevel s + 1) mod 5, currentColorIndex s)
    /\ index brightnessValues (inputBrightnessLevel s')
       = Some (targetBrightness s')
    /\ (EEPROM_read (eeprom s') 0, EEPROM_read (eeprom s') 1,
        EEPROM_read (eeprom s') 2) = selection s'.
Proof.
  intros Hok Hb Hl H1 H2 H3 H4.
  destruct (segment_change 0 (or_introl eq_refl) _ _ seg1 s Hb Hl eq_refl H1)
    as (tm1 & d1 & t1 & s1 & Hc1 & Hr1).
  pose proof (btnStateChange_press_selection _ _ _ _ _ Hc1) as [Hsel1 _].
  apply btnStateChange_press in Hc1 as (Hb1 & Hl1 & Hh1 & _).
  cbn [btnState lastBtnState btnPressHandled set_lastBtnState
         set_lastBtnDebounceTime] in Hb1, Hl1, Hh1.
  rewrite Hb in Hb1. cbn [set2 get2 at0 at1] in Hb1.
  change (selection s1 = selection s) in Hsel1.
  destruct (segment_change 1 (or_intror eq_refl) _ _ seg2 s1 Hb1 Hl1 eq_refl H2)
    as (tm2 & d2 & t2 & s2 & Hc2 & Hr2).
  pose proof (btnStateChange_press_selection _ _ _ _ _ Hc2) as [Hsel2 _].
  apply btnStateChange_press in Hc2 as (Hb2 & Hl2 & Hh2 & _).
  cbn [btnState lastBtnState btnPressHandled set_lastBtnState
         set_lastBtnDebounceTime] in Hb2, Hl2, Hh2.
  rewrite Hb1 in Hb2. cbn [set2 get2 at0 at1] in Hb2.
  change (selection s2 = selection s1) in Hsel2.
  destruct (segment_change 1 (or_intror eq_refl) _ _ seg3 s2 Hb2 Hl2 eq_refl H3)
    as (tm3 & d3 & t3 & s3 & Hc3 & Hr3).
  pose proof Hc3 as Hf3.
  apply btnStateChange_release_1_held in Hc3 as (Hb3 & Hl3 & Hh3 & _);
    [| cbn [btnState set_lastBtnState set_lastBtnDebounceTime];
       rewrite Hb2; reflexivity
     | cbn [btnPressHandled set_lastBtnState set_lastBtnDebounceTime];
       rewrite Hh2; reflexivity].
  cbn [btnState lastBtnState btnPressHandled set_lastBtnState
         set_lastBtnDebounceTime] in Hb3, Hl3, Hh3.
  rewrite Hb2 in Hb3. cbn [set2 get2 at0 at1] in Hb3.
  rewrite btnStateChange_release_1_held_form in Hf3;
    [| cbn [btnState set_lastBtnState set_lastBtnDebounceTime];
       rewrite Hb2; reflexivity
     | cbn [btnPressHandled set_lastBtnState set_lastBtnDebounceTime];
       rewrite Hh2; reflexivity].
  match type of Hf3 with incBrightness ?x = _ =>
    assert (selection x = selection s) as Hx
      by (transitivity (selection s2); [reflexivity | congruence]);
    destruct (incBrightness_effect x) as (s3' & Hs3' & E1 & E2 & E3);
      [rewrite (selection_ok_ext _ _ Hx); exact Hok |]
  end.
  cbn [currentMode inputBrightnessLevel currentColorIndex set_btnPressHandled
         set_btnDownStart set_btnState set_lastBtnState
         set_lastBtnDebounceTime] in E1.
  unfold selection in Hsel1, Hsel2.
  injection Hsel1 as Xm Xl Xc. injection Hsel2 as Ym Yl Yc.
  rewrite Ym, Yl, Yc, Xm, Xl, Xc in E1.
  assert (s3' = s3) as -> by congruence.
  destruct (segment_change 0 (or_introl eq_refl) _ _ seg4 s3 Hb3 Hl3 eq_refl H4)
    as (tm4 & d4 & t4 & s4 & Hc4 & Hr4).
  apply btnStateChange_release_0_handled_form in Hc4;
    [| cbn [btnPressHandled set_lastBtnState set_lastBtnDebounceTime];
       rewrite Hh3; reflexivity].
  exists s4. split.
  { rewrite run_buttons_app, Hr1. cbn [mbind option_bind].
    rewrite run_buttons_app, Hr2. cbn [mbind option_bind].
    rewrite run_buttons_app, Hr3. exact Hr4. }
  rewrite Hc4. split; [exact E1 |]. split; [exact E2 | exact E3].
Qed.

(** ** Invariants of the run *)

Lemma reachable_inv (Q : State -> Prop) beyond e :
  (forall s, setup beyond (boot e) = Some s -> Q s) ->
  (forall inp s s', Q s -> loop inp s = Some s' -> Q s') ->
  forall s, reachable beyond e s -> Q s.
Proof.
  intros Hsetup Hloop s Hr.
  induction Hr as [s Hs | s inp s' _ IH Hl]; [auto | eauto].
Qed.

(** An iteration of [loop], step by step. *)
Lemma loop_steps inp s s' :
  loop inp s = Some s' ->
  exists s1,
    checkButtons (buttons_input inp) s = Some s1
    /\ updateLEDs (millis_leds inp) (updatePhase (millis_phase inp) s1) = Some s'.
Proof.
  unfold loop. destruct (checkButtons _ s) as [s1 |]; [| discriminate].
  cbn [mbind option_bind]. eauto.
Qed.

Lemma reachable_run_loop beyond e inps : forall s s',
  reachable beyond e s -> run_loop inps s = Some s' -> reachable beyond e s'.
Proof.
  induction inps as [| inp inps IH]; intros s s' Hr; cbn [run_loop].
  - intros [= <-]. exact Hr.
  - destruct (loop inp s) as [s1 |] eqn:H1; [| discriminate].
    cbn [mbind option_bind]. apply IH.
    eapply reachable_loop; eassumption.
Qed.

Lemma after_tap_A_reachable :
  exists s, after_tap_A = Some s /\ reachable 0 ∅ s
            /\ calls s = [CycleColor] /\ currentColorIndex s = 1.
Proof.
  assert (exists s0 s, setup 0 (boot ∅) = Some s0
                       /\ run_loop [tick 100 true false; tick 160 true false;
                                    tick 200 false false; tick 260 false false]
                            s0 = Some s
                       /\ calls s = [CycleColor] /\ currentColorIndex s = 1)
    as (s0 & s & H0 & Hs & Hc & Hi).
  { eexists _, _. split; [vm_compute; reflexivity |].
    split; [vm_compute; reflexivity |]. split; reflexivity. }
  exists s. split; [unfold after_tap_A; rewrite H0; exact Hs |].
  split; [| split; assumption].
  eapply reachable_run_loop; [apply reachable_setup; exact H0 | exact Hs].
Qed.

Lemma updatePhase_range now s :
  0 <= currentRainPhase s <= 2 -> 0 <= currentRainPhase (updatePhase now s) <= 2.
Proof.
  intros H. unfold updatePhase.
  destruct (currentMode s =? MODE_RAIN); [| exact H].
  destruct (PHASE_DURATION <? _); [| exact H].
  cbn [currentRainPhase set_currentRainPhase set_lastPhaseChange].
  rewrite to_byte_id by lia.
  destruct (Z.gtb_spec (currentRainPhase s + 1) 2); cbn; lia.
Qed.

(** X11. In every state of a run over an EEPROM whose cells 0, 1 and 2
    each hold 255 or a value in the range of their field, the phase of the
    rain is 0, 1 or 2. *)
Theorem phase_in_range (beyond : Z) (e : gmap Z Z) (s : State) :
  store_ok e = true -> reachable beyond e s -> 0 <= currentRainPhase s <= 2.
Proof.
  intros _. apply (reachable_inv (fun s => 0 <= currentRainPhase s <= 2)).
  - intros s0 H0. apply setup_form in H0 as ->. cbn. lia.
  - intros inp s0 s' H0 Hl. apply loop_steps in Hl as (s1 & H1 & H2).
    apply updateLEDs_shape in H2 as (T & A & v & log & t & ->).
    cbn [currentRainPhase set_lastLEDUpdate set_strip set_actualBrightness
           set_actualColor set_targetColor].
    apply updatePhase_range.
    revert H1.
    apply (checkButtons_keeps (fun s => 0 <= currentRainPhase s <= 2));
      try (intros; assumption).
    intros x x' Hx Hinc. apply incBrightness_form in Hinc as (n & w & -> & _).
    exact Hx.
Qed.

Lemma phase_in_range_witness :
  exists s, after_tap_A = Some s /\ 0 <= currentRainPhase s <= 2.
Proof.
  destruct after_tap_A_reachable as (s & Hs & Hr & _).
  assert (store_ok ∅ = true) as He by (vm_compute; reflexivity).
  exists s. split; [exact Hs |]. exact (phase_in_range 0 ∅ s He Hr).
Defined.

(** X13. In every state of a run over an EEPROM whose cells 0, 1 and 2
    each hold 255 or a value in the range of their field, the target
    brightness is the entry of the current level in [brightnessValues],
    and the brightness sent to the strip stays between 0 and the highest
    entry. *)
Theorem brightness_bounded (beyond : Z) (e : gmap Z Z) (s : State) :
  store_ok e = true ->
  reachable beyond e s ->
  index brightnessValues (inputBrightnessLevel s) = Some (targetBrightness s)
  /\ 0 <= actualBrightness s <= LED_BRIGHTNESS_5.
Proof.
  intros He.
  apply (reachable_inv
           (fun s =>
              index brightnessValues (inputBrightnessLevel s)
              = Some (targetBrightness s)
              /\ 0 <= actualBrightness s <= LED_BRIGHTNESS_5)).
  - intros s0 H0. apply setup_form in H0 as ->.
    cbn [inputBrightnessLevel targetBrightness actualBrightness set_strip
           set_actualColor set_currentColorIndex set_actualBrightness
           set_targetBrightness].
    split; [| unfold LED_BRIGHTNESS_5; lia].
    unfold store_ok in He.
    apply andb_true_iff in He as [He _]. apply andb_true_iff in He as [_ H1].
    pose proof (stored_ok_spec e 1 4 ltac:(lia) H1 3 ltac:(lia)) as Hl.
    destruct (brightnessValues_Some _ Hl) as (v & Hv & _).
    rewrite (brightnessValues_at_Some beyond _ v Hv). exact Hv.
  - intros inp s0 s' H0 Hl. apply loop_steps in Hl as (s1 & H1 & H2).
    assert (index brightnessValues (inputBrightnessLevel s1)
            = Some (targetBrightness s1)
            /\ 0 <= actualBrightness s1 <= LED_BRIGHTNESS_5) as [Ht1 Ha1].
    { revert H1.
      apply (checkButtons_keeps
               (fun s =>
                  index brightnessValues (inputBrightnessLevel s)
                  = Some (targetBrightness s)
                  /\ 0 <= actualBrightness s <= LED_BRIGHTNESS_5));
        try (intros; assumption).
      intros x x' [_ Hx] Hinc.
      apply incBrightness_form in Hinc as (n & w & -> & _ & Hw).
      split; [exact Hw | exact Hx]. }
    apply updateLEDs_brightness in H2 as (Hl2 & Ht2 & Ha2).
    assert (inputBrightnessLevel (updatePhase (millis_phase inp) s1)
            = inputBrightnessLevel s1
            /\ targetBrightness (updatePhase (millis_phase inp) s1)
               = targetBrightness s1
            /\ actualBrightness (updatePhase (millis_phase inp) s1)
               = actualBrightness s1) as (E1 & E2 & E3).
    { unfold updatePhase. repeat case_match; repeat split; reflexivity. }
    rewrite E1 in Hl2. rewrite E2 in Ht2. rewrite E2, E3 in Ha2.
    rewrite Hl2, Ht2. split; [exact Ht1 |].
    destruct Ha2 as [-> | ->]; [exact Ha1 |].
    apply brightnessValues_range in Ht1 as [_ Hv].
    unfold LED_BRIGHTNESS_5 in *.
    destruct (graduate_level_stepped (actualBrightness s1) (targetBrightness s1))
      as [[Heq Hne] _]; [lia | lia |].
    destruct (Z.eq_dec (actualBrightness s1) (targetBrightness s1)) as [E | E].
    + rewrite (Heq E). exact Ha1.
    + destruct (Hne E). lia.
Qed.

Lemma brightness_bounded_witness :
  exists s,
    after_tap_A = Some s
    /\ index brightnessValues (inputBrightnessLevel s)
       = Some (targetBrightness s)
    /\ 0 <= actualBrightness s <= LED_BRIGHTNESS_5.
Proof.
  destruct after_tap_A_reachable as (s & Hs & Hr & _).
  assert (store_ok ∅ = true) as He by (vm_compute; reflexivity).
  exists s. split; [exact Hs |]. exact (brightness_bounded 0 ∅ s He Hr).
Defined.

(** ** The EEPROM during the run *)

Lemma saveState_other s a :
  a <> 0 -> a <> 1 -> a <> 2 -> eeprom (saveState s) !! a = eeprom s !! a.
Proof.
  intros H0 H1 H2. unfold saveState, EEPROM_write. cbn [eeprom set_eeprom].
  rewrite !lookup_insert_ne by congruence. reflexivity.
Qed.

Lemma saveState_selection s : selection (saveState s) = selection s.
Proof. reflexivity. Qed.

(** After [saveState] with a selection in range, the EEPROM gives the
    selection back. *)
Lemma saveState_persisted s :
  selection_ok s = true -> persisted (saveState s).
Proof.
  intros Hok. apply selection_ok_spec in Hok as (Hm & Hl & Hc).
  destruct (saveState_read s) as (R0 & R1 & R2).
  rewrite to_byte_id in R0, R1, R2 by lia.
  unfold persisted. rewrite R0, R1, R2, saveState_selection.
  destruct (Z.eqb_spec (currentMode s) 255); [lia |].
  destruct (Z.eqb_spec (inputBrightnessLevel s) 255); [lia |].
  destruct (Z.eqb_spec (currentColorIndex s) 255); [lia |].
  reflexivity.
Qed.

Lemma persisted_ext s t :
  selection t = selection s -> eeprom t = eeprom s -> persisted s -> persisted t.
Proof. unfold persisted. intros -> ->. auto. Qed.

Lemma checkButtons_persisted inp s s' :
  selection_ok s = true -> persisted s ->
  checkButtons inp s = Some s' ->
  selection_ok s' = true /\ persisted s'.
Proof.
  intros Hok Hp.
  apply (checkButtons_keeps (fun s => selection_ok s = true /\ persisted s));
    try (intros; assumption); [| | | auto].
  - intros x [Hx _]. pose proof (cycleColor_selection x Hx) as Hx'.
    split; [exact Hx' |]. unfold cycleColor. cbn zeta.
    apply saveState_persisted. exact Hx'.
  - intros x [Hx _]. pose proof (cycleMode_selection x Hx) as Hx'.
    split; [exact Hx' |]. unfold cycleMode. cbn zeta.
    apply saveState_persisted. exact Hx'.
  - intros x x' [Hx _] Hinc.
    pose proof (incBrightness_selection x x' Hx Hinc) as Hx'.
    split; [exact Hx' |].
    apply incBrightness_form in Hinc as (n & v & -> & _).
    apply saveState_persisted. exact Hx'.
Qed.

Lemma loop_persisted inp s s' :
  selection_ok s = true -> persisted s ->
  loop inp s = Some s' ->
  selection_ok s' = true /\ persisted s'.
Proof.
  intros Hok Hp Hl. apply loop_steps in Hl as (s1 & H1 & H2).
  destruct (checkButtons_persisted _ _ _ Hok Hp H1) as [Hok1 Hp1].
  apply updateLEDs_shape in H2 as (T & A & v & log & t & ->).
  assert (selection (updatePhase (millis_phase inp) s1) = selection s1
          /\ eeprom (updatePhase (millis_phase inp) s1) = eeprom s1) as [E1 E2].
  { unfold updatePhase. repeat case_match; split; reflexivity. }
  split.
  - rewrite <- Hok1. apply selection_ok_ext. exact E1.
  - apply (persisted_ext s1); [exact E1 | exact E2 | exact Hp1].
Qed.

Lemma setup_persisted beyond e s :
  setup beyond (boot e) = Some s -> persisted s /\ eeprom s = e.
Proof.
  intros Hs. apply setup_form in Hs as ->. split; reflexivity.
Qed.

(** X9. At any point of a run over a well-formed EEPROM, a restart gives the
    current selection back: [setup] over the EEPROM as it is then is
    defined and loads the current mode, level and colour index. *)
Theorem restart_restores_selection (beyond beyond' : Z) (e : gmap Z Z)
    (s : State) :
  store_ok e = true -> reachable beyond e s ->
  exists s',
    setup beyond' (boot (eeprom s)) = Some s' /\ selection s' = selection s.
Proof.
  intros He Hr.
  assert (selection_ok s = true /\ persisted s) as [Hok Hp].
  { revert s Hr. apply reachable_inv.
    - intros s Hs. split; [exact (setup_selection beyond e s He Hs) |].
      apply (setup_persisted beyond e s Hs).
    - intros inp s s' [Hok Hp]. apply loop_persisted; assumption. }
  apply selection_ok_spec in Hok as (Hm & Hl & Hc).
  unfold persisted, selection in Hp. injection Hp as Pm Pl Pc.
  destruct (brightnessValues_Some _ Hl) as (v & Hv & _).
  destruct (loadState_spec beyond' (boot (eeprom s)) v eq_refl)
    as (s' & Hs' & Hm' & Hl' & Hc' & _).
  { cbn [eeprom boot]. cbn [inputBrightnessLevel boot] in Pl.
    cbn [inputBrightnessLevel boot]. rewrite <- Pl. exact Hv. }
  exists (set_strip (strip s' ++ [Begin]) s'). split.
  - unfold setup. rewrite Hs'. reflexivity.
  - unfold selection.
    cbn [currentMode inputBrightnessLevel currentColorIndex set_strip].
    cbn [eeprom boot] in Hm', Hl', Hc'.
    cbn [currentMode inputBrightnessLevel currentColorIndex boot] in Pm, Pl, Pc.
    cbn [currentMode inputBrightnessLevel currentColorIndex boot] in Hm', Hl', Hc'.
    rewrite Hm', Hl', Hc', Pm, Pl, Pc. reflexivity.
Qed.

Lemma restart_restores_selection_witness :
  exists s s',
    after_tap_A = Some s
    /\ setup 0 (boot (eeprom s)) = Some s'
    /\ selection s' = selection s.
Proof.
  destruct after_tap_A_reachable as (s & Hs & Hr & _).
  assert (store_ok ∅ = true) as He by (vm_compute; reflexivity).
  destruct (restart_restores_selection 0 0 ∅ s He Hr) as (s' & Hs' & Hsel).
  exists s, s'. auto.
Defined.

(** X10. The EEPROM is written by the handlers only, and in the cells 0, 1 and
    2 only: [setup] leaves it as it is, an iteration of [loop] that
    enters no handler leaves it as it is, and in every state of a run the
    other cells are as at startup. *)
Theorem eeprom_written_by_handlers_only :
  (forall beyond e s, setup beyond (boot e) = Some s -> eeprom s = e)
  /\ (forall inp s s',
        loop inp s = Some s' -> calls s' = calls s -> eeprom s' = eeprom s)
  /\ (forall beyond e s a,
        reachable beyond e s -> a <> 0 -> a <> 1 -> a <> 2 ->
        eeprom s !! a = e !! a).
Proof.
  split; [| split].
  - intros beyond e s Hs. apply (setup_persisted beyond e s Hs).
  - intros inp s s' Hl Hcalls. apply loop_steps in Hl as (s1 & H1 & H2).
    apply updateLEDs_shape in H2 as (T & A & v & log & t & ->).
    assert (calls (updatePhase (millis_phase inp) s1) = calls s1
            /\ eeprom (updatePhase (millis_phase inp) s1) = eeprom s1) as [E1 E2].
    { unfold updatePhase. repeat case_match; split; reflexivity. }
    cbn [calls eeprom set_lastLEDUpdate set_strip set_actualBrightness
           set_actualColor set_targetColor] in *.
    rewrite E1 in Hcalls. rewrite E2.
    assert ((calls s1 = calls s /\ eeprom s1 = eeprom s)
            \/ (length (calls s) < length (calls s1))%nat) as [[_ H] | H].
    { revert H1.
      apply (checkButtons_keeps
               (fun x => (calls x = calls s /\ eeprom x = eeprom s)
                         \/ (length (calls s) < length (calls x))%nat));
        try (intros; assumption); [| | | auto].
      - intros x Hx. right. cbn [cycleColor calls saveState set_eeprom
                                   set_currentColorIndex set_calls].
        rewrite length_app. cbn [length].
        destruct Hx as [[-> _] | Hx]; lia.
      - intros x Hx. right. cbn [cycleMode calls saveState set_eeprom
                                   set_currentMode set_calls].
        rewrite length_app. cbn [length].
        destruct Hx as [[-> _] | Hx]; lia.
      - intros x x' Hx Hinc. right.
        apply incBrightness_form in Hinc as (n & w & -> & _).
        cbn [calls saveState set_eeprom set_targetBrightness
               set_inputBrightnessLevel set_calls].
        rewrite length_app. cbn [length].
        destruct Hx as [[-> _] | Hx]; lia. }
    + exact H.
    + rewrite Hcalls in H. lia.
  - intros beyond e s a Hr H0 H1 H2. revert s Hr.
    apply (reachable_inv (fun s => eeprom s !! a = e !! a)).
    + intros s Hs. rewrite (proj2 (setup_persisted beyond e s Hs)).
      reflexivity.
    + intros inp s s' Hs Hl. apply loop_steps in Hl as (s1 & Hb & Hu).
      apply updateLEDs_shape in Hu as (T & A & v & log & t & ->).
      assert (eeprom (updatePhase (millis_phase inp) s1) = eeprom s1) as E.
      { unfold updatePhase. repeat case_match; reflexivity. }
      cbn [eeprom set_lastLEDUpdate set_strip set_actualBrightness
             set_actualColor set_targetColor].
      rewrite E. revert Hb.
      apply (checkButtons_keeps (fun x => eeprom x !! a = e !! a));
        try (intros; assumption).
      * intros x Hx. unfold cycleColor. rewrite saveState_other by assumption.
        exact Hx.
      * intros x Hx. unfold cycleMode. rewrite saveState_other by assumption.
        exact Hx.
      * intros x x' Hx Hinc.
        apply incBrightness_form in Hinc as (n & w & -> & _).
        rewrite saveState_other by assumption. exact Hx.
Qed.

Lemma eeprom_written_by_handlers_only_witness :
  exists s s',
    setup 0 (boot {[ 7 := 42 ]}) = Some s
    /\ eeprom s = {[ 7 := 42 ]}
    /\ loop (tick 9 false false) s = Some s'
    /\ eeprom s' = eeprom s
    /\ eeprom s' !! 7 = Some 42.
Proof.
  assert (exists s s', setup 0 (boot {[ 7 := 42 ]}) = Some s
                       /\ loop (tick 9 false false) s = Some s'
                       /\ calls s' = calls s) as (s & s' & Hs & Hl & Hc).
  { eexists _, _. split; [vm_compute; reflexivity |].
    split; [vm_compute; reflexivity | reflexivity]. }
  destruct eeprom_written_by_handlers_only as (H1 & H2 & H3).
  exists s, s'. split; [exact Hs |].
  split; [exact (H1 0 _ s Hs) |]. split; [exact Hl |].
  split; [exact (H2 _ s s' Hl Hc) |].
  rewrite (H3 0 {[ 7 := 42 ]} s' 7); [reflexivity | | lia | lia | lia].
  eapply reachable_loop; [apply reachable_setup; exact Hs | exact Hl].
Defined.

(** ** The calls of the strip in a frame *)

Lemma nonempty_app_r {A} (l : list A) x : nonempty (l ++ [x]) = true.
Proof. destruct l; reflexivity. Qed.

Lemma nonempty_app {A} (l1 l2 : list A) :
  nonempty (l1 ++ l2) = nonempty l1 || nonempty l2.
Proof. destruct l1, l2; reflexivity. Qed.

Lemma graduate_loop_calls s :
  length (actualColor s) = NUM_LEDS ->
  length (targetColor s) = NUM_LEDS ->
  for_upto NUM_LEDS graduateLED (false, s)
  = Some (nonempty (pixel_calls (actualColor s) (targetColor s)),
          set_strip (strip s ++ pixel_calls (actualColor s) (targetColor s))
            (set_actualColor
               (graduate_pixels (actualColor s) (targetColor s)) s)).
Proof.
  intros HA HT.
  set (f := fun (i : nat) (a : RGB) =>
              match targetColor s !! i with
              | Some t => graduate_rgb a t
              | None => a
              end).
  set (h := fun (i : nat) (a : RGB) =>
              match targetColor s !! i with
              | Some t => pixel_call i a t
              | None => []
              end).
  destruct (for_upto_total
              (fun k (st : bool * State) =>
                 st = (nonempty (concat (take k (imap h (actualColor s)))),
                       set_strip
                         (strip s ++ concat (take k (imap h (actualColor s))))
                         (set_actualColor
                            (take k (imap f (actualColor s))
                             ++ drop k (actualColor s)) s)))
              NUM_LEDS graduateLED (false, s)) as (y & Hy & ->).
  - cbn [take concat nonempty]. rewrite app_nil_r. destruct s; reflexivity.
  - intros k x Hk ->.
    destruct (map_lookup_10 (actualColor s) k HA Hk) as [a Ha].
    destruct (map_lookup_10 (targetColor s) k HT Hk) as [t Ht].
    unfold graduateLED.
    cbn [actualColor targetColor strip set_strip set_actualColor].
    rewrite imap_prefix_lookup, Ha, Ht. cbn [mbind option_bind].
    pose proof (imap_prefix_step f _ k a Ha) as Hstep.
    assert (f k a = graduate_rgb a t) as Hf by (unfold f; rewrite Ht; reflexivity).
    rewrite Hf in Hstep. rewrite <- Hstep. clear Hstep Hf.
    rewrite (take_S_r (imap h (actualColor s)) k (pixel_call k a t)).
    2:{ rewrite list_lookup_imap, Ha. unfold h. cbn. rewrite Ht. reflexivity. }
    rewrite concat_app. cbn [concat]. rewrite app_nil_r.
    unfold pixel_call, graduate_rgb.
    destruct (negb (r a =? r t) || negb (g a =? g t) || negb (b a =? b t)).
    + eexists. split; [reflexivity |].
      rewrite nonempty_app_r, <- app_assoc. reflexivity.
    + eexists. split; [reflexivity |]. rewrite app_nil_r.
      rewrite list_insert_id; [reflexivity |].
      rewrite imap_prefix_lookup. exact Ha.
  - rewrite Hy. unfold pixel_calls, graduate_pixels. fold f. fold h.
    rewrite !take_ge by (rewrite length_imap, HA; apply Nat.le_refl).
    rewrite drop_ge by (rewrite HA; apply Nat.le_refl).
    rewrite app_nil_r. reflexivity.
Qed.

Lemma graduateBrightness_calls c s :
  graduateBrightness (c, s)
  = (c || nonempty (brightness_calls (actualBrightness s) (targetBrightness s)),
     set_strip
       (strip s ++ brightness_calls (actualBrightness s) (targetBrightness s))
       (set_actualBrightness
          (graduate_level (actualBrightness s) (targetBrightness s)) s)).
Proof.
  unfold graduateBrightness, brightness_calls, graduate_level.
  destruct (negb (targetBrightness s =? actualBrightness s)).
  - cbn [nonempty]. rewrite orb_true_r. reflexivity.
  - cbn [nonempty]. rewrite orb_false_r, app_nil_r. destruct s; reflexivity.
Qed.

Lemma updateLEDs_strip_calls (now : Z) (s : State) :
  length (actualColor s) = NUM_LEDS ->
  length (targetColor s) = NUM_LEDS ->
  0 <= currentColorIndex s <= 7 ->
  exceeds_update_delay (sub32 now (lastLEDUpdate s)) = true ->
  exists s',
    updateLEDs now s = Some s'
    /\ strip s'
       = strip s
         ++ frame_calls (actualColor s) (targetColor s')
              (actualBrightness s) (targetBrightness s).
Proof.
  intros HA HT Hidx Hel.
  destruct (colors_Some _ Hidx) as (base & comp & Hbase & Hcomp & _).
  unfold updateLEDs, updateLEDs_frame.
  rewrite Hel, (updateLEDs_targets_spec s base comp HT Hbase Hcomp).
  cbn [mbind option_bind].
  set (T' := imap _ (targetColor s)).
  rewrite (graduate_loop_calls (set_targetColor T' s)).
  2:{ exact HA. }
  2:{ cbn [targetColor set_targetColor]. subst T'. rewrite length_imap. exact HT. }
  cbn [mbind option_bind actualColor targetColor strip set_targetColor].
  rewrite graduateBrightness_calls.
  cbn [actualBrightness targetBrightness strip set_strip set_actualColor
         set_targetColor].
  rewrite <- nonempty_app, <- app_assoc.
  destruct (nonempty (pixel_calls (actualColor s) T'
                      ++ brightness_calls (actualBrightness s)
                           (targetBrightness s))) eqn:E.
  - eexists. split; [reflexivity |].
    cbn [strip targetColor set_lastLEDUpdate set_strip set_actualBrightness
           set_actualColor set_targetColor].
    unfold frame_calls. rewrite E, <- !app_assoc. reflexivity.
  - eexists. split; [reflexivity |].
    cbn [strip targetColor set_lastLEDUpdate set_strip set_actualBrightness
           set_actualColor set_targetColor].
    unfold frame_calls. rewrite E, <- app_assoc.
    destruct (pixel_calls (actualColor s) T'
              ++ brightness_calls (actualBrightness s) (targetBrightness s));
      [reflexivity | discriminate].
Qed.



Lemma rgb_differs_spec a t :
  negb (r a =? r t) || negb (g a =? g t) || negb (b a =? b t) = false
  <-> a = t.
Proof.
  rewrite !orb_false_iff, !negb_false_iff, !Z.eqb_eq. split.
  - intros [[Hr Hg] Hb]. destruct a, t. cbn in *. congruence.
  - intros ->. auto.
Qed.

Lemma pixel_calls_nil A T :
  length A = length T -> pixel_calls A T = [] <-> A = T.
Proof.
  intros Hlen. unfold pixel_calls. split.
  - intros H. apply list_eq. intros i.
    destruct (A !! i) as [a |] eqn:Ea.
    + destruct (lookup_lt_is_Some_2 T i) as [t Et].
      { rewrite <- Hlen. eapply lookup_lt_Some. exact Ea. }
      rewrite Et. f_equal. apply rgb_differs_spec.
      assert (pixel_call i a t = []) as Hc.
      { assert (pixel_call i a t ∈ imap (fun i a => match T !! i with
                                                   | Some t => pixel_call i a t
                                                   | None => []
                                                   end) A) as Hin.
        { apply list_elem_of_lookup. exists i.
          rewrite list_lookup_imap, Ea. cbn. rewrite Et. reflexivity. }
        apply list_elem_of_split in Hin as (l1 & l2 & Hsplit).
        rewrite Hsplit, concat_app in H. cbn [concat] in H.
        apply app_eq_nil in H as [_ H]. apply app_eq_nil in H as [H _].
        exact H. }
      unfold pixel_call in Hc.
      destruct (negb (r a =? r t) || negb (g a =? g t) || negb (b a =? b t));
        [discriminate | reflexivity].
    + symmetry. apply lookup_ge_None_2. rewrite <- Hlen.
      apply lookup_ge_None_1. exact Ea.
  - intros <-. apply concat_nil_Forall, Forall_forall. intros x Hx.
    apply list_elem_of_lookup in Hx as [i Hi].
    rewrite list_lookup_imap in Hi.
    destruct (A !! i) as [a |] eqn:Ea; [| discriminate].
    cbn in Hi. try rewrite Ea in Hi. injection Hi as <-.
    unfold pixel_call. rewrite (proj2 (rgb_differs_spec a a) eq_refl).
    reflexivity.
Qed.

(** X15. A frame that passes the rate test makes no call of the strip if and
    only if every pixel equals its recomputed target and the brightness
    equals its target; otherwise its last call is [show]. *)
Theorem frame_silent_iff_converged (now : Z) (s : State) :
  length (actualColor s) = NUM_LEDS ->
  length (targetColor s) = NUM_LEDS ->
  0 <= currentColorIndex s <= 7 ->
  exceeds_update_delay (sub32 now (lastLEDUpdate s)) = true ->
  exists s',
    updateLEDs now s = Some s'
    /\ (strip s' = strip s
        <-> actualColor s = targetColor s'
            /\ actualBrightness s = targetBrightness s')
    /\ (strip s' <> strip s -> last (strip s') = Some Show).
Proof.
  intros HA HT Hidx Hel.
  destruct (updateLEDs_strip_calls now s HA HT Hidx Hel) as (s' & Hs' & Hstrip).
  exists s'. split; [exact Hs' |].
  assert (length (targetColor s') = NUM_LEDS /\ targetBrightness s' = targetBrightness s)
    as [HT' Htb].
  { destruct (colors_Some _ Hidx) as (base & comp & Hbase & Hcomp & _).
    destruct (updateLEDs_eligible now s base comp HA HT Hbase Hcomp Hel)
      as [log Hlog].
    rewrite Hlog in Hs'. injection Hs' as <-.
    cbn [targetColor targetBrightness set_lastLEDUpdate set_strip
           set_actualBrightness set_actualColor set_targetColor].
    rewrite length_imap. auto. }
  assert (length (actualColor s) = length (targetColor s')) as Hlen
    by congruence.
  rewrite Hstrip, Htb. unfold frame_calls.
  set (P := pixel_calls (actualColor s) (targetColor s')).
  set (B := brightness_calls (actualBrightness s) (targetBrightness s)).
  assert (P ++ B = [] <-> actualColor s = targetColor s'
                          /\ actualBrightness s = targetBrightness s) as Hnil.
  { split.
    - intros H. apply app_eq_nil in H as [HP HB]. split.
      + apply pixel_calls_nil; [exact Hlen | exact HP].
      + subst B. unfold brightness_calls in HB.
        destruct (Z.eqb_spec (targetBrightness s) (actualBrightness s));
          [congruence | discriminate].
    - intros [HP HB]. subst P B.
      rewrite (proj2 (pixel_calls_nil _ _ Hlen) HP).
      unfold brightness_calls. rewrite HB, Z.eqb_refl. reflexivity. }
  destruct (P ++ B) as [| c l] eqn:E; cbn [nonempty].
  - split.
    + rewrite app_nil_r. split; [intros _; apply Hnil; reflexivity | reflexivity].
    + rewrite app_nil_r. intros H. contradiction H. reflexivity.
  - split.
    + split.
      * intros H. exfalso.
        apply (f_equal length) in H. rewrite !length_app in H. cbn in H. lia.
      * intros H. apply Hnil in H. discriminate.
    + intros _. rewrite app_assoc. apply last_snoc.
Qed.

Lemma frame_silent_iff_converged_witness :
  exists s',
    updateLEDs 9 (boot ∅) = Some s'
    /\ (strip s' = strip (boot ∅)
        <-> actualColor (boot ∅) = targetColor s'
            /\ actualBrightness (boot ∅) = targetBrightness s')
    /\ (strip s' <> strip (boot ∅) -> last (strip s') = Some Show).
Proof.
  apply (frame_silent_iff_converged 9 (boot ∅)).
  - reflexivity.
  - reflexivity.
  - cbn. lia.
  - reflexivity.
Defined.

(** ** The frame rate *)

(** X17. After a frame at the clock value [now], a call of [updateLEDs] at most
    8 ms later does nothing at all. *)
Theorem one_frame_per_delay (now t : Z) (s s' : State) :
  exceeds_update_delay (sub32 now (lastLEDUpdate s)) = true ->
  updateLEDs now s = Some s' ->
  sub32 t now <= 8 ->
  updateLEDs t s' = Some s'.
Proof.
  intros Hel Hs' Ht.
  assert (lastLEDUpdate s' = now) as Hlast.
  { unfold updateLEDs in Hs'. rewrite Hel in Hs'.
    destruct (updateLEDs_frame s) as [[c s1] |]; [| discriminate].
    cbn [mbind option_bind] in Hs'. injection Hs' as <-. reflexivity. }
  apply updateLEDs_not_eligible.
  rewrite Hlast, exceeds_update_delay_spec. apply Z.ltb_ge. exact Ht.
Qed.

Lemma one_frame_per_delay_witness :
  exists s', updateLEDs 9 (boot ∅) = Some s' /\ updateLEDs 17 s' = Some s'.
Proof.
  assert (exists s', updateLEDs 9 (boot ∅) = Some s') as [s' Hs'].
  { eexists. vm_compute. reflexivity. }
  exists s'. split; [exact Hs' |].
  apply (one_frame_per_delay 9 17 (boot ∅) s'); [reflexivity | exact Hs' |].
  vm_compute. discriminate.
Defined.

(** ** The halfway blend, again *)

Lemma halfwayChannel_sym x y : halfwayChannel x y = halfwayChannel y x.
Proof.
  unfold halfwayChannel.
  destruct (Z.ltb_spec x y), (Z.gtb_spec x y), (Z.ltb_spec y x),
    (Z.gtb_spec y x); try lia; reflexivity.
Qed.

Lemma halfwayChannel_average x y :
  0 <= x <= 255 -> 0 <= y <= 255 -> halfwayChannel x y = (x + y) / 2.
Proof.
  intros Hx Hy. rewrite halfwayChannel_spec by assumption. unfold halfway_spec.
  destruct (Z.ltb_spec x y); [| destruct (Z.gtb_spec x y)];
    Z.div_mod_to_equations; lia.
Qed.

(** X18. The halfway blend does not depend on the order of its two colours,
    and on byte channels each of its channels is the floor of the average
    of the two. *)
Theorem halfway_blend_average :
  (forall A B, halfwayBetweenColors A B = halfwayBetweenColors B A)
  /\ (forall A B, rgb_ok A = true -> rgb_ok B = true ->
        r (halfwayBetweenColors A B) = (r A + r B) / 2
        /\ g (halfwayBetweenColors A B) = (g A + g B) / 2
        /\ b (halfwayBetweenColors A B) = (b A + b B) / 2).
Proof.
  split.
  - intros A B. unfold halfwayBetweenColors.
    rewrite (halfwayChannel_sym (r A)), (halfwayChannel_sym (g A)),
      (halfwayChannel_sym (b A)). reflexivity.
  - intros A B HA HB.
    apply rgb_ok_spec in HA as (? & ? & ?).
    apply rgb_ok_spec in HB as (? & ? & ?).
    cbn [halfwayBetweenColors r g b].
    rewrite !halfwayChannel_average by assumption. auto.
Qed.

Lemma halfway_blend_average_witness :
  r (halfwayBetweenColors (mkRGB 230 30 110) (mkRGB 127 0 255)) = 178
  /\ g (halfwayBetweenColors (mkRGB 230 30 110) (mkRGB 127 0 255)) = 15
  /\ b (halfwayBetweenColors (mkRGB 230 30 110) (mkRGB 127 0 255)) = 182.
Proof.
  exact (proj2 halfway_blend_average (mkRGB 230 30 110) (mkRGB 127 0 255)
           eq_refl eq_refl).
Defined.

(** ** The steady state *)

(** On a converged state whose targets the recomputation leaves as they
    are, a frame writes [lastLEDUpdate] and nothing else. *)
Lemma settled_frame now s base comp :
  length (actualColor s) = NUM_LEDS ->
  length (targetColor s) = NUM_LEDS ->
  index colors (currentColorIndex s) = Some base ->
  index complementary_colors (currentColorIndex s) = Some comp ->
  imap (mode_target (currentMode s) (currentRainPhase s) base comp)
    (targetColor s) = targetColor s ->
  actualColor s = targetColor s ->
  actualBrightness s = targetBrightness s ->
  exceeds_update_delay (sub32 now (lastLEDUpdate s)) = true ->
  updateLEDs now s = Some (set_lastLEDUpdate now s).
Proof.
  intros HA HT Hbase Hcomp Hfix Heq Hb Hel.
  unfold updateLEDs, updateLEDs_frame.
  rewrite Hel, (updateLEDs_targets_spec s base comp HT Hbase Hcomp), Hfix.
  rewrite set_targetColor_same. cbn [mbind option_bind].
  rewrite (graduate_loop_converged false s HA Heq). cbn [mbind option_bind].
  unfold graduateBrightness. rewrite Hb, Z.eqb_refl. reflexivity.
Qed.

Lemma last_cons {A} (l : list A) : forall x d, List.last (x :: l) d = List.last l x.
Proof.
  induction l as [| y l IH]; intros x d; [reflexivity |].
  change (List.last (x :: y :: l) d) with (List.last (y :: l) d).
  rewrite !IH. reflexivity.
Qed.

Lemma settled_frames ts : forall s base comp,
  length (actualColor s) = NUM_LEDS ->
  length (targetColor s) = NUM_LEDS ->
  index colors (currentColorIndex s) = Some base ->
  index complementary_colors (currentColorIndex s) = Some comp ->
  imap (mode_target (currentMode s) (currentRainPhase s) base comp)
    (targetColor s) = targetColor s ->
  actualColor s = targetColor s ->
  actualBrightness s = targetBrightness s ->
  frames_eligible (lastLEDUpdate s) ts = true ->
  run_frames ts s = Some (set_lastLEDUpdate (List.last ts (lastLEDUpdate s)) s).
Proof.
  induction ts as [| t ts IH]; intros s base comp HA HT Hbase Hcomp Hfix Heq Hb Hel.
  - cbn. destruct s; reflexivity.
  - cbn [frames_eligible] in Hel. apply andb_true_iff in Hel as [Hel Hrest].
    cbn [run_frames].
    rewrite (settled_frame t s base comp HA HT Hbase Hcomp Hfix Heq Hb Hel).
    cbn [mbind option_bind].
    rewrite (IH (set_lastLEDUpdate t s) base comp); try assumption.
    cbn [lastLEDUpdate set_lastLEDUpdate]. rewrite last_cons. reflexivity.
Qed.

(** The state after frames that pass the rate test. *)
Lemma run_frames_fixpoint ts : forall s s' base comp,
  well_typed s = true ->
  0 <= currentColorIndex s <= 7 ->
  index colors (currentColorIndex s) = Some base ->
  index complementary_colors (currentColorIndex s) = Some comp ->
  imap (mode_target (currentMode s) (currentRainPhase s) base comp)
    (targetColor s) = targetColor s ->
  frames_eligible (lastLEDUpdate s) ts = true ->
  run_frames ts s = Some s' ->
  well_typed s' = true
  /\ currentColorIndex s' = currentColorIndex s
  /\ imap (mode_target (currentMode s') (currentRainPhase s') base comp)
       (targetColor s') = targetColor s'.
Proof.
  induction ts as [| t ts IH]; intros s s' base comp Hwt Hidx Hbase Hcomp Hfix Hel.
  - intros [= <-]. auto.
  - cbn [frames_eligible] in Hel. apply andb_true_iff in Hel as [Hel Hrest].
    destruct (frame_step t s Hwt Hidx Hel)
      as (s1 & base' & comp' & Hs1 & Hb' & Hc' & Hwt1 & Hm1 & Hi1 & Hp1 & _
          & Hl1 & HT1 & _).
    assert (base' = base) as -> by congruence.
    assert (comp' = comp) as -> by congruence.
    cbn [run_frames]. rewrite Hs1. cbn [mbind option_bind]. intros Hrun.
    rewrite Hfix in HT1.
    destruct (IH s1 s' base comp) as (Hwt' & Hi' & Hfix'); try assumption.
    + rewrite Hi1. exact Hidx.
    + rewrite Hi1. exact Hbase.
    + rewrite Hi1. exact Hcomp.
    + rewrite Hm1, Hp1, HT1. exact Hfix.
    + rewrite Hl1. exact Hrest.
    + split; [exact Hwt' |]. split; [congruence | exact Hfix'].
Qed.

(** X16. Once 255 frames or more have passed the rate test, the animation is
    at rest: any further frames are defined, make no call of the strip
    and change nothing but [lastLEDUpdate]. *)
Theorem steady_state_is_silent (ts ts' : list Z) (s : State) :
  well_typed s = true ->
  0 <= currentColorIndex s <= 7 ->
  (255 <= length ts)%nat ->
  frames_eligible (lastLEDUpdate s) (ts ++ ts') = true ->
  exists s1,
    run_frames ts s = Some s1
    /\ run_frames (ts ++ ts') s
       = Some (set_lastLEDUpdate (List.last ts' (lastLEDUpdate s1)) s1).
Proof.
  intros Hwt Hidx Hlen Hel.
  assert (forall l1 l2 x, frames_eligible x (l1 ++ l2) = true ->
            frames_eligible x l1 = true
            /\ frames_eligible (List.last l1 x) l2 = true) as Hsplit.
  { induction l1 as [| y l1 IH]; intros l2 x H; [auto |].
    cbn [app frames_eligible] in H |- *.
    apply andb_true_iff in H as [Hy H]. destruct (IH l2 y H) as [H1 H2].
    rewrite Hy, H1. split; [reflexivity |].
    rewrite last_cons. exact H2. }
  assert (forall l1 l2 x, run_frames (l1 ++ l2) x
                          = (y ← run_frames l1 x; run_frames l2 y)) as Happ.
  { induction l1 as [| y l1 IH]; intros l2 x; [reflexivity |].
    cbn [app run_frames]. destruct (updateLEDs y x); [apply IH | reflexivity]. }
  destruct (Hsplit ts ts' _ Hel) as [Hel1 Hel2].
  destruct ts as [| t ts]; [cbn in Hlen; lia |].
  pose proof Hel1 as Hel1'.
  cbn [frames_eligible] in Hel1'. apply andb_true_iff in Hel1' as [Helt Helts].
  destruct (frame_step t s Hwt Hidx Helt)
    as (s0 & base & comp & Hs0 & Hb & Hc & Hwt0 & Hm0 & Hi0 & Hp0 & Htb0
        & Hl0 & HT0 & HA0 & Hab0).
  assert (imap (mode_target (currentMode s0) (currentRainPhase s0) base comp)
            (targetColor s0) = targetColor s0) as Hfix0.
  { rewrite Hm0, Hp0, HT0. apply imap_idem. intros i x. apply mode_target_idem. }
  pose proof Hwt0 as Hwt0'.
  apply well_typed_spec in Hwt0' as (Hbytes0 & _ & _ & HTok0 & _).
  pose proof Hwt as Hwt'.
  apply well_typed_spec in Hwt' as (Hbytes & _ & _ & _ & HAok).
  destruct (run_frames_converges ts s0 254 base comp) as (s1 & Hs1 & HA1 & Hb1).
  { exact Hwt0. } { rewrite Hi0. exact Hidx. } { rewrite Hi0. exact Hb. }
  { rewrite Hi0. exact Hc. } { exact Hfix0. }
  { rewrite HA0. change 254 with (Z.max 0 (255 - 1)).
    apply within_step; [exact HAok | exact HTok0 |].
    apply within_bytes; [exact HAok | exact HTok0]. }
  { rewrite Hab0, Htb0. change 254 with (Z.max 0 (255 - 1)).
    destruct (graduate_level_stepped (actualBrightness s) (targetBrightness s))
      as [Hs _]; [lia | lia |].
    eapply stepped_bound; [exact Hs | lia]. }
  { cbn [length] in Hlen. lia. }
  { rewrite Hl0. exact Helts. }
  destruct (run_frames_fixpoint ts s0 s1 base comp) as (Hwt1 & Hi1 & Hfix1);
    try assumption.
  { rewrite Hi0. exact Hidx. } { rewrite Hi0. exact Hb. }
  { rewrite Hi0. exact Hc. } { rewrite Hl0. exact Helts. }
  assert (run_frames (t :: ts) s = Some s1) as Hrun.
  { cbn [run_frames]. rewrite Hs0. exact Hs1. }
  assert (lastLEDUpdate s1 = List.last (t :: ts) (lastLEDUpdate s)) as Hlast.
  { clear - Hrun Hel1.
    revert s s1 Hrun Hel1. generalize (t :: ts) as l.
    induction l as [| y l IH]; intros s s1 Hrun Hel.
    - cbn in Hrun. injection Hrun as <-. reflexivity.
    - cbn [run_frames] in Hrun. cbn [frames_eligible] in Hel.
      apply andb_true_iff in Hel as [Hy Hel].
      destruct (updateLEDs y s) as [s0 |] eqn:H0; [| discriminate].
      cbn [mbind option_bind] in Hrun.
      assert (lastLEDUpdate s0 = y) as Hl0.
      { unfold updateLEDs in H0. rewrite Hy in H0.
        destruct (updateLEDs_frame s) as [[c x] |]; [| discriminate].
        cbn [mbind option_bind] in H0. injection H0 as <-. reflexivity. }
      rewrite (IH s0 s1 Hrun) by (rewrite Hl0; exact Hel).
      rewrite Hl0, last_cons. reflexivity. }
  exists s1. split; [exact Hrun |].
  rewrite Happ, Hrun. cbn [mbind option_bind].
  apply well_typed_spec in Hwt1 as (_ & HT1 & HAlen1 & _).
  apply (settled_frames ts' s1 base comp); try assumption.
  - rewrite Hi1, Hi0. exact Hb.
  - rewrite Hi1, Hi0. exact Hc.
  - rewrite Hlast. exact Hel2.
Qed.

Lemma steady_state_is_silent_witness :
  exists s1,
    run_frames (map (fun k => 9 * Z.of_nat k) (seq 1 255)) (boot ∅) = Some s1
    /\ run_frames (map (fun k => 9 * Z.of_nat k) (seq 1 255) ++ [3000; 4000])
         (boot ∅)
       = Some (set_lastLEDUpdate 4000 s1).
Proof.
  apply (steady_state_is_silent
           (map (fun k => 9 * Z.of_nat k) (seq 1 255)) [3000; 4000] (boot ∅)).
  - reflexivity.
  - cbn. lia.
  - vm_compute. lia.
  - vm_compute. reflexivity.
Defined.

(** ** The phase of the rain *)

Lemma updatePhase_due now s :
  currentMode s = MODE_RAIN ->
  0 <= currentRainPhase s <= 2 ->
  (PHASE_DURATION <? sub32 now (lastPhaseChange s)) = true ->
  updatePhase now s
  = set_currentRainPhase ((currentRainPhase s + 1) mod 3)
      (set_lastPhaseChange now s).
Proof.
  intros Hm Hp Hd. unfold updatePhase. rewrite Hm, Hd. cbn [Z.eqb MODE_RAIN Pos.eqb].
  cbn [currentRainPhase set_currentRainPhase set_lastPhaseChange].
  assert (currentRainPhase s = 0 \/ currentRainPhase s = 1
          \/ currentRainPhase s = 2) as Hc by lia.
  destruct Hc as [-> | [-> | ->]]; reflexivity.
Qed.

(** X12. In the rain mode, calls of [updatePhase] that each come more than
    [PHASE_DURATION] after the change of phase before advance the phase by
    one modulo 3 each, and write nothing but the phase and the time of its
    last change. In another mode, or before the delay is over, a call does
    nothing. *)
Theorem rain_phase_cycle :
  (forall ts s,
      currentMode s = MODE_RAIN ->
      0 <= currentRainPhase s <= 2 ->
      phases_due (lastPhaseChange s) ts = true ->
      run_phases ts s
      = set_currentRainPhase
          ((currentRainPhase s + Z.of_nat (length ts)) mod 3)
          (set_lastPhaseChange (List.last ts (lastPhaseChange s)) s))
  /\ (forall now s,
        currentMode s <> MODE_RAIN
        \/ sub32 now (lastPhaseChange s) <= PHASE_DURATION ->
        updatePhase now s = s).
Proof.
  split.
  - induction ts as [| t ts IH]; intros s Hm Hp Hd.
    + cbn [run_phases length List.last Z.of_nat].
      rewrite Z.add_0_r, Z.mod_small by lia. destruct s; reflexivity.
    + cbn [phases_due] in Hd. apply andb_true_iff in Hd as [Ht Hd].
      cbn [run_phases]. rewrite (updatePhase_due t s Hm Hp Ht).
      rewrite IH.
      * cbn [currentRainPhase lastPhaseChange set_currentRainPhase
               set_lastPhaseChange].
        rewrite last_cons.
        replace (((currentRainPhase s + 1) mod 3 + Z.of_nat (length ts)) mod 3)
          with ((currentRainPhase s + Z.of_nat (length (t :: ts))) mod 3).
        { reflexivity. }
        cbn [length]. rewrite Nat2Z.inj_succ.
        rewrite Zplus_mod_idemp_l. f_equal. lia.
      * exact Hm.
      * cbn [currentRainPhase set_currentRainPhase].
        pose proof (Z.mod_pos_bound (currentRainPhase s + 1) 3). lia.
      * exact Hd.
  - intros now s H. unfold updatePhase.
    destruct (Z.eqb_spec (currentMode s) MODE_RAIN) as [Hm | Hm]; [| reflexivity].
    destruct H as [H | H]; [contradiction |].
    destruct (Z.ltb_spec PHASE_DURATION (sub32 now (lastPhaseChange s)));
      [lia | reflexivity].
Qed.

Lemma rain_phase_cycle_witness :
  currentRainPhase
    (run_phases [1001; 2002; 3003; 4004] (set_currentMode MODE_RAIN (boot ∅)))
  = 1.
Proof.
  rewrite (proj1 rain_phase_cycle [1001; 2002; 3003; 4004]
             (set_currentMode MODE_RAIN (boot ∅)) eq_refl).
  - reflexivity.
  - cbn. lia.
  - reflexivity.
Defined.

(** ** Instances *)

Lemma tap_A_next_color_witness :
  exists s',
    run_buttons (passes 100 true false ++ passes 200 false false) (boot ∅)
    = Some s'
    /\ emitted (boot ∅) s' = [CycleColor]
    /\ selection s' = (0, 3, 1)
    /\ (EEPROM_read (eeprom s') 0, EEPROM_read (eeprom s') 1,
        EEPROM_read (eeprom s') 2) = selection s'.
Proof.
  exact (tap_A_next_color (boot ∅) (passes 100 true false)
           (passes 200 false false) eq_refl eq_refl eq_refl eq_refl eq_refl).
Defined.

Lemma tap_B_next_mode_witness :
  exists s',
    run_buttons (passes 100 false true ++ passes 200 false false) (boot ∅)
    = Some s'
    /\ emitted (boot ∅) s' = [CycleMode]
    /\ selection s' = (1, 3, 0)
    /\ (EEPROM_read (eeprom s') 0, EEPROM_read (eeprom s') 1,
        EEPROM_read (eeprom s') 2) = selection s'.
Proof.
  exact (tap_B_next_mode (boot ∅) (passes 100 false true)
           (passes 200 false false) eq_refl eq_refl eq_refl eq_refl eq_refl).
Defined.

Lemma hold_B_tap_A_witness :
  exists s3 s4,
    run_buttons (passes 100 false true ++ passes 200 true true
                 ++ passes 300 false true) (boot ∅) = Some s3
    /\ emitted (boot ∅) s3 = []
    /\ run_buttons (passes 400 false false) s3 = Some s4
    /\ emitted (boot ∅) s4 = [CycleMode].
Proof.
  destruct (hold_B_tap_A (boot ∅) (passes 100 false true)
              (passes 200 true true) (passes 300 false true)
              (passes 400 false false)
              eq_refl eq_refl eq_refl eq_refl eq_refl eq_refl)
    as (s3 & s4 & H1 & H2 & H3 & H4 & _).
  exists s3, s4. auto.
Defined.


Lemma hold_A_tap_B_next_level_witness :
  exists s',
    run_buttons (passes 100 true false ++ passes 200 true true
                 ++ passes 300 true false ++ passes 400 false false) (boot ∅)
    = Some s'
    /\ selection s' = (0, 4, 0)
    /\ index brightnessValues (inputBrightnessLevel s')
       = Some (targetBrightness s')
    /\ (EEPROM_read (eeprom s') 0, EEPROM_read (eeprom s') 1,
        EEPROM_read (eeprom s') 2) = selection s'.
Proof.
  exact (hold_A_tap_B_next_level (boot ∅) (passes 100 true false)
           (passes 200 true true) (passes 300 true false)
           (passes 400 false false)
           eq_refl eq_refl eq_refl eq_refl eq_refl eq_refl eq_refl).
Defined.

Lemma both_buttons_together_witness :
  exists s',
    run_buttons (passes 100 true true ++ passes 200 false false) (boot ∅)
    = Some s'
    /\ emitted (boot ∅) s' = [CycleMode].
Proof.
  exact (both_buttons_together (boot ∅) (passes 100 true true)
           (passes 200 false false) eq_refl eq_refl eq_refl eq_refl).
Defined.
